(** * RFP analyzer: chunking, embedding aggregation and flattening

    A shallow embedding of [src/rfp_analyzer.py] (class [RFPAnalyzer]):
    the text chunker [_split_text_into_chunks], the embedding aggregator
    [get_embedding], the response parser of [analyze_rfp_with_gpt] and the
    document flattening of [store_rfp_in_search].

    Python [str] values are sequences of Unicode code points, integers are
    [Z], floats are IEEE binary64 ([PrimFloat.float]), and the values that
    [json.loads] produces are the inductive type [json]. *)

From Stdlib Require Import List ZArith NArith Lia Bool String Ascii Floats.
From Stdlib Require Import DecimalString.
Import ListNotations.

Set Warnings "-register-all".

(* ================================================================== *)
(** * Python strings                                                   *)
(* ================================================================== *)

(** A Python [str]: the list of its code points; [len] counts code points. *)
Definition pystr := list N.

Definition len (s : pystr) : Z := Z.of_nat (List.length s).

(** Truth value of a [str] in a condition ([if current_chunk:]). *)
Definition nonempty (s : pystr) : bool :=
  match s with [] => false | _ :: _ => true end.

(** Source literals are written as UTF-8 string literals and decoded to
    code points by [py]. [cp] accumulates the code point being read and [k]
    counts the continuation bytes still expected. *)
Fixpoint utf8_decode (s : string) (cp : N) (k : nat) : pystr :=
  match s with
  | EmptyString => []
  | String a s' =>
      let b := N_of_ascii a in
      if (b <? 128)%N then b :: utf8_decode s' 0%N 0
      else if (b <? 192)%N then
        let cp' := (cp * 64 + (b - 128))%N in
        match k with
        | 0 => utf8_decode s' 0%N 0
        | 1 => cp' :: utf8_decode s' 0%N 0
        | S k' => utf8_decode s' cp' k'
        end
      else if (b <? 224)%N then utf8_decode s' (b - 192)%N 1
      else if (b <? 240)%N then utf8_decode s' (b - 224)%N 2
      else utf8_decode s' (b - 240)%N 3
  end.

Definition py (s : string) : pystr := utf8_decode s 0%N 0.

(** [a == b] on strings *)
Fixpoint pystr_eqb (a b : pystr) : bool :=
  match a, b with
  | [], [] => true
  | x :: a', y :: b' => (x =? y)%N && pystr_eqb a' b'
  | _, _ => false
  end.

(** [str.isspace] on one code point: the characters that [str.split()] and
    [str.strip()] treat as whitespace. *)
Definition isspace (c : N) : bool :=
  ((9 <=? c) && (c <=? 13) || (28 <=? c) && (c <=? 32)
   || (c =? 133) || (c =? 160) || (c =? 5760)
   || (8192 <=? c) && (c <=? 8202)
   || (c =? 8232) || (c =? 8233) || (c =? 8239) || (c =? 8287)
   || (c =? 12288))%N.

Fixpoint lstrip (s : pystr) : pystr :=
  match s with
  | [] => []
  | c :: s' => if isspace c then lstrip s' else s
  end.

(** [s.strip()] *)
Definition strip (s : pystr) : pystr := rev (lstrip (rev (lstrip s))).

(** [s.split()]: the maximal runs of non-whitespace characters, in order.
    [cur] holds the word being read, reversed. *)
Fixpoint split_ws_from (cur : pystr) (s : pystr) : list pystr :=
  match s with
  | [] => if nonempty cur then [rev cur] else []
  | c :: s' =>
      if isspace c then
        if nonempty cur then rev cur :: split_ws_from [] s'
        else split_ws_from [] s'
      else split_ws_from (c :: cur) s'
  end.

Definition split_ws (s : pystr) : list pystr := split_ws_from [] s.

Definition period : N := 46%N.
Definition space : N := 32%N.

(** Puts [c] in front of the first fragment. *)
Definition cons_first (c : N) (l : list pystr) : list pystr :=
  match l with
  | [] => [[c]]
  | h :: t => (c :: h) :: t
  end.

(** [s.split('. ')]: the fragments between the non-overlapping occurrences
    of the two-character delimiter, scanning from the left; always at least
    one fragment. *)
Fixpoint split_sentences (s : pystr) : list pystr :=
  match s with
  | [] => [[]]
  | c :: s' =>
      match s' with
      | c2 :: s'' =>
          if ((c =? period) && (c2 =? space))%N then [] :: split_sentences s''
          else cons_first c (split_sentences s')
      | [] => [[c]]
      end
  end.

(* ================================================================== *)
(** * The chunker: [_split_text_into_chunks]                           *)
(* ================================================================== *)

(** One iteration of the word loop
<<
    for word in words:
        if len(temp_chunk + " " + word) <= max_chunk_size:
            temp_chunk += " " + word if temp_chunk else word
        else:
            if temp_chunk:
                chunks.append(temp_chunk.strip())
            temp_chunk = word
>>
    over the state [(chunks, temp_chunk)]. *)
Definition pack_word (max_chunk_size : Z) (st : list pystr * pystr)
    (word : pystr) : list pystr * pystr :=
  let '(chunks, temp_chunk) := st in
  if (len (temp_chunk ++ py " " ++ word) <=? max_chunk_size)%Z then
    (chunks, if nonempty temp_chunk then temp_chunk ++ py " " ++ word else word)
  else
    (if nonempty temp_chunk then chunks ++ [strip temp_chunk] else chunks, word).

(** The whole word loop, started with [temp_chunk = ""]. *)
Definition pack_words (max_chunk_size : Z) (chunks : list pystr)
    (words : list pystr) : list pystr * pystr :=
  fold_left (pack_word max_chunk_size) words (chunks, []).

(** One iteration of the sentence loop over [(chunks, current_chunk)]. *)
Definition sentence_step (max_chunk_size : Z) (st : list pystr * pystr)
    (sentence : pystr) : list pystr * pystr :=
  let '(chunks, current_chunk) := st in
  let test_chunk :=
    if nonempty current_chunk then current_chunk ++ sentence ++ py ". "
    else sentence ++ py ". " in
  if (len test_chunk <=? max_chunk_size)%Z then (chunks, test_chunk)
  else if nonempty current_chunk then
    (chunks ++ [strip current_chunk], sentence ++ py ". ")
  else if (len sentence >? max_chunk_size)%Z then
    let '(chunks', temp_chunk) :=
      pack_words max_chunk_size chunks (split_ws sentence) in
    (chunks', if nonempty temp_chunk then temp_chunk ++ py ". "
              else current_chunk)
  else (chunks, sentence ++ py ". ").

(** The sentence pass, including the final [chunks.append] of the last
    [current_chunk]. *)
Definition sentence_pass (max_chunk_size : Z) (text : pystr) : list pystr :=
  let '(chunks, current_chunk) :=
    fold_left (sentence_step max_chunk_size) (split_sentences text) ([], []) in
  if nonempty current_chunk then chunks ++ [strip current_chunk] else chunks.

(** One iteration of the re-scan loop over [final_chunks]. *)
Definition rescan_step (max_chunk_size : Z) (final_chunks : list pystr)
    (chunk : pystr) : list pystr :=
  if (len chunk <=? max_chunk_size)%Z then final_chunks ++ [chunk]
  else
    let '(final_chunks', temp_chunk) :=
      pack_words max_chunk_size final_chunks (split_ws chunk) in
    if nonempty temp_chunk then final_chunks' ++ [strip temp_chunk]
    else final_chunks'.

Definition _split_text_into_chunks (text : pystr) (max_chunk_size : Z)
    : list pystr :=
  fold_left (rescan_step max_chunk_size) (sentence_pass max_chunk_size text) [].

(* ================================================================== *)
(** * Values, exceptions and the effects of the analyzer               *)
(* ================================================================== *)

(** The values [json.loads] returns. A [dict] keeps its items in insertion
    order; a key is looked up at its first item. *)
Inductive json : Type :=
| JNull
| JBool (b : bool)
| JInt (z : Z)
| JFloat (f : float)
| JStr (s : pystr)
| JList (l : list json)
| JDict (d : list (pystr * json)).

Definition dict := list (pystr * json).

(** An embedding: a Python list of floats. *)
Definition vector := list float.

(** The exceptions the modelled code can meet. *)
Inductive exn : Type :=
| ServiceError (msg : pystr)     (* raised inside an external client call *)
| JSONDecodeError (msg : pystr)  (* raised by [json.loads] *)
| AttributeError (type_name attr : pystr)  (* [x.get] on a non-dict *)
| ValueError (msg : pystr).      (* raised by numpy on a ragged array *)

(** [key in d] *)
Fixpoint dict_in (key : pystr) (d : dict) : bool :=
  match d with
  | [] => false
  | (k, _) :: d' => if pystr_eqb k key then true else dict_in key d'
  end.

(** [d[key]] for a key that is present, [d.get(key)] otherwise *)
Fixpoint dict_lookup (key : pystr) (d : dict) : option json :=
  match d with
  | [] => None
  | (k, v) :: d' => if pystr_eqb k key then Some v else dict_lookup key d'
  end.

(** [d.get(key, default)] *)
Definition dict_get (d : dict) (key : pystr) (default : json) : json :=
  match dict_lookup key d with
  | Some v => v
  | None => default
  end.

(** [type(v).__name__] *)
Definition type_name (v : json) : pystr :=
  match v with
  | JNull => py "NoneType"
  | JBool _ => py "bool"
  | JInt _ => py "int"
  | JFloat _ => py "float"
  | JStr _ => py "str"
  | JList _ => py "list"
  | JDict _ => py "dict"
  end.

(** [v.get(key, default)] on an arbitrary value: only a dict has [get]. *)
Definition value_get (v : json) (key : pystr) (default : json) : exn + json :=
  match v with
  | JDict d => inr (dict_get d key default)
  | _ => inl (AttributeError (type_name v) (py "get"))
  end.

(** Truth value of a value in a condition ([if req]). *)
Definition truthy (v : json) : bool :=
  match v with
  | JNull => false
  | JBool b => b
  | JInt z => negb (z =? 0)%Z
  | JFloat f => negb (PrimFloat.eqb f 0%float)
  | JStr s => nonempty s
  | JList l => match l with [] => false | _ => true end
  | JDict d => match d with [] => false | _ => true end
  end.

(** [str(n)] for an int *)
Definition str_of_Z (n : Z) : pystr := py (NilZero.string_of_int (Z.to_int n)).

(** [float(n)] for an int below 2^53 *)
Definition float_of_Z (n : Z) : float := PrimFloat.of_uint63 (Uint63.of_Z n).

(** What the Streamlit calls of the modelled functions show to the user.
    [StError label e] is [st.error(f"{label}{str(e)}")]. *)
Inductive st_event : Type :=
| StWarning (msg : pystr)
| StWrite (msg : pystr)
| StProgress (value : float)
| StError (label : pystr) (e : option exn).

(** The stored record built by [store_rfp_in_search]. *)
Record document : Type := {
  doc_id : pystr;
  doc_title : pystr;
  doc_content : pystr;
  doc_requirements : pystr;
  doc_project_type : json;
  doc_budget_range : json;
  doc_submission_deadline : json;
  doc_evaluation_criteria : pystr;
  doc_created_date : pystr;
  doc_content_vector : vector
}.

(** The external collaborators and library functions, by what they answer.
    The embedding service sees the inputs of the earlier requests. *)
Record services : Type := {
  embeddings_response : list pystr -> pystr -> exn + vector;
  chat_response : pystr -> exn + pystr;
  upload_response : document -> exn + Z;   (* [len(result)] *)
  json_loads : pystr -> exn + json;
  json_dumps : json -> pystr;              (* [ensure_ascii=False] *)
  py_repr : json -> pystr;                 (* [str(v)] of a float, list or dict *)
  prompt_template : pystr -> pystr;        (* the analysis prompt around the RFP text *)
  now_id : pystr;                          (* [now().strftime('%Y%m%d_%H%M%S')] *)
  now_iso : pystr                          (* [now().isoformat()] *)
}.

(** Everything the analyzer does to the outside: the requests it sent, each
    with its outcome, and the user-interface events, oldest first. *)
Record world : Type := {
  embed_log : list (pystr * (exn + vector));
  chat_log : list (pystr * (exn + pystr));
  upload_log : list (document * (exn + Z));
  ui_log : list st_event
}.

Definition world0 : world :=
  {| embed_log := []; chat_log := []; upload_log := []; ui_log := [] |}.

(** Computations that read and extend the world and may raise. *)
Definition M (A : Type) : Type := world -> (exn + A) * world.

Definition ret {A} (a : A) : M A := fun w => (inr a, w).

Definition bind {A B} (m : M A) (k : A -> M B) : M B :=
  fun w =>
    match m w with
    | (inr a, w') => k a w'
    | (inl e, w') => (inl e, w')
    end.

(** [try: m  except Exception as e: handler e] *)
Definition try_except {A} (m : M A) (handler : exn -> M A) : M A :=
  fun w =>
    match m w with
    | (inl e, w') => handler e w'
    | r => r
    end.

Definition lift {A} (r : exn + A) : M A := fun w => (r, w).

Declare Scope py_scope.
Delimit Scope py_scope with py_m.
Notation "x <- m ;; k" := (bind m (fun x => k))
  (at level 61, m at next level, right associativity) : py_scope.
Notation "m ;; k" := (bind m (fun _ => k))
  (at level 61, right associativity) : py_scope.
Local Open Scope py_scope.

(** The same sequencing for steps that only compute or raise. *)
Definition and_then {A B} (r : exn + A) (k : A -> exn + B) : exn + B :=
  match r with
  | inr a => k a
  | inl e => inl e
  end.

Notation "'let?' x := r 'in' k" := (and_then r (fun x => k))
  (at level 10, x name, r at level 100, k at level 200) : py_scope.

Definition st_emit (ev : st_event) : M unit :=
  fun w =>
    (inr tt, {| embed_log := embed_log w; chat_log := chat_log w;
                upload_log := upload_log w; ui_log := ui_log w ++ [ev] |}).

(* ================================================================== *)
(** * The embedding aggregator: [get_embedding]                        *)
(* ================================================================== *)

Definition vec_add (a b : vector) : vector :=
  map (fun p => (fst p + snd p)%float) (combine a b).

(** [np.mean(embeddings, axis=0).tolist()] for a non-empty list of rows of
    two or more components, as embeddings are: numpy then adds the rows
    one after the other, from the first one on, and divides the sums by
    the number of rows; rows of different lengths are refused. For rows
    of a single component numpy adds the numbers pairwise instead, and
    the last bits of the result can differ from this definition; the
    statements below that give the value of a mean are about rows of 1536
    components. The caller guards the call by [if embeddings:], so the
    empty list never comes. *)
Definition np_mean_axis0 (embeddings : list vector) : exn + vector :=
  match embeddings with
  | [] => inl (ValueError (py "mean of empty sequence"))
  | row :: rows =>
      if forallb (fun r => Nat.eqb (List.length r) (List.length row)) rows then
        let n := float_of_Z (Z.of_nat (List.length embeddings)) in
        inr (map (fun x => (x / n)%float) (fold_left vec_add rows row))
      else inl (ValueError (py "inhomogeneous shape"))
  end.

Section Analyzer.

Variable svc : services.

(** [self.openai_client.embeddings.create(input=..., model=...)] followed by
    [response.data[0].embedding]. *)
Definition embeddings_create (input : pystr) : M vector :=
  fun w =>
    let r := embeddings_response svc (map fst (embed_log w)) input in
    (r, {| embed_log := embed_log w ++ [(input, r)]; chat_log := chat_log w;
           upload_log := upload_log w; ui_log := ui_log w |}).

(** The loop [for i, chunk in enumerate(chunks)] of the long-text branch;
    [n] is [len(chunks)] and [i] the index of the first chunk left. *)
Fixpoint embed_chunks (n i : Z) (chunks : list pystr)
    (embeddings : list vector) : M (list vector) :=
  match chunks with
  | [] => ret embeddings
  | chunk :: rest =>
      st_emit (StWrite (py "   청크 " ++ str_of_Z (i + 1) ++ py "/"
                        ++ str_of_Z n ++ py " 처리 중...")) ;;
      embedding <- embeddings_create chunk ;;
      st_emit (StProgress (float_of_Z (i + 1) / float_of_Z n)) ;;
      embed_chunks n (i + 1) rest (embeddings ++ [embedding])
  end.

Definition max_chunk_size : Z := 4000.

Definition get_embedding (text : pystr) : M vector :=
  try_except
    (if (len text <=? max_chunk_size)%Z then
       embeddings_create text
     else
       st_emit (StWarning (py "⚠️ 텍스트가 길어서 청크 단위로 처리합니다. (길이: "
                           ++ str_of_Z (len text) ++ py " 문자)")) ;;
       let chunks := _split_text_into_chunks text max_chunk_size in
       st_emit (StProgress 0%float) ;;
       embeddings <- embed_chunks (Z.of_nat (List.length chunks)) 0 chunks [] ;;
       match embeddings with
       | [] => ret []
       | _ :: _ => lift (np_mean_axis0 embeddings)
       end)
    (fun e =>
       st_emit (StError (py "❌ 임베딩 생성 오류: ") (Some e)) ;;
       ret []).

(* ================================================================== *)
(** * The response parser of [analyze_rfp_with_gpt]                    *)
(* ================================================================== *)

Definition open_brace : N := 123%N.
Definition close_brace : N := 125%N.

(** The longest prefix of [s] that ends with a closing brace: what the
    greedy [.*\}] matches at the start of [s] under [re.DOTALL]. *)
Fixpoint longest_close (s : pystr) : option pystr :=
  match s with
  | [] => None
  | c :: s' =>
      match longest_close s' with
      | Some m => Some (c :: m)
      | None => if (c =? close_brace)%N then Some [c] else None
      end
  end.

(** [re.search(r'\{.*\}', content, re.DOTALL)] and [.group()]: the match
    at the leftmost position where one exists. *)
Fixpoint re_search_braces (content : pystr) : option pystr :=
  match content with
  | [] => None
  | c :: rest =>
      if (c =? open_brace)%N then
        match longest_close rest with
        | Some m => Some (c :: m)
        | None => re_search_braces rest
        end
      else re_search_braces rest
  end.

(** [self.openai_client.chat.completions.create(...)] followed by
    [response.choices[0].message.content]. *)
Definition chat_create (prompt : pystr) : M pystr :=
  fun w =>
    let r := chat_response svc prompt in
    (r, {| embed_log := embed_log w; chat_log := chat_log w ++ [(prompt, r)];
           upload_log := upload_log w; ui_log := ui_log w |}).

Definition analyze_rfp_with_gpt (rfp_content : pystr) : M json :=
  let prompt := prompt_template svc rfp_content in
  try_except
    (content <- chat_create prompt ;;
     match re_search_braces content with
     | Some span => lift (json_loads svc span)
     | None =>
         st_emit (StError (py "❌ GPT 응답에서 JSON을 찾을 수 없습니다.") None) ;;
         ret (JDict [])
     end)
    (fun e =>
       st_emit (StError (py "❌ RFP 분석 오류: ") (Some e)) ;;
       ret (JDict [])).

(* ================================================================== *)
(** * Flattening for storage: [store_rfp_in_search]                    *)
(* ================================================================== *)

(** [f"{v}"]: a [str] is inserted as it is, other values through [str]. *)
Definition format_value (v : json) : pystr :=
  match v with
  | JStr s => s
  | JNull => py "None"
  | JBool true => py "True"
  | JBool false => py "False"
  | JInt z => str_of_Z z
  | _ => py_repr svc v
  end.

(** The block that sets [document_title]; [pdf_title] is [None] or a [str]. *)
Definition document_title (rfp_analysis : dict) (pdf_title : option pystr)
    : exn + pystr :=
  match pdf_title with
  | Some (c :: t) => inr (c :: t)
  | _ =>
      let? project_overview :=
        match dict_lookup (py "1_핵심개요") rfp_analysis with
        | Some core_overview =>
            let? background := value_get core_overview (py "배경목적") (JStr []) in
            let? outcome := value_get core_overview (py "기대성과") (JStr []) in
            inr (strip (format_value background ++ py " "
                        ++ format_value outcome))
        | None => inr []
        end in
      inr (if nonempty project_overview then firstn 100 project_overview
           else py "RFP Document")
  end.

Definition budget_range (rfp_analysis : dict) : exn + json :=
  match dict_lookup (py "3_예산가격") rfp_analysis with
  | Some budget_info => value_get budget_info (py "추정예산") (JStr [])
  | None => inr (JStr [])
  end.

Definition submission_deadline (rfp_analysis : dict) : exn + json :=
  match dict_lookup (py "2_일정마일스톤") rfp_analysis with
  | Some schedule_info => value_get schedule_info (py "질의응답마감") (JStr [])
  | None => inr (JStr [])
  end.

Definition technical_requirements (rfp_analysis : dict) : exn + list json :=
  match dict_lookup (py "5_요구사항") rfp_analysis with
  | Some requirements_info =>
      let? functional := value_get requirements_info (py "기능요구") (JStr []) in
      let? non_functional := value_get requirements_info (py "비기능요구") (JStr []) in
      let? interface := value_get requirements_info (py "인터페이스연계") (JStr []) in
      let? data := value_get requirements_info (py "데이터") (JStr []) in
      let? compatibility := value_get requirements_info (py "호환성표준") (JStr []) in
      inr (filter truthy
             [functional; non_functional; interface; data; compatibility])
  | None => inr []
  end.

Definition evaluation_criteria (rfp_analysis : dict) : exn + dict :=
  match dict_lookup (py "4_평가선정기준") rfp_analysis with
  | Some eval_info =>
      let? scoring := value_get eval_info (py "정량정성배점") (JStr []) in
      let? bonus := value_get eval_info (py "가점감점요건") (JStr []) in
      let? knockout := value_get eval_info (py "탈락필수요건") (JStr []) in
      inr [(py "정량정성배점", scoring); (py "가점감점요건", bonus);
           (py "탈락필수요건", knockout)]
  | None => inr []
  end.

(** Everything between the embedding and the upload: the dict literal
    [document] with the values computed before it. *)
Definition build_document (rfp_analysis : dict) (rfp_content : pystr)
    (pdf_title : option pystr) (content_vector : vector) : exn + document :=
  let? title := document_title rfp_analysis pdf_title in
  let? budget := budget_range rfp_analysis in
  let? deadline := submission_deadline rfp_analysis in
  let? requirements := technical_requirements rfp_analysis in
  let? criteria := evaluation_criteria rfp_analysis in
  inr {| doc_id := py "rfp_" ++ now_id svc;
         doc_title := title;
         doc_content := rfp_content;
         doc_requirements := json_dumps svc (JList requirements);
         doc_project_type := dict_get rfp_analysis (py "project_type") (JStr []);
         doc_budget_range := budget;
         doc_submission_deadline := deadline;
         doc_evaluation_criteria := json_dumps svc (JDict criteria);
         doc_created_date := now_iso svc ++ py "Z";
         doc_content_vector := content_vector |}.

(** [self.search_client.upload_documents([document])], answering
    [len(result)]. *)
Definition upload_documents (doc : document) : M Z :=
  fun w =>
    let r := upload_response svc doc in
    (r, {| embed_log := embed_log w; chat_log := chat_log w;
           upload_log := upload_log w ++ [(doc, r)]; ui_log := ui_log w |}).

Definition store_rfp_in_search (rfp_analysis : dict) (rfp_content : pystr)
    (pdf_title : option pystr) : M bool :=
  try_except
    (content_vector <- get_embedding rfp_content ;;
     doc <- lift (build_document rfp_analysis rfp_content pdf_title
                    content_vector) ;;
     result <- upload_documents doc ;;
     ret (0 <? result)%Z)
    (fun e =>
       st_emit (StError (py "❌ RFP 저장 오류: ") (Some e)) ;;
       ret false).

End Analyzer.

(** The top-level keys of the JSON form that the analysis prompt asks for:
    the eleven categories and the two auxiliary keys. *)
Definition schema_keys : list pystr :=
  [py "1_핵심개요"; py "2_일정마일스톤"; py "3_예산가격"; py "4_평가선정기준";
   py "5_요구사항"; py "6_보안준법"; py "7_서비스수준운영"; py "8_품질검수인수";
   py "9_계약법무"; py "10_공급사자격역량"; py "11_제출형식지시";
   py "기술솔루션매핑"; py "핵심키워드"].

(* ================================================================== *)
(** * Similar documents: [search_similar_rfps]                         *)
(* ================================================================== *)

(** [sep.join(items)] *)
Definition str_join (sep : pystr) (items : list pystr) : pystr :=
  match items with
  | [] => []
  | first :: rest => first ++ List.concat (map (fun item => sep ++ item) rest)
  end.

(** [result[key]] on a hit of the search client: a field the service did
    not return raises [KeyError] inside the result object, and [str(e)] is
    the key between single quotes. *)
Definition hit_field (result : dict) (key : pystr) : exn + json :=
  match dict_lookup key result with
  | Some v => inr v
  | None => inl (ServiceError (py "'" ++ key ++ py "'"))
  end.

(** The dict literal appended for one hit. *)
Definition similar_rfp (result : dict) : exn + dict :=
  let? title := hit_field result (py "title") in
  let? project_type := hit_field result (py "project_type") in
  let? requirements := hit_field result (py "requirements") in
  let? criteria := hit_field result (py "evaluation_criteria") in
  let? created_date := hit_field result (py "created_date") in
  inr [(py "title", title); (py "project_type", project_type);
       (py "requirements", requirements);
       (py "evaluation_criteria", criteria);
       (py "created_date", created_date);
       (py "score", dict_get result (py "@search.score") (JInt 0))].

(** The loop [for result in results]. *)
Fixpoint collect_similar (results : list dict) (similar_rfps : list dict)
    : exn + list dict :=
  match results with
  | [] => inr similar_rfps
  | result :: rest =>
      let? item := similar_rfp result in
      collect_similar rest (similar_rfps ++ [item])
  end.

(** [search] is what [self.search_client.search] answers to the search
    text, the query vector and the limit (used for [k_nearest_neighbors]
    and for [top]): the hits in the order of the service. *)
Definition search_similar_rfps (svc : services)
    (search : pystr -> vector -> Z -> exn + list dict)
    (current_rfp_keywords : list pystr) (limit : Z) : M (list dict) :=
  try_except
    (let search_query := str_join (py " ") current_rfp_keywords in
     query_vector <- get_embedding svc search_query ;;
     match query_vector with
     | [] => ret []
     | _ :: _ =>
         results <- lift (search search_query query_vector limit) ;;
         lift (collect_similar results [])
     end)
    (fun e =>
       st_emit (StError (py "❌ 유사 RFP 검색 오류: ") (Some e)) ;;
       ret []).

(* ================================================================== *)
(** * Questions: [ask_question_about_rfp]                              *)
(* ================================================================== *)

Definition newline : pystr := [10%N].
Definition double_quote : pystr := [34%N].

(** The f-string [analysis_context]; [dumped] is
    [json.dumps(rfp_analysis, ensure_ascii=False, indent=2)]. *)
Definition qa_analysis_context (dumped : pystr) : pystr :=
  newline
  ++ py "                " ++ newline
  ++ py "                RFP 분석 결과:" ++ newline
  ++ py "                " ++ dumped ++ newline
  ++ py "                ".

(** The f-string [prompt]; [content] is [rfp_content[:3000]]. *)
Definition qa_prompt (content analysis_context question : pystr) : pystr :=
  newline
  ++ py "            RFP 문서 내용을 바탕으로 질문에 답변해주세요." ++ newline
  ++ py "            " ++ newline
  ++ py "            RFP 내용:" ++ newline
  ++ py "            " ++ content
  ++ py "  # 토큰 제한을 고려하여 3000자로 제한" ++ newline
  ++ py "            " ++ newline
  ++ py "            " ++ analysis_context ++ newline
  ++ py "            " ++ newline
  ++ py "            사용자 질문: " ++ question ++ newline
  ++ py "            " ++ newline
  ++ py "            답변 지침:" ++ newline
  ++ py "            1. RFP 문서에서 직접 찾을 수 있는 정보를 우선 제공" ++ newline
  ++ py "            2. 구체적인 수치, 조건, 일정 등 정확히 명시" ++ newline
  ++ py "            3. 관련 조항이나 섹션 참조" ++ newline
  ++ py "            4. 정보가 명확하지 않으면 " ++ double_quote
  ++ py "문서에서 명확한 정보를 찾을 수 없습니다" ++ double_quote
  ++ py " 표시" ++ newline
  ++ py "            5. 한국어로 간결하게 답변" ++ newline
  ++ py "            " ++ newline
  ++ py "            답변:" ++ newline
  ++ py "            ".

(** [answer] is what the chat service answers to the prompt of a question
    (system message of the question answering, [max_tokens=1000]);
    [dumps_indent] is [json.dumps] with [indent=2]; [rfp_analysis] is
    [None] or a dict. *)
Definition ask_question_about_rfp (answer : pystr -> exn + pystr)
    (dumps_indent : json -> pystr) (question rfp_content : pystr)
    (rfp_analysis : option dict) : M pystr :=
  try_except
    (let analysis_context :=
       match rfp_analysis with
       | Some (item :: items) =>
           qa_analysis_context (dumps_indent (JDict (item :: items)))
       | _ => []
       end in
     let prompt :=
       qa_prompt (firstn 3000 rfp_content) analysis_context question in
     fun w =>
       let r := answer prompt in
       (r, {| embed_log := embed_log w;
              chat_log := chat_log w ++ [(prompt, r)];
              upload_log := upload_log w; ui_log := ui_log w |}))
    (fun e =>
       st_emit (StError (py "❌ 질의응답 처리 오류: ") (Some e)) ;;
       ret (py "질문 처리 중 오류가 발생했습니다. 다시 시도해주세요.")).

(* ================================================================== *)
(** * Text extraction: [extract_text_from_file]                        *)
(* ================================================================== *)

(** The exceptions the extraction tells apart, each with its [str(e)];
    [OtherError] also carries [type(e).__name__]. *)
Inductive io_error : Type :=
| FileNotFoundError (msg : pystr)
| PermissionError (msg : pystr)
| UnicodeDecodeError (msg : pystr)
| OtherError (type_name msg : pystr).

Definition io_message (e : io_error) : pystr :=
  match e with
  | FileNotFoundError msg | PermissionError msg | UnicodeDecodeError msg
  | OtherError _ msg => msg
  end.

(** What the extraction shows to the user. *)
Inductive notice : Type :=
| NInfo (msg : pystr)
| NSuccess (msg : pystr)
| NWarning (msg : pystr)
| NError (msg : pystr)
| NProgress (value : float).

(** A PDF as [PyPDF2.PdfReader] gives it: the title of its metadata
    ([None] when there is no metadata or no title, or when reading them
    raises) and, page by page, the text of [extract_text()] or the
    exception of the page. *)
Record pdf_reader : Type := {
  pdf_metadata_title : option pystr;
  pdf_pages : list (io_error + pystr)
}.

(** A file as the operating system and the parsing libraries show it. *)
Record file : Type := {
  file_path : pystr;        (* [os.path.abspath(file_path)] *)
  file_exists : bool;       (* [os.path.exists] *)
  file_isfile : bool;       (* [os.path.isfile] *)
  file_size : Z;            (* [os.path.getsize] *)
  file_extension : pystr;   (* [os.path.splitext(file_path)[1].lower()] *)
  file_stem : pystr;  (* [os.path.splitext(os.path.basename(file_path))[0]] *)
  open_pdf : io_error + pdf_reader;
  open_docx : io_error + list pystr;    (* the texts of [doc.paragraphs] *)
  read_txt : io_error + pystr           (* [file.read()] as UTF-8 *)
}.

(** [not s.strip()] *)
Definition is_blank (s : pystr) : bool := negb (nonempty (strip s)).

(** [s.split('\n')[0]] *)
Fixpoint first_line (s : pystr) : pystr :=
  match s with
  | [] => []
  | c :: s' => if (c =? 10)%N then [] else c :: first_line s'
  end.

(** The four [except] clauses. *)
Definition report_error (e : io_error) : list notice :=
  match e with
  | FileNotFoundError msg => [NError (py "❌ 파일을 찾을 수 없습니다: " ++ msg)]
  | PermissionError msg => [NError (py "❌ 파일 접근 권한이 없습니다: " ++ msg)]
  | UnicodeDecodeError msg =>
      [NError (py "❌ 파일 인코딩 오류: " ++ msg);
       NInfo (py "   다른 인코딩으로 시도해보세요.")]
  | OtherError type msg =>
      [NError (py "❌ 파일 텍스트 추출 오류: " ++ msg);
       NInfo (py "   오류 타입: " ++ type)]
  end.

(** A title found in the document, or else the file name:
    [if not title: title = stem]. *)
Definition title_or_stem (found : option pystr) (stem : pystr)
    : pystr * list notice :=
  match found with
  | Some (c :: t) => (c :: t, [])
  | _ => (stem, [NInfo (py "📋 파일명을 제목으로 사용: " ++ stem)])
  end.

(** One iteration of [for i in range(pages_to_process)] over the text, the
    notices and the index of the page. *)
Definition read_page (pages_to_process : Z)
    (st : pystr * list notice * Z) (page : io_error + pystr)
    : pystr * list notice * Z :=
  let '(text, notices, i) := st in
  match page with
  | inr page_text =>
      (if nonempty page_text then text ++ page_text ++ newline else text,
       notices ++ [NProgress (float_of_Z (i + 1) / float_of_Z pages_to_process)],
       (i + 1)%Z)
  | inl page_error =>
      (text,
       notices ++ [NWarning (py "   페이지 " ++ str_of_Z (i + 1)
                             ++ py " 처리 오류: " ++ io_message page_error)],
       (i + 1)%Z)
  end.

Definition extract_pdf (f : file) (notices : list notice)
    : option (pystr * pystr) * list notice :=
  let notices := notices ++ [NInfo (py "📖 PDF 파일 처리 중...")] in
  match open_pdf f with
  | inl e => (None, notices ++ report_error e)
  | inr reader =>
      let total_pages := Z.of_nat (List.length (pdf_pages reader)) in
      let notices :=
        notices ++ [NInfo (py "📄 PDF 페이지 수: " ++ str_of_Z total_pages)] in
      let '(found, notices) :=
        match pdf_metadata_title reader with
        | Some (c :: t) =>
            (Some (strip (c :: t)),
             notices ++ [NInfo (py "📋 PDF 제목: " ++ strip (c :: t))])
        | _ => (None, notices)
        end in
      let '(pdf_title, told) := title_or_stem found (file_stem f) in
      let notices := notices ++ told in
      let max_pages := 200%Z in
      let '(pages_to_process, notices) :=
        if (total_pages >? max_pages)%Z then
          (max_pages,
           notices ++ [NWarning (py "⚠️ PDF 페이지 수가 " ++ str_of_Z max_pages
                                 ++ py "페이지를 초과합니다. 처음 "
                                 ++ str_of_Z max_pages
                                 ++ py "페이지만 처리합니다.")])
        else (total_pages, notices) in
      let '(text, notices, _) :=
        fold_left (read_page pages_to_process)
          (firstn (Z.to_nat pages_to_process) (pdf_pages reader))
          ([], notices ++ [NProgress 0%float], 0%Z) in
      if is_blank text then
        (None, notices ++ [NError (py "❌ PDF에서 텍스트를 추출할 수 없습니다.")])
      else
        (Some (text, pdf_title),
         notices ++ [NSuccess (py "✅ PDF 텍스트 추출 완료: " ++ str_of_Z (len text)
                               ++ py " 문자 (처리된 페이지: "
                               ++ str_of_Z pages_to_process ++ py "/"
                               ++ str_of_Z total_pages ++ py ")")])
  end.

(** [if candidate and len(candidate) < 100]: short enough for a title. *)
Definition short_title (candidate : pystr) : option pystr :=
  if nonempty candidate && (len candidate <? 100)%Z then Some candidate
  else None.

(** The loop over the paragraphs: [text += paragraph.text + "\n"] for
    every paragraph that is not blank. *)
Definition docx_text (paragraphs : list pystr) : pystr :=
  fold_left (fun text paragraph =>
               if is_blank paragraph then text
               else text ++ paragraph ++ newline)
    paragraphs [].

Definition extract_docx (f : file) (notices : list notice)
    : option (pystr * pystr) * list notice :=
  let notices := notices ++ [NInfo (py "📝 DOCX 파일 처리 중...")] in
  match open_docx f with
  | inl e => (None, notices ++ report_error e)
  | inr paragraphs =>
      let notices :=
        notices ++ [NInfo (py "📄 DOCX 단락 수: "
                           ++ str_of_Z (Z.of_nat (List.length paragraphs)))] in
      let found :=
        match paragraphs with
        | first :: _ => short_title (strip first)
        | [] => None
        end in
      let notices :=
        match found with
        | Some docx_title => notices ++ [NInfo (py "📋 DOCX 제목: " ++ docx_title)]
        | None => notices
        end in
      let '(docx_title, told) := title_or_stem found (file_stem f) in
      let notices := notices ++ told in
      let text := docx_text paragraphs in
      if is_blank text then
        (None, notices ++ [NError (py "❌ DOCX에서 텍스트를 추출할 수 없습니다.")])
      else
        (Some (text, docx_title),
         notices ++ [NSuccess (py "✅ DOCX 텍스트 추출 완료: "
                               ++ str_of_Z (len text) ++ py " 문자")])
  end.

Definition extract_txt (f : file) (notices : list notice)
    : option (pystr * pystr) * list notice :=
  let notices := notices ++ [NInfo (py "📄 TXT 파일 처리 중...")] in
  match read_txt f with
  | inl e => (None, notices ++ report_error e)
  | inr content =>
      if is_blank content then
        (None, notices ++ [NError (py "❌ TXT 파일이 비어있습니다.")])
      else
        let found := short_title (strip (first_line content)) in
        let notices :=
          match found with
          | Some txt_title => notices ++ [NInfo (py "📋 TXT 제목: " ++ txt_title)]
          | None => notices
          end in
        let '(txt_title, told) := title_or_stem found (file_stem f) in
        let notices := notices ++ told in
        (Some (content, txt_title),
         notices ++ [NSuccess (py "✅ TXT 텍스트 추출 완료: "
                               ++ str_of_Z (len content) ++ py " 문자")])
  end.

(** The answer [(None, None)] is [None] here, and [(text, title)] is
    [Some (text, title)]; the notices are in the order they are shown. *)
Definition extract_text_from_file (f : file)
    : option (pystr * pystr) * list notice :=
  let notices := [NInfo (py "🔍 파일 경로: " ++ file_path f)] in
  if negb (file_exists f) then
    (None, notices ++ [NError (py "❌ 파일이 존재하지 않습니다: " ++ file_path f)])
  else if negb (file_isfile f) then
    (None, notices ++ [NError (py "❌ 경로가 파일이 아닙니다: " ++ file_path f)])
  else
    let notices :=
      notices ++ [NInfo (py "📊 파일 크기: " ++ str_of_Z (file_size f)
                         ++ py " bytes")] in
    if (file_size f =? 0)%Z then
      (None, notices ++ [NError (py "❌ 파일이 비어있습니다.")])
    else
      let notices :=
        notices ++ [NInfo (py "📄 파일 확장자: " ++ file_extension f)] in
      if pystr_eqb (file_extension f) (py ".pdf") then extract_pdf f notices
      else if pystr_eqb (file_extension f) (py ".docx") then
        extract_docx f notices
      else if pystr_eqb (file_extension f) (py ".txt") then
        extract_txt f notices
      else
        (None,
         notices ++ [NError (py "❌ 지원하지 않는 파일 형식입니다: "
                             ++ file_extension f);
                     NInfo (py "   지원 형식: .pdf, .docx, .txt")]).

(* ================================================================== *)
(** * Notions used in the statements                                   *)
(* ================================================================== *)

(** A word in the sense of [str.split()]: non-empty and free of whitespace. *)
Definition is_token (s : pystr) : bool :=
  nonempty s && forallb (fun c => negb (isspace c)) s.

(** The characters of a string that are not whitespace, in order. *)
Definition nonspace (s : pystr) : pystr :=
  filter (fun c => negb (isspace c)) s.

(** A fragment the sentence pass drops when it meets it with an empty
    [current_chunk]: longer than the limit and without any word. *)
Definition blank_overflow (max_chunk_size : Z) (sentence : pystr) : bool :=
  (len sentence >? max_chunk_size)%Z && negb (nonempty (nonspace sentence)).

(** No fragment of [text.split('. ')] is a blank overflow. *)
Definition no_blank_overflow (max_chunk_size : Z) (text : pystr) : bool :=
  forallb (fun s => negb (blank_overflow max_chunk_size s))
    (split_sentences text).

(** The characters of a string that are neither whitespace nor a period. *)
Definition letters (s : pystr) : pystr :=
  filter (fun c => negb (isspace c) && negb (c =? period)%N) s.

(** The characters selected by [p] in a loop state: those of the closed
    chunks followed by those of the chunk under construction. *)
Definition kept (p : N -> bool) (st : list pystr * pystr) : pystr :=
  filter p (List.concat (fst st) ++ snd st).

(** The embedding requests sent between two worlds, with their outcomes. *)
Definition requests_since (w w' : world) : list (pystr * (exn + vector)) :=
  skipn (List.length (embed_log w)) (embed_log w').

(** A logged request that got a vector back. *)
Definition succeeded (entry : pystr * (exn + vector)) : Prop :=
  exists v, snd entry = inr v.

(** A logged request whose outcome is what the service answers to its input
    after some history. *)
Definition answered (svc : services) (entry : pystr * (exn + vector)) : Prop :=
  exists history, snd entry = embeddings_response svc history (fst entry).

(** The contract of the embedding service: every request is answered by a
    vector of [dimension] floats. *)
Definition always_embeds (svc : services) (dimension : nat) : Prop :=
  forall history input,
    exists v, embeddings_response svc history input = inr v
              /\ List.length v = dimension.

(** The result of the long-text branch for the vectors [vs] of the chunks:
    no vector gives the empty list, and so does a mean that numpy refuses. *)
Definition aggregate (vs : list vector) : vector :=
  match vs with
  | [] => []
  | _ :: _ => match np_mean_axis0 vs with inr m => m | inl _ => [] end
  end.

(** Collaborators for concrete runs: an embedding service given by
    [embed], and fixed answers everywhere else. *)
Definition demo_services (embed : list pystr -> pystr -> exn + vector)
    : services :=
  {| embeddings_response := embed;
     chat_response := fun _ => inr (py "{}");
     upload_response := fun _ => inr 1%Z;
     json_loads := fun _ => inr (JDict []);
     json_dumps := fun _ => py "<json>";
     py_repr := fun _ => py "<repr>";
     prompt_template := fun rfp_content => rfp_content;
     now_id := py "20240101_000000";
     now_iso := py "2024-01-01T00:00:00" |}.

(** The five sub-fields of category 5 that make up [requirements], in the
    order functional, non-functional, interface and integration, data,
    compatibility and standards. *)
Definition requirement_keys : list pystr :=
  [py "기능요구"; py "비기능요구"; py "인터페이스연계"; py "데이터"; py "호환성표준"].

(** The three sub-fields of category 4 that make up
    [evaluation_criteria]. *)
Definition criteria_keys : list pystr :=
  [py "정량정성배점"; py "가점감점요건"; py "탈락필수요건"].

(** The mapping that binds each of the three evaluation sub-fields to the
    empty string. *)
Definition blank_criteria : dict :=
  map (fun key => (key, JStr [])) criteria_keys.

(** [if pdf_title:] *)
Definition title_given (pdf_title : option pystr) : bool :=
  match pdf_title with
  | Some t => nonempty t
  | None => false
  end.

(** A category is usable by the flattening when it is absent or a dict. *)
Definition category_ok (key : pystr) (rfp_analysis : dict) : bool :=
  match dict_lookup key rfp_analysis with
  | None | Some (JDict _) => true
  | Some _ => false
  end.

(** The sub-fields of a category: those of its mapping, and none when the
    category is absent. *)
Definition category_fields (key : pystr) (rfp_analysis : dict) : dict :=
  match dict_lookup key rfp_analysis with
  | Some (JDict fields) => fields
  | _ => []
  end.

(** The span as the specification words it, the first top-level balanced
    run of braces: from an opening brace to the closing brace that brings
    the nesting depth back to zero. [balanced_close depth s] reads [s] after an opening brace at
    nesting depth [depth]. *)
Fixpoint balanced_close (depth : nat) (s : pystr) : option pystr :=
  match s with
  | [] => None
  | c :: s' =>
      if (c =? open_brace)%N then
        option_map (cons c) (balanced_close (S depth) s')
      else if (c =? close_brace)%N then
        match depth with
        | 0 => Some [c]
        | S depth' => option_map (cons c) (balanced_close depth' s')
        end
      else option_map (cons c) (balanced_close depth s')
  end.

Fixpoint first_balanced_span (content : pystr) : option pystr :=
  match content with
  | [] => None
  | c :: rest =>
      if (c =? open_brace)%N then
        match balanced_close 0 rest with
        | Some m => Some (c :: m)
        | None => first_balanced_span rest
        end
      else first_balanced_span rest
  end.

(** A string between double quotes. *)
Definition quoted (s : pystr) : pystr := [34%N] ++ s ++ [34%N].

(** Collaborators for concrete runs of the analysis: the model replies
    [reply], and the parser [loads] reads the span. *)
Definition demo_parser (reply : pystr) (loads : pystr -> exn + json)
    : services :=
  {| embeddings_response := fun _ _ => inr [];
     chat_response := fun _ => inr reply;
     upload_response := fun _ => inr 1%Z;
     json_loads := loads;
     json_dumps := fun _ => py "<json>";
     py_repr := fun _ => py "<repr>";
     prompt_template := fun rfp_content => rfp_content;
     now_id := py "20240101_000000";
     now_iso := py "2024-01-01T00:00:00" |}.

(** What every chunk the word loop closes satisfies. *)
Definition bounded_or_token (max_chunk_size : Z) (chunk : pystr) : Prop :=
  (len chunk <= max_chunk_size)%Z \/ is_token chunk = true.

(** What the word loop maintains about [temp_chunk]. *)
Definition temp_ok (max_chunk_size : Z) (temp_chunk : pystr) : Prop :=
  temp_chunk = [] \/ bounded_or_token max_chunk_size temp_chunk.

(** A parser for concrete runs: it reads the one object [{"a": 1}] and
    refuses every other span. *)
Definition demo_loads (span : pystr) : exn + json :=
  if pystr_eqb span (py "{" ++ quoted (py "a") ++ py ": 1}")
  then inr (JDict [(py "a", JInt 1)])
  else inl (JSONDecodeError (py "Extra data")).

(** A chunk as the chunker hands it out: stripped, and with at least one
    character that is not whitespace. *)
Definition clean (chunk : pystr) : Prop :=
  strip chunk = chunk /\ nonspace chunk <> [].

(** A chunk under construction: empty, or with a character that is not
    whitespace. *)
Definition started (temp_chunk : pystr) : Prop :=
  temp_chunk = [] \/ nonspace temp_chunk <> [].

(** The fields a hit must have for [search_similar_rfps]. *)
Definition hit_keys : list pystr :=
  [py "title"; py "project_type"; py "requirements";
   py "evaluation_criteria"; py "created_date"].

Definition hit_complete (result : dict) : bool :=
  forallb (fun key => dict_in key result) hit_keys.

(** What is shown of a hit that has its fields: the five fields and the
    score, zero when the service gave none. *)
Definition shown_hit (result : dict) : dict :=
  map (fun key => (key, dict_get result key JNull)) hit_keys
  ++ [(py "score", dict_get result (py "@search.score") (JInt 0))].

(** The words of the input as the chunker meets them: the words, in the
    sense of [str.split()], of the fragments of [text.split('. ')]. *)
Definition input_words (text : pystr) : list pystr :=
  List.concat (map split_ws (split_sentences text)).

(** A chunk that is one word of the input, as it is or followed by the
    period the chunker puts after a fragment. *)
Definition word_chunk (text chunk : pystr) : Prop :=
  exists word,
    In word (input_words text)
    /\ (chunk = word \/ chunk = word ++ [period]).

(** A loop state of the sentence pass carries the word [t]: [t] is a word
    of a closed chunk or of the chunk under construction. *)
Definition carried (t : pystr) (st : list pystr * pystr) : Prop :=
  Exists (fun chunk => In t (split_ws chunk)) (fst st)
  \/ In t (split_ws (snd st)).

(** What a word of a chunk can be: the period alone, or a word of the
    input, as it is or with the period. *)
Definition word_or_period (text t : pystr) : Prop :=
  t = [period] \/ word_chunk text t.

(** A chunk made of such words only. *)
Definition words_from (text chunk : pystr) : Prop :=
  Forall (word_or_period text) (split_ws chunk).

(** What the sentence pass maintains: the closed chunks and the chunk
    under construction are made of words of the input, and the chunk under
    construction is empty or ends with the delimiter. *)
Definition pass_ok (text : pystr) (st : list pystr * pystr) : Prop :=
  Forall (words_from text) (fst st)
  /\ words_from text (snd st)
  /\ (snd st = [] \/ exists x, snd st = x ++ py ". ").

(** What a page adds to the text of a PDF. *)
Definition page_line (page : io_error + pystr) : pystr :=
  match page with
  | inr (c :: t) => (c :: t) ++ newline
  | _ => []
  end.

(** The title of a PDF: the stripped title of the metadata when that is
    not empty, and the file name otherwise. *)
Definition pdf_title_of (reader : pdf_reader) (stem : pystr) : pystr :=
  match pdf_metadata_title reader with
  | Some t => if nonempty (strip t) then strip t else stem
  | None => stem
  end.

(** An error is among the notices. *)
Definition error_shown (notices : list notice) : Prop :=
  exists msg, In (NError msg) notices.

(** The answer given when a question could not be answered. *)
Definition qa_apology : pystr :=
  py "질문 처리 중 오류가 발생했습니다. 다시 시도해주세요.".

(** The analysis part of the prompt of a question. *)
Definition qa_context_of (dumps_indent : json -> pystr)
    (rfp_analysis : option dict) : pystr :=
  match rfp_analysis with
  | Some (item :: items) =>
      qa_analysis_context (dumps_indent (JDict (item :: items)))
  | _ => []
  end.

(** What a title taken from [f] can be: the file name, or a stripped
    non-empty text, which outside of a PDF is shorter than 100
    characters. *)
Definition title_from (f : file) (title : pystr) : Prop :=
  title = file_stem f
  \/ (nonempty title = true /\ strip title = title
      /\ (file_extension f = py ".pdf" \/ (len title < 100)%Z)).

(** The answer of an extraction goes with its notices: no text and an
    error shown, or a text that is not blank with a title and no error. *)
Definition sound_extraction (f : file)
    (answer : option (pystr * pystr) * list notice) : Prop :=
  match fst answer with
  | None => error_shown (snd answer)
  | Some (text, title) =>
      ~ error_shown (snd answer) /\ is_blank text = false
      /\ title_from f title
  end.

(** The warning shown when a PDF has more than 200 pages. *)
Definition page_cap_warning : notice :=
  NWarning (py "⚠️ PDF 페이지 수가 " ++ str_of_Z 200
            ++ py "페이지를 초과합니다. 처음 " ++ str_of_Z 200
            ++ py "페이지만 처리합니다.").

(** The paragraphs of a DOCX that are written to its text. *)
Definition written (paragraphs : list pystr) : list pystr :=
  filter (fun paragraph => negb (is_blank paragraph)) paragraphs.

(** A file that passes the checks made before its format is looked at. *)
Definition readable (f : file) : Prop :=
  file_exists f = true /\ file_isfile f = true /\ file_size f <> 0%Z.

(** Files for concrete runs: a PDF of four pages, the second of which
    cannot be read and the third of which is empty, and a DOCX of three
    paragraphs, the second of which is blank. *)
Definition demo_pdf : file :=
  {| file_path := py "/srv/app/temp_rfp.pdf";
     file_exists := true; file_isfile := true; file_size := 2048;
     file_extension := py ".pdf"; file_stem := py "temp_rfp";
     open_pdf :=
       inr {| pdf_metadata_title := Some (py "  Portal RFP ");
              pdf_pages := [inr (py "Scope"); inl (OtherError (py "KeyError")
                                                     (py "'/Contents'"));
                            inr []; inr (py "Budget")] |};
     open_docx := inl (OtherError (py "BadZipFile") (py "File is not a zip file"));
     read_txt := inl (UnicodeDecodeError (py "invalid start byte")) |}.

Definition demo_docx : file :=
  {| file_path := py "/srv/app/temp_rfp.docx";
     file_exists := true; file_isfile := true; file_size := 4096;
     file_extension := py ".docx"; file_stem := py "temp_rfp";
     open_pdf := inl (OtherError (py "PdfReadError") (py "EOF marker not found"));
     open_docx := inr [py "Request for proposal"; py "   "; py "Scope of work"];
     read_txt := inl (UnicodeDecodeError (py "invalid start byte")) |}.

(* ================================================================== *)
(** * Facts about strings                                              *)
(* ================================================================== *)

Lemma nonempty_false (s : pystr) : nonempty s = false -> s = [].
Proof. destruct s; [reflexivity | discriminate]. Qed.

Lemma lstrip_length (s : pystr) : (List.length (lstrip s) <= List.length s)%nat.
Proof.
  induction s as [|c s IH]; simpl; [lia|].
  destruct (isspace c); simpl; lia.
Qed.

Lemma strip_length (s : pystr) : (len (strip s) <= len s)%Z.
Proof.
  unfold strip, len. rewrite length_rev.
  pose proof (lstrip_length (rev (lstrip s))) as H1.
  rewrite length_rev in H1.
  pose proof (lstrip_length s). lia.
Qed.

Lemma is_token_inv (s : pystr) :
  is_token s = true ->
  s <> [] /\ forallb (fun c => negb (isspace c)) s = true.
Proof.
  unfold is_token. intros H. apply andb_true_iff in H as [Hn Hf].
  split; [|exact Hf]. destruct s; [discriminate | congruence].
Qed.

Lemma lstrip_no_space (s : pystr) :
  forallb (fun c => negb (isspace c)) s = true -> lstrip s = s.
Proof.
  destruct s as [|c s]; simpl; [reflexivity|].
  intros H. apply andb_true_iff in H as [Hc _].
  destruct (isspace c); [discriminate | reflexivity].
Qed.

Lemma strip_token (s : pystr) : is_token s = true -> strip s = s.
Proof.
  intros H. apply is_token_inv in H as [_ Hf]. unfold strip.
  rewrite (lstrip_no_space _ Hf).
  rewrite lstrip_no_space; [apply rev_involutive|].
  rewrite forallb_forall in *. intros c Hc. apply Hf.
  now apply in_rev.
Qed.

Lemma rev_token (cur : pystr) :
  nonempty cur = true ->
  forallb (fun c => negb (isspace c)) cur = true ->
  is_token (rev cur) = true.
Proof.
  intros Hn Hf. unfold is_token. apply andb_true_iff. split.
  - destruct cur as [|d cur]; [discriminate|]. simpl.
    destruct (rev cur); reflexivity.
  - rewrite forallb_forall in *. intros x Hx. apply Hf. now apply in_rev.
Qed.

Lemma split_ws_from_tokens (s cur : pystr) :
  forallb (fun c => negb (isspace c)) cur = true ->
  Forall (fun w => is_token w = true) (split_ws_from cur s).
Proof.
  revert cur. induction s as [|c s IH]; intros cur Hcur; simpl.
  - destruct (nonempty cur) eqn:Hn; [|constructor].
    constructor; [now apply rev_token | constructor].
  - destruct (isspace c) eqn:Hc.
    + destruct (nonempty cur) eqn:Hn; [|now apply IH].
      constructor; [now apply rev_token | now apply IH].
    + apply IH. simpl. now rewrite Hc.
Qed.

Lemma split_ws_from_no_space (s cur : pystr) :
  forallb (fun c => negb (isspace c)) s = true ->
  nonempty (rev cur ++ s) = true ->
  split_ws_from cur s = [rev cur ++ s].
Proof.
  revert cur. induction s as [|c s IH]; intros cur Hs Hn; simpl.
  - rewrite app_nil_r in *. destruct cur; [discriminate|].
    simpl. reflexivity.
  - simpl in Hs. apply andb_true_iff in Hs as [Hc Hs].
    destruct (isspace c); [discriminate|].
    rewrite IH; simpl; [now rewrite <- app_assoc | exact Hs |].
    rewrite <- app_assoc. exact Hn.
Qed.

Lemma split_ws_token (s : pystr) : is_token s = true -> split_ws s = [s].
Proof.
  intros H. unfold is_token in H. apply andb_true_iff in H as [Hn Hf].
  unfold split_ws. now rewrite split_ws_from_no_space.
Qed.

Lemma split_ws_tokens (s : pystr) :
  Forall (fun w => is_token w = true) (split_ws s).
Proof. now apply split_ws_from_tokens. Qed.

(* ================================================================== *)
(** * The size bound of the chunker                                    *)
(* ================================================================== *)

Lemma strip_bounded_or_token (m : Z) (s : pystr) :
  bounded_or_token m s -> bounded_or_token m (strip s).
Proof.
  intros [H|H].
  - left. pose proof (strip_length s). lia.
  - right. now rewrite strip_token.
Qed.

Lemma pack_word_bound (m : Z) (chunks : list pystr) (temp word : pystr) :
  Forall (bounded_or_token m) chunks -> temp_ok m temp ->
  is_token word = true ->
  Forall (bounded_or_token m) (fst (pack_word m (chunks, temp) word))
  /\ temp_ok m (snd (pack_word m (chunks, temp) word)).
Proof.
  intros Hc Ht Hw. unfold pack_word.
  destruct (Z.leb_spec (len (temp ++ py " " ++ word)) m) as [Hle|Hgt]; simpl.
  - split; [exact Hc|].
    destruct (nonempty temp); right; [now left | now right].
  - split; [|right; now right].
    destruct (nonempty temp) eqn:Hn; [|exact Hc].
    apply Forall_app. split; [exact Hc|]. constructor; [|constructor].
    apply strip_bounded_or_token. destruct Ht as [->|Ht]; [discriminate|exact Ht].
Qed.

Lemma fold_pack_word_bound (m : Z) (words : list pystr) :
  Forall (fun w => is_token w = true) words ->
  forall chunks temp,
    Forall (bounded_or_token m) chunks -> temp_ok m temp ->
    Forall (bounded_or_token m)
      (fst (fold_left (pack_word m) words (chunks, temp)))
    /\ temp_ok m (snd (fold_left (pack_word m) words (chunks, temp))).
Proof.
  induction 1 as [|w ws Hw _ IH]; intros chunks temp Hc Ht; cbn [fold_left].
  - now split.
  - destruct (pack_word_bound m chunks temp w Hc Ht Hw) as [Hc' Ht'].
    destruct (pack_word m (chunks, temp) w) as [chunks' temp'].
    now apply IH.
Qed.

Lemma pack_words_bound (m : Z) (chunks words : list pystr) :
  Forall (fun w => is_token w = true) words ->
  Forall (bounded_or_token m) chunks ->
  Forall (bounded_or_token m) (fst (pack_words m chunks words))
  /\ temp_ok m (snd (pack_words m chunks words)).
Proof.
  intros Hw Hc. unfold pack_words.
  apply fold_pack_word_bound; [exact Hw | exact Hc | now left].
Qed.

Lemma rescan_step_bound (m : Z) (final_chunks : list pystr) (chunk : pystr) :
  Forall (bounded_or_token m) final_chunks ->
  Forall (bounded_or_token m) (rescan_step m final_chunks chunk).
Proof.
  intros Hf. unfold rescan_step.
  destruct (Z.leb_spec (len chunk) m) as [Hle|Hgt].
  - apply Forall_app. split; [exact Hf|]. constructor; [now left | constructor].
  - destruct (pack_words_bound m final_chunks (split_ws chunk)
                (split_ws_tokens chunk) Hf) as [Hc Ht].
    destruct (pack_words m final_chunks (split_ws chunk)) as [fc temp].
    simpl in *.
    destruct (nonempty temp) eqn:Hn; [|exact Hc].
    apply Forall_app. split; [exact Hc|]. constructor; [|constructor].
    apply strip_bounded_or_token. destruct Ht as [->|Ht]; [discriminate|exact Ht].
Qed.

Lemma fold_rescan_bound (m : Z) (chunks final_chunks : list pystr) :
  Forall (bounded_or_token m) final_chunks ->
  Forall (bounded_or_token m) (fold_left (rescan_step m) chunks final_chunks).
Proof.
  revert final_chunks.
  induction chunks as [|c cs IH]; intros fc Hf; cbn [fold_left].
  - exact Hf.
  - apply IH. now apply rescan_step_bound.
Qed.

(** Every chunk is at most [max_chunk_size] characters long, or else it
    is one single word (non-empty, without whitespace) of the chunks. *)
Lemma chunk_bounded_or_word (text : pystr) (max_chunk_size : Z) :
  Forall (fun chunk =>
            (len chunk <= max_chunk_size)%Z
            \/ (is_token chunk = true /\ split_ws chunk = [chunk]
                /\ (max_chunk_size < len chunk)%Z))
    (_split_text_into_chunks text max_chunk_size).
Proof.
  unfold _split_text_into_chunks.
  pose proof (fold_rescan_bound max_chunk_size
                (sentence_pass max_chunk_size text) [] (Forall_nil _)) as H.
  eapply Forall_impl; [|exact H]. intros chunk [Hle|Htok]; [now left|].
  destruct (Z.leb_spec (len chunk) max_chunk_size) as [Hle|Hgt]; [now left|].
  right. split; [exact Htok|]. split; [|exact Hgt].
  now apply split_ws_token.
Qed.

(* ================================================================== *)
(** * The empty input                                                  *)
(* ================================================================== *)

(** C9, as the code behaves: for the empty input and every positive
    [max_chunk_size] the chunker returns one chunk, the period it puts
    after the only (empty) fragment, and not the empty sequence. *)
Theorem split_empty_text (max_chunk_size : Z) :
  (0 < max_chunk_size)%Z ->
  _split_text_into_chunks (py "") max_chunk_size = [py "."].
Proof.
  intros Hpos.
  assert (Hone : rescan_step max_chunk_size [] [period] = [[period]]).
  { unfold rescan_step. change (len [period]) with 1%Z.
    destruct (Z.leb_spec 1 max_chunk_size); [reflexivity | lia]. }
  assert (Hpass : sentence_pass max_chunk_size [] = [[period]]).
  { unfold sentence_pass.
    change (split_sentences []) with [@nil N].
    cbn [fold_left]. unfold sentence_step. cbn [nonempty app].
    change (py ". ") with [period; space].
    change (len [period; space]) with 2%Z. change (len []) with 0%Z.
    destruct (Z.leb_spec 2 max_chunk_size) as [H2|H2]; [reflexivity|].
    destruct (Z.gtb_spec 0 max_chunk_size) as [H0|H0]; [lia | reflexivity]. }
  unfold _split_text_into_chunks. change (py "") with (@nil N).
  rewrite Hpass. cbn [fold_left]. exact Hone.
Qed.

Lemma split_empty_text_witness :
  _split_text_into_chunks (py "") 4000 = [py "."].
Proof. apply split_empty_text. lia. Defined.

(** C9, as stated, fails: the chunks of the empty string are not the empty
    sequence. *)
Lemma split_empty_text_not_empty :
  _split_text_into_chunks (py "") 4000 <> [].
Proof. vm_compute. discriminate. Qed.

(* ================================================================== *)
(** * What chunking keeps of the text                                  *)
(* ================================================================== *)

Lemma concat_split_ws_from (s cur : pystr) :
  List.concat (split_ws_from cur s) = rev cur ++ nonspace s.
Proof.
  revert cur. induction s as [|c s IH]; intros cur; simpl.
  - destruct cur as [|d cur]; simpl; [reflexivity|].
    now rewrite !app_nil_r.
  - destruct (isspace c); simpl.
    + destruct cur as [|d cur]; simpl; rewrite IH; reflexivity.
    + rewrite IH. simpl. now rewrite <- app_assoc.
Qed.

Lemma concat_split_ws (s : pystr) : List.concat (split_ws s) = nonspace s.
Proof. apply concat_split_ws_from. Qed.

Lemma pack_word_temp_nonempty (m : Z) (st : list pystr * pystr) (word : pystr) :
  is_token word = true -> nonempty (snd (pack_word m st word)) = true.
Proof.
  intros Hw. apply is_token_inv in Hw as [Hne _].
  destruct st as [chunks temp]. unfold pack_word.
  destruct (len (temp ++ py " " ++ word) <=? m)%Z; cbn [snd].
  - destruct temp; cbn [nonempty app]; [|reflexivity].
    destruct word; [congruence | reflexivity].
  - destruct word; [congruence | reflexivity].
Qed.

Lemma fold_pack_word_temp_nonempty (m : Z) (words : list pystr) :
  Forall (fun w => is_token w = true) words ->
  forall st,
    words <> [] \/ nonempty (snd st) = true ->
    nonempty (snd (fold_left (pack_word m) words st)) = true.
Proof.
  induction 1 as [|w ws Hw _ IH]; intros st Hst; cbn [fold_left].
  - destruct Hst as [Hst|Hst]; [congruence | exact Hst].
  - apply IH. right. now apply pack_word_temp_nonempty.
Qed.

(** A fragment with a word leaves the word loop with a chunk under
    construction. *)
Lemma pack_words_temp_nonempty (m : Z) (chunks : list pystr) (s : pystr) :
  nonempty (nonspace s) = true ->
  nonempty (snd (pack_words m chunks (split_ws s))) = true.
Proof.
  intros Hs. unfold pack_words. apply fold_pack_word_temp_nonempty.
  - apply split_ws_tokens.
  - left. intros E. rewrite <- concat_split_ws, E in Hs. discriminate.
Qed.

Lemma split_sentences_cons2 (c c2 : N) (s : pystr) :
  split_sentences (c :: c2 :: s)
  = if ((c =? period) && (c2 =? space))%N then [] :: split_sentences s
    else cons_first c (split_sentences (c2 :: s)).
Proof. reflexivity. Qed.

(** Joining the fragments of [s.split('. ')], each followed by the
    delimiter, gives the text followed by one delimiter. *)
Lemma split_sentences_join_both (s : pystr) :
  List.concat (map (fun f => f ++ py ". ") (split_sentences s)) = s ++ py ". "
  /\ forall c,
       List.concat (map (fun f => f ++ py ". ") (split_sentences (c :: s)))
       = (c :: s) ++ py ". ".
Proof.
  induction s as [|c2 s IH].
  - split; [reflexivity | intros c; reflexivity].
  - destruct IH as [IH1 IH2]. split; [apply IH2|].
    intros c. rewrite split_sentences_cons2.
    destruct ((c =? period) && (c2 =? space))%N eqn:Hd.
    + apply andb_true_iff in Hd as [Hc Hc2].
      apply N.eqb_eq in Hc, Hc2. subst c c2.
      cbn [map List.concat]. rewrite IH1. reflexivity.
    + specialize (IH2 c2).
      destruct (split_sentences (c2 :: s)) as [|h t] eqn:E.
      * cbn [map List.concat] in IH2. destruct s; discriminate.
      * cbn [cons_first map List.concat] in *.
        rewrite <- !app_comm_cons. f_equal. exact IH2.
Qed.

Lemma split_sentences_join (s : pystr) :
  List.concat (map (fun f => f ++ py ". ") (split_sentences s)) = s ++ py ". ".
Proof. apply split_sentences_join_both. Qed.

(** The lemmas of this section follow the characters selected by [p]
    through the two passes, for any selection that leaves whitespace out. *)
Section Kept.

Variable p : N -> bool.
Hypothesis p_space : forall c, isspace c = true -> p c = false.

Lemma filter_lstrip (s : pystr) : filter p (lstrip s) = filter p s.
Proof.
  induction s as [|c s IH]; simpl; [reflexivity|].
  destruct (isspace c) eqn:Hc; simpl; [|reflexivity].
  now rewrite (p_space c Hc).
Qed.

Lemma filter_strip (s : pystr) : filter p (strip s) = filter p s.
Proof.
  unfold strip.
  now rewrite filter_rev, filter_lstrip, filter_rev, rev_involutive,
    filter_lstrip.
Qed.

Lemma filter_nonspace (s : pystr) : filter p (nonspace s) = filter p s.
Proof.
  induction s as [|c s IH]; simpl; [reflexivity|].
  destruct (isspace c) eqn:Hc; simpl; rewrite IH; [|reflexivity].
  now rewrite (p_space c Hc).
Qed.

Lemma filter_blank : filter p (py " ") = [].
Proof. cbn. now rewrite p_space. Qed.

Lemma filter_delimiter : filter p (py ". ") = filter p [period].
Proof. cbn. rewrite (p_space 32%N) by reflexivity. reflexivity. Qed.

(** Normalises both sides of an equation between selected contents. *)
Ltac kept_norm :=
  unfold kept; cbn [fst snd];
  repeat (rewrite concat_app; cbn [List.concat]);
  rewrite ?filter_app, ?filter_strip, ?filter_blank, ?filter_delimiter;
  rewrite ?app_nil_r, <- ?app_assoc; cbn [app].

Lemma kept_pack_word (m : Z) (st : list pystr * pystr) (word : pystr) :
  kept p (pack_word m st word) = kept p st ++ filter p word.
Proof.
  destruct st as [chunks temp]. unfold pack_word.
  destruct (len (temp ++ py " " ++ word) <=? m)%Z;
    destruct (nonempty temp) eqn:Hn;
    try (apply nonempty_false in Hn; subst temp);
    kept_norm; reflexivity.
Qed.

Lemma kept_fold_pack_word (m : Z) (words : list pystr) (st : list pystr * pystr) :
  kept p (fold_left (pack_word m) words st)
  = kept p st ++ filter p (List.concat words).
Proof.
  revert st. induction words as [|w ws IH]; intros st;
    cbn [fold_left List.concat].
  - cbn [filter]. now rewrite app_nil_r.
  - rewrite IH, kept_pack_word, filter_app. now rewrite app_assoc.
Qed.

Lemma kept_pack_words (m : Z) (chunks : list pystr) (s : pystr) :
  kept p (pack_words m chunks (split_ws s))
  = filter p (List.concat chunks) ++ filter p s.
Proof.
  unfold pack_words. rewrite kept_fold_pack_word.
  rewrite concat_split_ws, filter_nonspace. kept_norm. reflexivity.
Qed.

(** Closing the last chunk of a loop keeps its content. *)
Lemma filter_close (chunks : list pystr) (temp : pystr) :
  filter p (List.concat (if nonempty temp then chunks ++ [strip temp]
                         else chunks))
  = kept p (chunks, temp).
Proof.
  destruct (nonempty temp) eqn:Hn;
    try (apply nonempty_false in Hn; subst temp); kept_norm; reflexivity.
Qed.

Lemma filter_rescan_step (m : Z) (final_chunks : list pystr) (chunk : pystr) :
  filter p (List.concat (rescan_step m final_chunks chunk))
  = filter p (List.concat final_chunks) ++ filter p chunk.
Proof.
  unfold rescan_step. destruct (len chunk <=? m)%Z.
  - kept_norm. reflexivity.
  - pose proof (kept_pack_words m final_chunks chunk) as H.
    destruct (pack_words m final_chunks (split_ws chunk)) as [fc temp].
    now rewrite filter_close.
Qed.

Lemma filter_fold_rescan (m : Z) (chunks final_chunks : list pystr) :
  filter p (List.concat (fold_left (rescan_step m) chunks final_chunks))
  = filter p (List.concat final_chunks) ++ filter p (List.concat chunks).
Proof.
  revert final_chunks.
  induction chunks as [|c cs IH]; intros fc; cbn [fold_left List.concat].
  - cbn [filter]. now rewrite app_nil_r.
  - rewrite IH, filter_rescan_step, filter_app. now rewrite app_assoc.
Qed.

(** The sentence loop keeps a fragment and its delimiter, unless the
    fragment is dropped as a blank overflow; then only a period goes. *)
Lemma kept_sentence_step (m : Z) (st : list pystr * pystr) (sentence : pystr) :
  blank_overflow m sentence = false \/ p period = false ->
  kept p (sentence_step m st sentence)
  = kept p st ++ filter p (sentence ++ py ". ").
Proof.
  intros Hcase. destruct st as [chunks cur]. unfold sentence_step.
  destruct (nonempty cur) eqn:Hn.
  - destruct (len (cur ++ sentence ++ py ". ") <=? m)%Z; kept_norm; reflexivity.
  - apply nonempty_false in Hn. subst cur.
    destruct (len (sentence ++ py ". ") <=? m)%Z.
    { kept_norm. reflexivity. }
    destruct (len sentence >? m)%Z eqn:Hlong.
    2:{ kept_norm. reflexivity. }
    pose proof (kept_pack_words m chunks sentence) as Hk.
    pose proof (pack_words_temp_nonempty m chunks sentence) as Htemp.
    destruct (pack_words m chunks (split_ws sentence)) as [chunks' temp].
    cbn [snd] in Htemp. revert Hk.
    destruct (nonempty temp) eqn:Hn; kept_norm; intros Hk.
    + rewrite app_assoc, Hk. now rewrite <- app_assoc.
    + destruct Hcase as [Hblank|Hp].
      * unfold blank_overflow in Hblank. rewrite Hlong in Hblank.
        cbn [andb] in Hblank. apply negb_false_iff in Hblank.
        specialize (Htemp Hblank). discriminate.
      * apply nonempty_false in Hn. subst temp. cbn [filter] in *.
        rewrite Hp. rewrite app_nil_r in *. exact Hk.
Qed.

Lemma kept_fold_sentence_step (m : Z) (sentences : list pystr) :
  forallb (fun s => negb (blank_overflow m s)) sentences = true
  \/ p period = false ->
  forall st,
    kept p (fold_left (sentence_step m) sentences st)
    = kept p st
      ++ filter p (List.concat (map (fun s => s ++ py ". ") sentences)).
Proof.
  induction sentences as [|s ss IH]; intros Hok st;
    cbn [fold_left map List.concat].
  - cbn [filter]. now rewrite app_nil_r.
  - rewrite IH, kept_sentence_step.
    + rewrite (filter_app p (s ++ py ". ")). now rewrite app_assoc.
    + destruct Hok as [Hok|Hp]; [left | now right].
      cbn [forallb] in Hok. apply andb_true_iff in Hok as [Hs _].
      now apply negb_true_iff in Hs.
    + destruct Hok as [Hok|Hp]; [left | now right].
      cbn [forallb] in Hok. now apply andb_true_iff in Hok as [_ Hss].
Qed.

Lemma filter_split_text (m : Z) (text : pystr) :
  no_blank_overflow m text = true \/ p period = false ->
  filter p (List.concat (_split_text_into_chunks text m))
  = filter p (text ++ py ". ").
Proof.
  intros Hok. unfold _split_text_into_chunks.
  rewrite filter_fold_rescan. cbn [List.concat filter app].
  unfold sentence_pass.
  pose proof (kept_fold_sentence_step m (split_sentences text) Hok ([], []))
    as Hk.
  destruct (fold_left (sentence_step m) (split_sentences text) ([], []))
    as [chunks cur].
  now rewrite filter_close, Hk, split_sentences_join.
Qed.

End Kept.

(** C2, as the code behaves. Chunking does not keep whitespace: chunks are
    stripped and re-packed words are joined by single spaces. What it keeps,
    in document order, is every character of the input that is neither
    whitespace nor a period; and when no fragment between two [". "]
    delimiters is a whitespace-only run longer than the limit, the
    non-whitespace characters of the chunks are exactly those of the input
    followed by the one period the chunker puts after the last fragment. *)
Theorem chunks_keep_content (text : pystr) (max_chunk_size : Z) :
  letters (List.concat (_split_text_into_chunks text max_chunk_size))
  = letters text
  /\ (no_blank_overflow max_chunk_size text = true ->
      nonspace (List.concat (_split_text_into_chunks text max_chunk_size))
      = nonspace text ++ [period]).
Proof.
  split.
  - unfold letters. rewrite filter_split_text.
    + rewrite filter_app. cbn. now rewrite app_nil_r.
    + intros c Hc. now rewrite Hc.
    + now right.
  - intros Hok. unfold nonspace. rewrite filter_split_text.
    + now rewrite filter_app.
    + intros c Hc. now rewrite Hc.
    + now left.
Qed.

Lemma chunks_keep_content_witness :
  no_blank_overflow 12 (py "hello world. this is a test. tiny") = true
  /\ nonspace (List.concat (_split_text_into_chunks
                              (py "hello world. this is a test. tiny") 12))
     = nonspace (py "hello world. this is a test. tiny") ++ [period].
Proof.
  split; [reflexivity|].
  apply (chunks_keep_content (py "hello world. this is a test. tiny") 12).
  reflexivity.
Defined.

(** C2, as stated, fails: the two line feeds between the words of
    [a\n\nb] are characters of the input, yet with limit 2 they occur in no
    chunk, and they are not characters of a separator ([". "] or [" "])
    that could be restored. *)
Lemma chunking_loses_characters :
  let text := py "a" ++ [10%N; 10%N] ++ py "b" in
  _split_text_into_chunks text 2 = [py "a"; py "b."]
  /\ In 10%N text
  /\ ~ In 10%N (List.concat (_split_text_into_chunks text 2))
  /\ ~ In 10%N (py ". " ++ py " ").
Proof.
  cbv zeta. split; [reflexivity|]. split; [cbn; tauto|].
  split; cbn; intros H; repeat destruct H as [H|H]; try discriminate H;
    exact H.
Qed.

(** A fragment that is a whitespace-only run longer than the limit is
    dropped together with its delimiter when no chunk is under
    construction, so then a period of the input goes too. *)
Example blank_fragment_dropped :
  _split_text_into_chunks (py "    .     . b") 3 = [py "b."]
  /\ count_occ N.eq_dec (py "    .     . b") period = 2%nat
  /\ count_occ N.eq_dec
       (List.concat (_split_text_into_chunks (py "    .     . b") 3)) period
     = 1%nat.
Proof. repeat split. Qed.

(* ================================================================== *)
(** * The requests of [get_embedding]                                  *)
(* ================================================================== *)

Lemma vec_add_length (a b : vector) :
  List.length a = List.length b -> List.length (vec_add a b) = List.length a.
Proof.
  intros H. unfold vec_add. rewrite length_map, length_combine. lia.
Qed.

Lemma fold_vec_add_length (d : nat) (rows : list vector) :
  Forall (fun r => List.length r = d) rows ->
  forall row, List.length row = d ->
  List.length (fold_left vec_add rows row) = d.
Proof.
  induction 1 as [|r rows Hr _ IH]; intros row Hrow; cbn [fold_left].
  - exact Hrow.
  - apply IH. rewrite vec_add_length; congruence.
Qed.

(** The mean of rows of one length exists and has that length. *)
Lemma np_mean_axis0_length (d : nat) (vs : list vector) :
  vs <> [] -> Forall (fun r => List.length r = d) vs ->
  exists m, np_mean_axis0 vs = inr m /\ List.length m = d.
Proof.
  intros Hne Hall. destruct vs as [|row rows]; [congruence|].
  inversion Hall as [|? ? Hrow Hrows]; subst.
  unfold np_mean_axis0.
  assert (Hsame : forallb (fun r => Nat.eqb (List.length r) (List.length row))
                    rows = true).
  { apply forallb_forall. intros r Hr. apply Nat.eqb_eq.
    rewrite Forall_forall in Hrows. now rewrite (Hrows r Hr). }
  rewrite Hsame. eexists. split; [reflexivity|].
  rewrite length_map. now apply fold_vec_add_length.
Qed.

Lemma embed_chunks_run (svc : services) (n : Z) (chunks : list pystr) :
  forall i acc w r w',
    embed_chunks svc n i chunks acc w = (r, w') ->
    chat_log w' = chat_log w /\ upload_log w' = upload_log w
    /\ (exists events, ui_log w' = ui_log w ++ events)
    /\ exists entries,
         embed_log w' = embed_log w ++ entries
         /\ Forall (answered svc) entries
         /\ match r with
            | inr embeddings =>
                map fst entries = chunks
                /\ exists vs, map snd entries = map inr vs
                              /\ embeddings = acc ++ vs
            | inl e =>
                exists good input,
                  entries = good ++ [(input, inl e)] /\ Forall succeeded good
            end.
Proof.
  induction chunks as [|chunk rest IH]; intros i acc w r w' Hrun.
  - cbn in Hrun. injection Hrun as <- <-.
    repeat split; try (exists []; now rewrite app_nil_r).
    exists []. rewrite app_nil_r. repeat split; [constructor|].
    exists []. now rewrite app_nil_r.
  - cbn [embed_chunks] in Hrun. unfold bind at 1 in Hrun.
    cbn [st_emit] in Hrun. unfold bind at 1 in Hrun.
    unfold embeddings_create at 1 in Hrun.
    cbn [embed_log chat_log upload_log ui_log] in Hrun.
    destruct (embeddings_response svc (map fst (embed_log w)) chunk)
      as [e|v] eqn:Hresp.
    + injection Hrun as <- <-. cbn [embed_log chat_log upload_log ui_log].
      repeat split; [eexists; reflexivity|].
      exists [(chunk, inl e)]. repeat split.
      * constructor; [|constructor]. eexists. cbn. now rewrite Hresp.
      * exists [], chunk. split; [reflexivity | constructor].
    + unfold bind at 1 in Hrun. cbn [st_emit] in Hrun.
      cbn [embed_log chat_log upload_log ui_log] in Hrun.
      apply IH in Hrun.
      cbn [embed_log chat_log upload_log ui_log] in Hrun.
      destruct Hrun as (Hchat & Hup & [events Hui] & entries & Hlog & Hans & Hr).
      repeat split; [exact Hchat | exact Hup | |].
      { eexists. rewrite Hui, <- !app_assoc. reflexivity. }
      exists ((chunk, inr v) :: entries). repeat split.
      * rewrite Hlog, <- app_assoc. reflexivity.
      * constructor; [|exact Hans]. eexists. cbn. now rewrite Hresp.
      * destruct r as [e|embeddings].
        -- destruct Hr as (good & input & -> & Hgood).
           exists ((chunk, inr v) :: good), input. split; [reflexivity|].
           constructor; [now exists v | exact Hgood].
        -- destruct Hr as (Hfst & vs & Hsnd & ->).
           split; [cbn; now rewrite Hfst|].
           exists (v :: vs). split; [cbn; now rewrite Hsnd|].
           now rewrite <- app_assoc.
Qed.

(** Every run of [get_embedding] returns a list, and either all its
    requests succeeded, or the last one failed and the result is empty. *)
Lemma get_embedding_run (svc : services) (text : pystr) (w : world) :
  forall r w',
    get_embedding svc text w = (r, w') ->
    exists entries events,
      embed_log w' = embed_log w ++ entries
      /\ ui_log w' = ui_log w ++ events
      /\ Forall (answered svc) entries
      /\ ((exists vs,
             map snd entries = map inr vs
             /\ (((len text <= max_chunk_size)%Z
                  /\ map fst entries = [text]
                  /\ exists v, vs = [v] /\ r = inr v)
                 \/ ((max_chunk_size < len text)%Z
                     /\ map fst entries
                        = _split_text_into_chunks text max_chunk_size
                     /\ r = inr (aggregate vs))))
          \/ (exists good input e,
                entries = good ++ [(input, inl e)]
                /\ Forall succeeded good
                /\ r = inr []
                /\ exists before,
                     events
                     = before ++ [StError (py "❌ 임베딩 생성 오류: ") (Some e)])).
Proof.
  intros r w' Hrun. unfold get_embedding, try_except in Hrun.
  destruct (Z.leb_spec (len text) max_chunk_size) as [Hshort|Hlong].
  - unfold embeddings_create in Hrun.
    destruct (embeddings_response svc (map fst (embed_log w)) text)
      as [e|v] eqn:Hresp; cbn in Hrun; injection Hrun as <- <-;
      cbn [embed_log ui_log].
    + exists [(text, inl e)]. eexists. repeat split.
      * constructor; [|constructor]. eexists. cbn. now rewrite Hresp.
      * right. exists [], text, e. repeat split; [constructor|].
        exists []. reflexivity.
    + exists [(text, inr v)], []. rewrite app_nil_r. repeat split.
      * constructor; [|constructor]. eexists. cbn. now rewrite Hresp.
      * left. exists [v]. split; [reflexivity|]. left.
        repeat split; [exact Hshort|]. now exists v.
  - unfold bind at 1 in Hrun. cbn [st_emit] in Hrun.
    unfold bind at 1 in Hrun. cbn [st_emit] in Hrun.
    unfold bind at 1 in Hrun.
    match type of Hrun with
    | context [embed_chunks svc ?n ?i ?cs ?acc ?w0] =>
        destruct (embed_chunks svc n i cs acc w0) as [r0 w1] eqn:Hloop
    end.
    apply embed_chunks_run in Hloop.
    cbn [embed_log chat_log upload_log ui_log] in Hloop.
    destruct Hloop as (_ & _ & [events Hui] & entries & Hlog & Hans & Hr).
    destruct r0 as [e|embeddings].
    + cbn in Hrun. injection Hrun as <- <-. cbn [embed_log ui_log].
      destruct Hr as (good & input & -> & Hgood).
      eexists. eexists. repeat split; [exact Hlog | | exact Hans |].
      * rewrite Hui, <- !app_assoc. reflexivity.
      * right. exists good, input, e. repeat split; [exact Hgood|].
        eexists. rewrite !app_assoc. reflexivity.
    + destruct Hr as (Hfst & vs & Hsnd & Hembs). cbn [app] in Hembs.
      subst embeddings.
      assert (Hfinal : exists tail,
                 ui_log w' = ui_log w1 ++ tail /\ embed_log w' = embed_log w1
                 /\ r = inr (aggregate vs)).
      { destruct vs as [|v vs'].
        - cbn in Hrun. injection Hrun as <- <-. exists [].
          now rewrite app_nil_r.
        - unfold lift, aggregate in *.
          destruct (np_mean_axis0 (v :: vs')) as [e|m]; cbn in Hrun;
            injection Hrun as <- <-; cbn [embed_log ui_log].
          + eexists. repeat split.
          + exists []. now rewrite app_nil_r. }
      destruct Hfinal as (tail & Hui' & Hlog' & ->).
      exists entries. eexists. repeat split; [congruence | | exact Hans |].
      * rewrite Hui', Hui, <- !app_assoc. reflexivity.
      * left. exists vs. split; [exact Hsnd|]. right.
        repeat split; [exact Hlong | exact Hfst].
Qed.

Lemma requests_since_app (w w' : world) (entries : list (pystr * (exn + vector))) :
  embed_log w' = embed_log w ++ entries -> requests_since w w' = entries.
Proof.
  intros H. unfold requests_since. rewrite H.
  rewrite skipn_app, skipn_all, Nat.sub_diag. reflexivity.
Qed.

Lemma answered_vectors (svc : services) (d : nat)
    (entries : list (pystr * (exn + vector))) (vs : list vector) :
  always_embeds svc d -> Forall (answered svc) entries ->
  map snd entries = map inr vs ->
  Forall (fun v => List.length v = d) vs.
Proof.
  intros Hsvc Hans. revert vs.
  induction Hans as [|entry entries [history Hentry] _ IH]; intros vs Hsnd;
    destruct vs as [|v vs]; try discriminate Hsnd; [constructor|].
  cbn [map] in Hsnd. injection Hsnd as Hv Hrest.
  constructor; [|now apply IH].
  destruct (Hsvc history (fst entry)) as (v' & Hv' & Hlen). congruence.
Qed.

(** C3, as the code behaves, for an embedding service that answers every
    request with a vector of 1536 floats. A text of at most 4000 characters
    costs exactly one request, for the text itself, and its vector is
    returned as it is. A longer text costs exactly one request per chunk of
    [_split_text_into_chunks text 4000], in chunk order; with at least one
    chunk the result is the element-wise mean of the chunk vectors and has
    1536 components, and with no chunk at all (every fragment between the
    delimiters is a run of whitespace longer than the limit, as in a text
    of 4001 spaces) the result is the empty list. *)
Theorem get_embedding_requests (svc : services) (text : pystr) (w : world) :
  always_embeds svc 1536 ->
  let r := fst (get_embedding svc text w) in
  let sent := requests_since w (snd (get_embedding svc text w)) in
  let chunks := _split_text_into_chunks text max_chunk_size in
  exists vs,
    map snd sent = map inr vs
    /\ ((len text <= max_chunk_size)%Z ->
        map fst sent = [text]
        /\ exists v, vs = [v] /\ r = inr v /\ List.length v = 1536%nat)
    /\ ((max_chunk_size < len text)%Z ->
        map fst sent = chunks
        /\ List.length sent = List.length chunks
        /\ (chunks <> [] ->
            r = np_mean_axis0 vs
            /\ exists m, r = inr m /\ List.length m = 1536%nat)
        /\ (chunks = [] -> r = inr [])).
Proof.
  intros Hsvc r sent chunks. subst r sent chunks.
  destruct (get_embedding svc text w) as [r w'] eqn:Hrun. cbn [fst snd].
  destruct (get_embedding_run svc text w r w' Hrun)
    as (entries & events & Hlog & _ & Hans & Hcases).
  rewrite (requests_since_app w w' entries Hlog).
  destruct Hcases as [(vs & Hsnd & Hbranch) | (good & input & e & -> & _)].
  2:{ exfalso. apply Forall_app in Hans as [_ Hlast].
      inversion Hlast as [|? ? [history Hentry] _]; subst. cbn in Hentry.
      destruct (Hsvc history input) as (v & Hv & _). congruence. }
  pose proof (answered_vectors svc 1536 entries vs Hsvc Hans Hsnd) as Hdim.
  exists vs. split; [exact Hsnd|].
  destruct Hbranch as [(Hshort & Hfst & v & -> & ->) | (Hlong & Hfst & ->)].
  - split; [|lia]. intros _. split; [exact Hfst|]. exists v.
    inversion Hdim; subst. now repeat split.
  - split; [lia|]. intros _. split; [exact Hfst|].
    assert (Hlen : List.length vs
                   = List.length (_split_text_into_chunks text max_chunk_size)).
    { rewrite <- Hfst, length_map, <- (length_map snd), Hsnd, length_map.
      reflexivity. }
    split; [now rewrite <- Hfst, length_map|]. split.
    + intros Hne. assert (Hvs : vs <> []).
      { intros ->. apply Hne. now apply length_zero_iff_nil. }
      destruct (np_mean_axis0_length 1536 vs Hvs Hdim) as (m & Hm & Hmlen).
      unfold aggregate. destruct vs as [|v vs']; [congruence|].
      rewrite Hm. split; [reflexivity|]. now exists m.
    + intros Hnil. rewrite Hnil in Hlen. apply length_zero_iff_nil in Hlen.
      now subst vs.
Qed.

Lemma get_embedding_requests_witness :
  let svc := demo_services (fun _ _ => inr (repeat 1%float 1536)) in
  let text := py "load testing of the portal" in
  let r := fst (get_embedding svc text world0) in
  let sent := requests_since world0 (snd (get_embedding svc text world0)) in
  let chunks := _split_text_into_chunks text max_chunk_size in
  always_embeds svc 1536
  /\ exists vs,
       map snd sent = map inr vs
       /\ ((len text <= max_chunk_size)%Z ->
           map fst sent = [text]
           /\ exists v, vs = [v] /\ r = inr v /\ List.length v = 1536%nat)
       /\ ((max_chunk_size < len text)%Z ->
           map fst sent = chunks
           /\ List.length sent = List.length chunks
           /\ (chunks <> [] ->
               r = np_mean_axis0 vs
               /\ exists m, r = inr m /\ List.length m = 1536%nat)
           /\ (chunks = [] -> r = inr [])).
Proof.
  assert (H : always_embeds
                (demo_services (fun _ _ => inr (repeat 1%float 1536))) 1536).
  { intros history input. exists (repeat 1%float 1536).
    split; [reflexivity | apply repeat_length]. }
  split; [exact H|].
  exact (get_embedding_requests
           (demo_services (fun _ _ => inr (repeat 1%float 1536)))
           (py "load testing of the portal") world0 H).
Defined.

(** C3, as stated, fails: a text of 4001 spaces is longer than the
    threshold and has no chunk; no request is sent and the result is the
    empty list, not a vector of 1536 components. *)
Lemma get_embedding_blank_text :
  let svc := demo_services (fun _ _ => inr (repeat 1%float 1536)) in
  let text := repeat space 4001 in
  (max_chunk_size < len text)%Z
  /\ _split_text_into_chunks text max_chunk_size = []
  /\ requests_since world0 (snd (get_embedding svc text world0)) = []
  /\ fst (get_embedding svc text world0) = inr []
  /\ ~ (exists v, fst (get_embedding svc text world0) = inr v
                  /\ List.length v = 1536%nat).
Proof.
  cbv zeta.
  assert (Hr : fst (get_embedding
                      (demo_services (fun _ _ => inr (repeat 1%float 1536)))
                      (repeat space 4001) world0) = inr []).
  { vm_compute. reflexivity. }
  split; [vm_compute; reflexivity|].
  split; [vm_compute; reflexivity|].
  split; [vm_compute; reflexivity|].
  split; [exact Hr|].
  intros (v & Hv & Hlen). rewrite Hr in Hv. injection Hv as <-.
  discriminate Hlen.
Qed.

(** C8. If any embedding request of a run of [get_embedding] fails, that
    request is the last one sent (the requests before it succeeded and no
    further chunk is sent), the failure is reported to the user as the
    embedding error, and the caller receives the empty list: the vectors
    already obtained are dropped and no mean over them is returned. *)
Theorem embedding_failure_aborts (svc : services) (text : pystr) (w : world)
    (input : pystr) (e : exn) :
  In (input, inl e) (requests_since w (snd (get_embedding svc text w))) ->
  fst (get_embedding svc text w) = inr []
  /\ (exists good,
        requests_since w (snd (get_embedding svc text w))
        = good ++ [(input, inl e)]
        /\ Forall succeeded good)
  /\ (exists before,
        ui_log (snd (get_embedding svc text w))
        = ui_log w ++ before ++ [StError (py "❌ 임베딩 생성 오류: ") (Some e)]).
Proof.
  destruct (get_embedding svc text w) as [r w'] eqn:Hrun. cbn [fst snd].
  destruct (get_embedding_run svc text w r w' Hrun)
    as (entries & events & Hlog & Hui & _ & Hcases).
  rewrite (requests_since_app w w' entries Hlog). intros Hin.
  destruct Hcases as [(vs & Hsnd & _) | (good & input' & e' & -> & Hgood & -> & before & ->)].
  - exfalso. apply (in_map snd) in Hin. rewrite Hsnd in Hin. cbn in Hin.
    apply in_map_iff in Hin as (v & Hv & _). discriminate Hv.
  - apply in_app_or in Hin as [Hin|Hin].
    + exfalso. rewrite Forall_forall in Hgood.
      destruct (Hgood _ Hin) as [v Hv]. discriminate Hv.
    + destruct Hin as [Heq|[]]. injection Heq as -> ->.
      repeat split; [now exists good | now exists before].
Qed.

Lemma embedding_failure_aborts_witness :
  let svc := demo_services
               (fun history _ =>
                  if Nat.eqb (List.length history) 1
                  then inl (ServiceError (py "timeout"))
                  else inr [1%float; 2%float]) in
  let text := List.concat (repeat (py "abcdefgh. ") 900) in
  let input := nth 1 (_split_text_into_chunks text max_chunk_size) [] in
  let e := ServiceError (py "timeout") in
  In (input, inl e) (requests_since world0 (snd (get_embedding svc text world0)))
  /\ fst (get_embedding svc text world0) = inr []
  /\ (exists good,
        requests_since world0 (snd (get_embedding svc text world0))
        = good ++ [(input, inl e)]
        /\ Forall succeeded good)
  /\ (exists before,
        ui_log (snd (get_embedding svc text world0))
        = ui_log world0 ++ before
          ++ [StError (py "❌ 임베딩 생성 오류: ") (Some e)]).
Proof.
  cbv zeta.
  assert (Hin : In (nth 1 (_split_text_into_chunks
                            (List.concat (repeat (py "abcdefgh. ") 900))
                            max_chunk_size) [],
                    @inl exn vector (ServiceError (py "timeout")))
                  (requests_since world0
                     (snd (get_embedding
                             (demo_services
                                (fun history _ =>
                                   if Nat.eqb (List.length history) 1
                                   then inl (ServiceError (py "timeout"))
                                   else inr [1%float; 2%float]))
                             (List.concat (repeat (py "abcdefgh. ") 900))
                             world0)))).
  { vm_compute. right. left. reflexivity. }
  split; [exact Hin|].
  exact (embedding_failure_aborts _ _ _ _ _ Hin).
Defined.

(** The end-to-end scenario of a 9000-character text: three chunks within
    the limit, three requests, and the mean of the three vectors. *)
Example long_text_three_chunks :
  let svc := demo_services (fun history _ =>
                              inr [float_of_Z (Z.of_nat (List.length history))]) in
  let text := List.concat (repeat (py "abcdefgh. ") 900) in
  len text = 9000%Z
  /\ map len (_split_text_into_chunks text max_chunk_size)
     = [3999; 3999; 1001]%Z
  /\ map fst (requests_since world0 (snd (get_embedding svc text world0)))
     = _split_text_into_chunks text max_chunk_size
  /\ fst (get_embedding svc text world0) = inr [1%float].
Proof.
  cbv zeta.
  split; [vm_compute; reflexivity|].
  split; [vm_compute; reflexivity|].
  split; vm_compute; reflexivity.
Qed.

(* ================================================================== *)
(** * Flattening                                                       *)
(* ================================================================== *)

(** A document is built exactly when the five extraction steps succeed,
    and then its fields are their results. *)
Lemma build_document_inv (svc : services) (rfp_analysis : dict)
    (rfp_content : pystr) (pdf_title : option pystr) (content_vector : vector)
    (doc : document) :
  build_document svc rfp_analysis rfp_content pdf_title content_vector
  = inr doc ->
  exists title budget deadline requirements criteria,
    document_title svc rfp_analysis pdf_title = inr title
    /\ budget_range rfp_analysis = inr budget
    /\ submission_deadline rfp_analysis = inr deadline
    /\ technical_requirements rfp_analysis = inr requirements
    /\ evaluation_criteria rfp_analysis = inr criteria
    /\ doc_title doc = title
    /\ doc_content doc = rfp_content
    /\ doc_requirements doc = json_dumps svc (JList requirements)
    /\ doc_project_type doc
       = dict_get rfp_analysis (py "project_type") (JStr [])
    /\ doc_budget_range doc = budget
    /\ doc_submission_deadline doc = deadline
    /\ doc_evaluation_criteria doc = json_dumps svc (JDict criteria)
    /\ doc_content_vector doc = content_vector.
Proof.
  unfold build_document, and_then. intros H.
  destruct (document_title svc rfp_analysis pdf_title) as [|title];
    [discriminate|].
  destruct (budget_range rfp_analysis) as [|budget]; [discriminate|].
  destruct (submission_deadline rfp_analysis) as [|deadline]; [discriminate|].
  destruct (technical_requirements rfp_analysis) as [|requirements];
    [discriminate|].
  destruct (evaluation_criteria rfp_analysis) as [|criteria]; [discriminate|].
  injection H as <-.
  exists title, budget, deadline, requirements, criteria.
  cbn. repeat split; reflexivity.
Qed.

Lemma category_ok_cases (key : pystr) (rfp_analysis : dict) :
  category_ok key rfp_analysis = true ->
  dict_lookup key rfp_analysis = None
  \/ exists d, dict_lookup key rfp_analysis = Some (JDict d).
Proof.
  unfold category_ok. destruct (dict_lookup key rfp_analysis) as [v|];
    [|now left].
  destruct v; try discriminate. intros _. right. now eexists.
Qed.

Lemma document_title_ok (svc : services) (rfp_analysis : dict)
    (pdf_title : option pystr) :
  title_given pdf_title = true
  \/ category_ok (py "1_핵심개요") rfp_analysis = true ->
  exists title, document_title svc rfp_analysis pdf_title = inr title.
Proof.
  intros H. unfold document_title.
  destruct pdf_title as [[|c t]|]; try (eexists; reflexivity);
    (destruct H as [H|H]; [discriminate|]);
    apply category_ok_cases in H as [->|[d ->]]; eexists; reflexivity.
Qed.

Lemma budget_range_ok (rfp_analysis : dict) :
  category_ok (py "3_예산가격") rfp_analysis = true ->
  exists v, budget_range rfp_analysis = inr v.
Proof.
  intros H. unfold budget_range.
  apply category_ok_cases in H as [->|[d ->]]; eexists; reflexivity.
Qed.

Lemma submission_deadline_ok (rfp_analysis : dict) :
  category_ok (py "2_일정마일스톤") rfp_analysis = true ->
  exists v, submission_deadline rfp_analysis = inr v.
Proof.
  intros H. unfold submission_deadline.
  apply category_ok_cases in H as [->|[d ->]]; eexists; reflexivity.
Qed.

Lemma technical_requirements_dict (rfp_analysis requirements_info : dict) :
  dict_lookup (py "5_요구사항") rfp_analysis = Some (JDict requirements_info) ->
  technical_requirements rfp_analysis
  = inr (filter truthy
           (map (fun key => dict_get requirements_info key (JStr []))
              requirement_keys)).
Proof. intros H. unfold technical_requirements. rewrite H. reflexivity. Qed.

Lemma technical_requirements_ok (rfp_analysis : dict) :
  category_ok (py "5_요구사항") rfp_analysis = true ->
  exists v, technical_requirements rfp_analysis = inr v.
Proof.
  intros H. unfold technical_requirements.
  apply category_ok_cases in H as [->|[d ->]]; eexists; reflexivity.
Qed.

Lemma evaluation_criteria_dict (rfp_analysis eval_info : dict) :
  dict_lookup (py "4_평가선정기준") rfp_analysis = Some (JDict eval_info) ->
  evaluation_criteria rfp_analysis
  = inr (map (fun key => (key, dict_get eval_info key (JStr [])))
           criteria_keys).
Proof. intros H. unfold evaluation_criteria. rewrite H. reflexivity. Qed.

(** [get_embedding] never raises: every failure ends in the empty list. *)
Lemma get_embedding_returns (svc : services) (text : pystr) (w : world) :
  exists v, fst (get_embedding svc text w) = inr v.
Proof.
  destruct (get_embedding svc text w) as [r w'] eqn:Hrun. cbn [fst].
  destruct (get_embedding_run svc text w r w' Hrun)
    as (entries & events & _ & _ & _ & Hcases).
  destruct Hcases as [(vs & _ & [(_ & _ & v & _ & ->)|(_ & _ & ->)])
                     | (_ & _ & _ & _ & _ & -> & _)]; eexists; reflexivity.
Qed.

(** The document that [store_rfp_in_search] uploads is the one
    [build_document] makes from the analysis, the text, the title and the
    vector of [get_embedding]; when the flattening raises, nothing is
    uploaded and the answer is [False]. *)
Lemma store_uploads_built_document (svc : services) (rfp_analysis : dict)
    (rfp_content : pystr) (pdf_title : option pystr) (w : world) :
  let w1 := snd (get_embedding svc rfp_content w) in
  let r := fst (store_rfp_in_search svc rfp_analysis rfp_content pdf_title w) in
  let w' := snd (store_rfp_in_search svc rfp_analysis rfp_content pdf_title w) in
  exists content_vector,
    fst (get_embedding svc rfp_content w) = inr content_vector
    /\ match build_document svc rfp_analysis rfp_content pdf_title
               content_vector with
       | inr doc =>
           upload_log w' = upload_log w1 ++ [(doc, upload_response svc doc)]
           /\ r = inr match upload_response svc doc with
                      | inr result => (0 <? result)%Z
                      | inl _ => false
                      end
       | inl _ => upload_log w' = upload_log w1 /\ r = inr false
       end.
Proof.
  cbv zeta. destruct (get_embedding_returns svc rfp_content w) as [v Hv].
  exists v. split; [exact Hv|].
  unfold store_rfp_in_search, try_except, bind, lift, upload_documents.
  destruct (get_embedding svc rfp_content w) as [r0 w1]. cbn [fst snd] in *.
  subst r0.
  destruct (build_document svc rfp_analysis rfp_content pdf_title v)
    as [e|doc]; [split; reflexivity|].
  destruct (upload_response svc doc); split; reflexivity.
Qed.

(** C4. The [requirements] of the stored document are the values of the
    five sub-fields of category 5, in the order functional, non-functional,
    interface and integration, data, compatibility and standards, each
    taken as the empty string when missing, with the empty ones filtered
    out; the document stores the JSON text of that list. (Category 5 is a
    mapping or absent; absent, it has no sub-field.) *)
Theorem requirements_flattening (svc : services) (rfp_analysis : dict)
    (rfp_content : pystr) (pdf_title : option pystr) (content_vector : vector) :
  category_ok (py "5_요구사항") rfp_analysis = true ->
  let requirements_info := category_fields (py "5_요구사항") rfp_analysis in
  let requirements :=
    filter truthy
      (map (fun key => dict_get requirements_info key (JStr []))
         requirement_keys) in
  technical_requirements rfp_analysis = inr requirements
  /\ forall doc,
       build_document svc rfp_analysis rfp_content pdf_title content_vector
       = inr doc ->
       doc_requirements doc = json_dumps svc (JList requirements).
Proof.
  intros Hcat requirements_info requirements.
  assert (Hreq : technical_requirements rfp_analysis = inr requirements).
  { subst requirements requirements_info. unfold category_fields.
    apply category_ok_cases in Hcat as [Hnone|[d Hsome]].
    - unfold technical_requirements. rewrite Hnone. reflexivity.
    - rewrite Hsome. now apply technical_requirements_dict. }
  split; [exact Hreq|]. intros doc Hdoc.
  apply build_document_inv in Hdoc
    as (? & ? & ? & reqs & ? & _ & _ & _ & Hr & _ & _ & _ & Hfield & _).
  rewrite Hfield. rewrite Hreq in Hr. now injection Hr as <-.
Qed.

(** The scenario of C4: category 5 holds only the non-functional
    sub-field, and [requirements] is the one-element list of its value. *)
Lemma requirements_flattening_witness :
  let svc := demo_services (fun _ _ => inr []) in
  let rfp_analysis :=
    [(py "5_요구사항",
      JDict [(py "비기능요구", JStr (py "load ≥ 1000 rps"))])] in
  let requirements_info := category_fields (py "5_요구사항") rfp_analysis in
  let requirements :=
    filter truthy
      (map (fun key => dict_get requirements_info key (JStr []))
         requirement_keys) in
  category_ok (py "5_요구사항") rfp_analysis = true
  /\ requirements = [JStr (py "load ≥ 1000 rps")]
  /\ technical_requirements rfp_analysis = inr requirements
  /\ forall doc,
       build_document svc rfp_analysis (py "text") None [] = inr doc ->
       doc_requirements doc = json_dumps svc (JList requirements).
Proof.
  cbv zeta.
  assert (H : category_ok (py "5_요구사항")
                [(py "5_요구사항",
                  JDict [(py "비기능요구", JStr (py "load ≥ 1000 rps"))])]
              = true).
  { vm_compute. reflexivity. }
  split; [exact H|]. split; [vm_compute; reflexivity|].
  exact (requirements_flattening
           (demo_services (fun _ _ => inr [])) _ (py "text") None [] H).
Defined.

(** Without category 5 the list is empty. *)
Example requirements_absent :
  technical_requirements
    [(py "1_핵심개요", JDict [(py "배경목적", JStr (py "Portal renewal"))])]
  = inr [].
Proof. vm_compute. reflexivity. Qed.

(** C5, as the code behaves. For an analysis without category 4 the
    evaluation criteria are the empty mapping, and no failure comes from
    that step; the whole flattening succeeds when the categories it reads
    (1 unless a title is given, 2, 3 and 5) are absent or mappings, and the
    document then stores the JSON text of the empty mapping. *)
Theorem evaluation_criteria_absent (svc : services) (rfp_analysis : dict)
    (rfp_content : pystr) (pdf_title : option pystr) (content_vector : vector) :
  dict_lookup (py "4_평가선정기준") rfp_analysis = None ->
  evaluation_criteria rfp_analysis = inr []
  /\ (title_given pdf_title = true
        \/ category_ok (py "1_핵심개요") rfp_analysis = true ->
      category_ok (py "2_일정마일스톤") rfp_analysis = true ->
      category_ok (py "3_예산가격") rfp_analysis = true ->
      category_ok (py "5_요구사항") rfp_analysis = true ->
      exists doc,
        build_document svc rfp_analysis rfp_content pdf_title content_vector
        = inr doc
        /\ doc_evaluation_criteria doc = json_dumps svc (JDict [])).
Proof.
  intros Hcat.
  assert (Hcrit : evaluation_criteria rfp_analysis = inr []).
  { unfold evaluation_criteria. now rewrite Hcat. }
  split; [exact Hcrit|]. intros H1 H2 H3 H5.
  destruct (document_title_ok svc rfp_analysis pdf_title H1) as [title Ht].
  destruct (submission_deadline_ok rfp_analysis H2) as [deadline Hd].
  destruct (budget_range_ok rfp_analysis H3) as [budget Hb].
  destruct (technical_requirements_ok rfp_analysis H5) as [reqs Hr].
  unfold build_document, and_then. rewrite Ht, Hb, Hd, Hr, Hcrit.
  eexists. split; reflexivity.
Qed.

Lemma evaluation_criteria_absent_witness :
  let svc := demo_services (fun _ _ => inr []) in
  let rfp_analysis :=
    [(py "1_핵심개요", JDict [(py "배경목적", JStr (py "Portal renewal"))])] in
  dict_lookup (py "4_평가선정기준") rfp_analysis = None
  /\ evaluation_criteria rfp_analysis = inr []
  /\ exists doc,
       build_document svc rfp_analysis (py "text") None [] = inr doc
       /\ doc_evaluation_criteria doc = json_dumps svc (JDict []).
Proof.
  cbv zeta.
  assert (H : dict_lookup (py "4_평가선정기준")
                [(py "1_핵심개요",
                  JDict [(py "배경목적", JStr (py "Portal renewal"))])]
              = None).
  { vm_compute. reflexivity. }
  split; [exact H|].
  destruct (evaluation_criteria_absent
              (demo_services (fun _ _ => inr [])) _ (py "text") None [] H)
    as [Hcrit Hdoc].
  split; [exact Hcrit|].
  apply Hdoc; [right|..]; vm_compute; reflexivity.
Defined.

(** C5, as stated, fails: without category 4 the criteria are the empty
    mapping, not the mapping of the three sub-fields to empty strings. *)
Lemma evaluation_criteria_absent_not_blank :
  let rfp_analysis :=
    [(py "1_핵심개요", JDict [(py "배경목적", JStr (py "Portal renewal"))])] in
  dict_lookup (py "4_평가선정기준") rfp_analysis = None
  /\ evaluation_criteria rfp_analysis = inr []
  /\ evaluation_criteria rfp_analysis <> inr blank_criteria.
Proof.
  cbv zeta. split; [vm_compute; reflexivity|].
  split; [vm_compute; reflexivity|].
  vm_compute. intros H. discriminate H.
Qed.

(** With category 4 present as an empty mapping the three sub-fields do
    default, each on its own, to the empty string. *)
Example evaluation_criteria_defaults :
  evaluation_criteria [(py "4_평가선정기준", JDict [])] = inr blank_criteria
  /\ evaluation_criteria
       [(py "4_평가선정기준", JDict [(py "가점감점요건", JStr (py "ISO 27001"))])]
     = inr [(py "정량정성배점", JStr []);
            (py "가점감점요건", JStr (py "ISO 27001"));
            (py "탈락필수요건", JStr [])].
Proof. split; vm_compute; reflexivity. Qed.

(* ================================================================== *)
(** * The title and the project type                                   *)
(* ================================================================== *)

Lemma firstn_len (n : nat) (s : pystr) : (len (firstn n s) <= Z.of_nat n)%Z.
Proof. unfold len. pose proof (firstn_le_length n s). lia. Qed.

(** C6. The title of the stored document is resolved in strict order: a
    title handed over by the extractor is used as it is, whatever the
    analysis holds; without one, the background and outcome fields of
    category 1, joined by a space and stripped, give the title when the
    result is not empty, cut to its first 100 characters; otherwise the
    title is the literal "RFP Document". *)
Theorem title_precedence (svc : services) (rfp_analysis : dict)
    (pdf_title : option pystr) :
  (forall t, pdf_title = Some t -> nonempty t = true ->
             document_title svc rfp_analysis pdf_title = inr t)
  /\ (title_given pdf_title = false ->
      forall core_overview,
        dict_lookup (py "1_핵심개요") rfp_analysis = Some (JDict core_overview) ->
        let project_overview :=
          strip (format_value svc (dict_get core_overview (py "배경목적") (JStr []))
                 ++ py " "
                 ++ format_value svc
                      (dict_get core_overview (py "기대성과") (JStr []))) in
        (nonempty project_overview = true ->
         document_title svc rfp_analysis pdf_title
         = inr (firstn 100 project_overview)
         /\ (len (firstn 100 project_overview) <= 100)%Z)
        /\ (nonempty project_overview = false ->
            document_title svc rfp_analysis pdf_title
            = inr (py "RFP Document")))
  /\ (title_given pdf_title = false ->
      dict_lookup (py "1_핵심개요") rfp_analysis = None ->
      document_title svc rfp_analysis pdf_title = inr (py "RFP Document"))
  /\ (forall rfp_content content_vector doc,
        build_document svc rfp_analysis rfp_content pdf_title content_vector
        = inr doc ->
        document_title svc rfp_analysis pdf_title = inr (doc_title doc)).
Proof.
  repeat apply conj.
  - intros t -> Ht. destruct t; [discriminate | reflexivity].
  - intros Hno core Hcat project_overview.
    assert (Htitle : document_title svc rfp_analysis pdf_title
                     = inr (if nonempty project_overview
                            then firstn 100 project_overview
                            else py "RFP Document")).
    { unfold document_title. rewrite Hcat.
      destruct pdf_title as [[|c t]|]; try discriminate Hno; reflexivity. }
    split; intros Hov; rewrite Hov in Htitle; [|exact Htitle].
    split; [exact Htitle | apply (firstn_len 100)].
  - intros Hno Hcat. unfold document_title. rewrite Hcat.
    destruct pdf_title as [[|c t]|]; try discriminate Hno; reflexivity.
  - intros rfp_content content_vector doc Hdoc.
    apply build_document_inv in Hdoc as (title & ? & ? & ? & ? & Ht & _ & _
                                         & _ & _ & Hfield & _).
    now rewrite Hfield.
Qed.

(** The three ranks of the title, each on an analysis whose category 1
    would give "Portal renewal Faster service". *)
Lemma title_precedence_witness :
  let svc := demo_services (fun _ _ => inr []) in
  let core_overview := [(py "배경목적", JStr (py "Portal renewal"));
                        (py "기대성과", JStr (py "Faster service"))] in
  let rfp_analysis := [(py "1_핵심개요", JDict core_overview)] in
  let project_overview :=
    strip (format_value svc (dict_get core_overview (py "배경목적") (JStr []))
           ++ py " "
           ++ format_value svc (dict_get core_overview (py "기대성과") (JStr []))) in
  project_overview = py "Portal renewal Faster service"
  /\ document_title svc rfp_analysis (Some (py "tender-2024"))
     = inr (py "tender-2024")
  /\ document_title svc rfp_analysis None = inr (firstn 100 project_overview)
  /\ document_title svc [] None = inr (py "RFP Document").
Proof.
  cbv zeta. split; [vm_compute; reflexivity|]. split; [|split].
  - destruct (title_precedence (demo_services (fun _ _ => inr []))
                [(py "1_핵심개요",
                  JDict [(py "배경목적", JStr (py "Portal renewal"));
                         (py "기대성과", JStr (py "Faster service"))])]
                (Some (py "tender-2024"))) as (Hgiven & _).
    apply Hgiven; [reflexivity | vm_compute; reflexivity].
  - assert (Hcat : dict_lookup (py "1_핵심개요")
                     [(py "1_핵심개요",
                       JDict [(py "배경목적", JStr (py "Portal renewal"));
                              (py "기대성과", JStr (py "Faster service"))])]
                   = Some (JDict [(py "배경목적", JStr (py "Portal renewal"));
                                  (py "기대성과", JStr (py "Faster service"))])).
    { vm_compute. reflexivity. }
    destruct (title_precedence (demo_services (fun _ _ => inr []))
                [(py "1_핵심개요",
                  JDict [(py "배경목적", JStr (py "Portal renewal"));
                         (py "기대성과", JStr (py "Faster service"))])]
                None) as (_ & Hderived & _).
    destruct (Hderived eq_refl _ Hcat) as [Hsome _].
    apply Hsome. vm_compute. reflexivity.
  - destruct (title_precedence (demo_services (fun _ _ => inr [])) [] None)
      as (_ & _ & Hfallback & _).
    apply Hfallback; vm_compute; reflexivity.
Defined.

(** A derived title longer than 100 characters is cut, not dropped. *)
Example title_truncated :
  let svc := demo_services (fun _ _ => inr []) in
  let rfp_analysis :=
    [(py "1_핵심개요",
      JDict [(py "배경목적", JStr (List.concat (repeat (py "renewal ") 20)))])] in
  document_title svc rfp_analysis None
  = inr (firstn 100 (List.concat (repeat (py "renewal ") 20)))
  /\ document_title svc rfp_analysis (Some [])
     = document_title svc rfp_analysis None.
Proof. cbv zeta. split; vm_compute; reflexivity. Qed.

Lemma pystr_eqb_eq (a b : pystr) : pystr_eqb a b = true -> a = b.
Proof.
  revert b. induction a as [|x a IH]; intros [|y b] H; try discriminate H;
    [reflexivity|].
  cbn in H. apply andb_true_iff in H as [Hxy Hab].
  apply N.eqb_eq in Hxy. f_equal; [exact Hxy | now apply IH].
Qed.

Lemma dict_lookup_absent (key : pystr) (d : dict) :
  ~ In key (map fst d) -> dict_lookup key d = None.
Proof.
  induction d as [|[k v] d IH]; intros Hnot; cbn; [reflexivity|].
  destruct (pystr_eqb k key) eqn:E.
  - exfalso. apply Hnot. left. now apply pystr_eqb_eq.
  - apply IH. intros Hin. apply Hnot. now right.
Qed.

Lemma dict_in_lookup (key : pystr) (d : dict) :
  dict_in key d = false -> dict_lookup key d = None.
Proof.
  induction d as [|[k v] d IH]; cbn; [reflexivity|].
  destruct (pystr_eqb k key); [discriminate | exact IH].
Qed.

(** The prompt asks for no top-level key named [project_type]. *)
Lemma project_type_not_in_schema : ~ In (py "project_type") schema_keys.
Proof.
  vm_compute. intros H.
  repeat (destruct H as [H|H]; [discriminate H|]). exact H.
Qed.

(** C10. For an analysis whose top-level keys are all keys of the prompt
    schema, and more generally whenever the key [project_type] is absent
    from the analysis, the document built for storage has the empty string
    as its [project_type]. *)
Theorem project_type_blank (svc : services) (rfp_analysis : dict)
    (rfp_content : pystr) (pdf_title : option pystr) (content_vector : vector)
    (doc : document) :
  Forall (fun item => In (fst item) schema_keys) rfp_analysis
  \/ dict_in (py "project_type") rfp_analysis = false ->
  build_document svc rfp_analysis rfp_content pdf_title content_vector
  = inr doc ->
  doc_project_type doc = JStr [].
Proof.
  intros Hkeys Hdoc.
  apply build_document_inv in Hdoc
    as (? & ? & ? & ? & ? & _ & _ & _ & _ & _ & _ & _ & _ & Hfield & _).
  rewrite Hfield. unfold dict_get.
  destruct Hkeys as [Hschema|Habsent].
  - rewrite dict_lookup_absent; [reflexivity|].
    intros Hin. apply in_map_iff in Hin as (item & Hkey & Hitem).
    rewrite Forall_forall in Hschema. specialize (Hschema item Hitem).
    rewrite Hkey in Hschema. now apply project_type_not_in_schema.
  - now rewrite dict_in_lookup.
Qed.

Lemma project_type_blank_witness :
  let svc := demo_services (fun _ _ => inr []) in
  let rfp_analysis :=
    [(py "1_핵심개요", JDict [(py "배경목적", JStr (py "Portal renewal"))]);
     (py "핵심키워드", JList [JStr (py "portal")])] in
  Forall (fun item => In (fst item) schema_keys) rfp_analysis
  /\ exists doc,
       build_document svc rfp_analysis (py "text") None [] = inr doc
       /\ doc_project_type doc = JStr [].
Proof.
  cbv zeta.
  assert (Hkeys : Forall (fun item => In (fst item) schema_keys)
                    [(py "1_핵심개요",
                      JDict [(py "배경목적", JStr (py "Portal renewal"))]);
                     (py "핵심키워드", JList [JStr (py "portal")])]).
  { constructor; [vm_compute; tauto|].
    constructor; [vm_compute; tauto | constructor]. }
  split; [exact Hkeys|].
  destruct (build_document (demo_services (fun _ _ => inr []))
              [(py "1_핵심개요",
                JDict [(py "배경목적", JStr (py "Portal renewal"))]);
               (py "핵심키워드", JList [JStr (py "portal")])]
              (py "text") None []) as [e|doc] eqn:Hdoc.
  - exfalso. vm_compute in Hdoc. discriminate Hdoc.
  - exists doc. split; [reflexivity|].
    exact (project_type_blank _ _ _ _ _ _ (or_introl Hkeys) Hdoc).
Defined.

(* ================================================================== *)
(** * The span that is parsed                                          *)
(* ================================================================== *)

Lemma longest_close_none (s : pystr) :
  ~ In close_brace s -> longest_close s = None.
Proof.
  induction s as [|c s IH]; intros Hnot; cbn [longest_close]; [reflexivity|].
  rewrite IH by (intros Hin; apply Hnot; now right).
  destruct (N.eqb_spec c close_brace) as [->|_]; [|reflexivity].
  exfalso. apply Hnot. now left.
Qed.

Lemma longest_close_none_inv (s : pystr) :
  longest_close s = None -> ~ In close_brace s.
Proof.
  induction s as [|c s IH]; cbn [longest_close]; intros H Hin; [exact Hin|].
  destruct (longest_close s) as [m|]; [discriminate|].
  destruct (N.eqb_spec c close_brace) as [->|Hc]; [discriminate|].
  destruct Hin as [Heq|Hin]; [congruence | now apply IH].
Qed.

(** The greedy match runs to the last closing brace. *)
Lemma longest_close_last (mid trailing : pystr) :
  ~ In close_brace trailing ->
  longest_close (mid ++ close_brace :: trailing) = Some (mid ++ [close_brace]).
Proof.
  intros Hnot. induction mid as [|c mid IH]; cbn [app longest_close].
  - rewrite (longest_close_none trailing Hnot). now rewrite N.eqb_refl.
  - now rewrite IH.
Qed.

(** The match starts at the first opening brace and ends at the last
    closing brace. *)
Lemma re_search_braces_span (prose mid trailing : pystr) :
  ~ In open_brace prose -> ~ In close_brace trailing ->
  re_search_braces (prose ++ open_brace :: mid ++ close_brace :: trailing)
  = Some (open_brace :: mid ++ [close_brace]).
Proof.
  intros Hprose Htrail.
  induction prose as [|c prose IH]; cbn [app re_search_braces].
  - rewrite N.eqb_refl. now rewrite longest_close_last.
  - destruct (N.eqb_spec c open_brace) as [->|_].
    + exfalso. apply Hprose. now left.
    + apply IH. intros Hin. apply Hprose. now right.
Qed.

(** There is no match when no closing brace follows an opening brace. *)
Lemma re_search_braces_none (content : pystr) :
  (forall before rest,
      content = before ++ open_brace :: rest -> ~ In close_brace rest) ->
  re_search_braces content = None.
Proof.
  induction content as [|c content IH]; intros Hno; cbn [re_search_braces];
    [reflexivity|].
  assert (Hrest : re_search_braces content = None).
  { apply IH. intros before rest ->. now apply (Hno (c :: before) rest). }
  destruct (N.eqb_spec c open_brace) as [->|_]; [|exact Hrest].
  rewrite longest_close_none; [exact Hrest|].
  now apply (Hno [] content).
Qed.

(** And only then. *)
Lemma re_search_braces_none_inv (content : pystr) :
  re_search_braces content = None ->
  forall before rest,
    content = before ++ open_brace :: rest -> ~ In close_brace rest.
Proof.
  induction content as [|c content IH]; intros Hnone before rest Heq.
  - destruct before; discriminate Heq.
  - cbn [re_search_braces] in Hnone.
    assert (Hrest : re_search_braces content = None).
    { destruct (c =? open_brace)%N; [|exact Hnone].
      destruct (longest_close content); [discriminate | exact Hnone]. }
    destruct before as [|b before]; cbn [app] in Heq.
    + injection Heq as -> ->. rewrite N.eqb_refl in Hnone.
      apply longest_close_none_inv.
      destruct (longest_close rest); [discriminate | reflexivity].
    + injection Heq as _ Heq. now apply (IH Hrest before rest).
Qed.

(** C7, as the code behaves. One request is sent to the model and never
    repeated. The span that is parsed runs from the first opening brace of
    the reply to its last closing brace (a greedy match, not a balanced
    one), and exactly that span is given to the JSON parser: when it
    parses, its value is the result and nothing is reported; when it is
    malformed, or when no closing brace follows an opening brace, or when
    the request itself fails, an error is reported and the result is the
    empty mapping. *)
Theorem response_parsing (svc : services) (rfp_content : pystr) (w : world) :
  let prompt := prompt_template svc rfp_content in
  let r := fst (analyze_rfp_with_gpt svc rfp_content w) in
  let w' := snd (analyze_rfp_with_gpt svc rfp_content w) in
  chat_log w' = chat_log w ++ [(prompt, chat_response svc prompt)]
  /\ (forall content prose mid trailing,
        chat_response svc prompt = inr content ->
        content = prose ++ open_brace :: mid ++ close_brace :: trailing ->
        ~ In open_brace prose -> ~ In close_brace trailing ->
        match json_loads svc (open_brace :: mid ++ [close_brace]) with
        | inr v => r = inr v /\ ui_log w' = ui_log w
        | inl e =>
            r = inr (JDict [])
            /\ ui_log w' = ui_log w ++ [StError (py "❌ RFP 분석 오류: ") (Some e)]
        end)
  /\ (forall content,
        chat_response svc prompt = inr content ->
        (forall before rest,
            content = before ++ open_brace :: rest -> ~ In close_brace rest) ->
        r = inr (JDict [])
        /\ ui_log w' = ui_log w
                       ++ [StError (py "❌ GPT 응답에서 JSON을 찾을 수 없습니다.") None])
  /\ (forall e,
        chat_response svc prompt = inl e ->
        r = inr (JDict [])
        /\ ui_log w' = ui_log w ++ [StError (py "❌ RFP 분석 오류: ") (Some e)]).
Proof.
  cbv zeta.
  unfold analyze_rfp_with_gpt, try_except, bind, chat_create, lift.
  repeat apply conj.
  - destruct (chat_response svc (prompt_template svc rfp_content)) as [e|content];
      [reflexivity|].
    destruct (re_search_braces content) as [span|]; [|reflexivity].
    destruct (json_loads svc span); reflexivity.
  - intros content prose mid trailing Hreply -> Hprose Htrail.
    rewrite Hreply, (re_search_braces_span prose mid trailing Hprose Htrail).
    destruct (json_loads svc (open_brace :: mid ++ [close_brace]));
      split; reflexivity.
  - intros content Hreply Hno.
    rewrite Hreply, (re_search_braces_none content Hno). split; reflexivity.
  - intros e Hreply. rewrite Hreply. split; reflexivity.
Qed.

Lemma response_parsing_witness :
  let object := py "{" ++ quoted (py "a") ++ py ": 1}" in
  let svc := demo_parser (py "Here is the analysis: " ++ object ++ py " Done.")
               demo_loads in
  fst (analyze_rfp_with_gpt svc (py "rfp") world0)
  = inr (JDict [(py "a", JInt 1)])
  /\ ui_log (snd (analyze_rfp_with_gpt svc (py "rfp") world0)) = [].
Proof.
  cbv zeta.
  destruct (response_parsing
              (demo_parser (py "Here is the analysis: "
                            ++ (py "{" ++ quoted (py "a") ++ py ": 1}")
                            ++ py " Done.") demo_loads)
              (py "rfp") world0) as (_ & Hspan & _).
  cbv zeta in Hspan.
  specialize (Hspan _ (py "Here is the analysis: ")
                (quoted (py "a") ++ py ": 1") (py " Done.") eq_refl).
  apply Hspan.
  - vm_compute. reflexivity.
  - vm_compute. intros H. repeat (destruct H as [H|H]; [discriminate H|]).
    exact H.
  - vm_compute. intros H. repeat (destruct H as [H|H]; [discriminate H|]).
    exact H.
Defined.

(** C7, as stated, fails: in this reply the first balanced span is the
    object [{"a": 1}], which parses, but the span taken runs on to the last
    closing brace of the prose after it; the parser refuses it and the
    analysis fails. *)
Lemma greedy_span_not_balanced :
  let object := py "{" ++ quoted (py "a") ++ py ": 1}" in
  let content := object ++ py " (fields in {braces} are examples)" in
  let svc := demo_parser content demo_loads in
  first_balanced_span content = Some object
  /\ json_loads svc object = inr (JDict [(py "a", JInt 1)])
  /\ re_search_braces content = Some (object ++ py " (fields in {braces}")
  /\ fst (analyze_rfp_with_gpt svc (py "rfp") world0) = inr (JDict [])
  /\ ui_log (snd (analyze_rfp_with_gpt svc (py "rfp") world0))
     = [StError (py "❌ RFP 분석 오류: ")
          (Some (JSONDecodeError (py "Extra data")))].
Proof.
  cbv zeta.
  split; [vm_compute; reflexivity|].
  split; [vm_compute; reflexivity|].
  split; [vm_compute; reflexivity|].
  split; vm_compute; reflexivity.
Qed.

(* ================================================================== *)
(** * More on the chunker                                              *)
(* ================================================================== *)

Lemma lstrip_fixed_prefix (a b : pystr) :
  lstrip (a ++ b) = a ++ b -> a <> [] -> lstrip a = a.
Proof.
  destruct a as [|c a]; [congruence|]. intros H _. cbn in *.
  destruct (isspace c); [|reflexivity].
  exfalso. pose proof (lstrip_length (a ++ b)) as Hlen.
  rewrite H in Hlen. cbn in Hlen. lia.
Qed.

Lemma lstrip_idem (s : pystr) : lstrip (lstrip s) = lstrip s.
Proof.
  induction s as [|c s IH]; cbn; [reflexivity|].
  destruct (isspace c) eqn:Hc; [exact IH|]. cbn. now rewrite Hc.
Qed.

Lemma lstrip_suffix (s : pystr) : exists pre, s = pre ++ lstrip s.
Proof.
  induction s as [|c s [pre IH]]; cbn; [now exists []|].
  destruct (isspace c); [|now exists []].
  exists (c :: pre). cbn. now rewrite <- IH.
Qed.

(** Stripping twice is stripping once. *)
Lemma strip_idem (s : pystr) : strip (strip s) = strip s.
Proof.
  unfold strip.
  set (t := lstrip s). set (u := lstrip (rev t)).
  assert (Hu : lstrip u = u) by apply lstrip_idem.
  assert (Hru : lstrip (rev u) = rev u).
  { destruct u as [|c u'] eqn:E; [reflexivity|]. rewrite <- E in *.
    destruct (lstrip_suffix (rev t)) as [pre Hpre]. fold u in Hpre.
    assert (Ht : t = rev u ++ rev pre).
    { rewrite <- rev_app_distr, <- Hpre. now rewrite rev_involutive. }
    apply (lstrip_fixed_prefix (rev u) (rev pre)).
    - rewrite <- Ht. apply lstrip_idem.
    - rewrite E. cbn. now destruct (rev u'). }
  now rewrite Hru, rev_involutive, Hu.
Qed.

Lemma strip_clean (s : pystr) : nonspace s <> [] -> clean (strip s).
Proof.
  intros H. split; [apply strip_idem|].
  unfold nonspace. rewrite filter_strip; [exact H|].
  intros c Hc. now rewrite Hc.
Qed.

Lemma nonspace_app_r (a b : pystr) : nonspace b <> [] -> nonspace (a ++ b) <> [].
Proof.
  intros Hb H. unfold nonspace in *. rewrite filter_app in H.
  now apply app_eq_nil in H as [_ H].
Qed.

Lemma nonspace_token (w : pystr) : is_token w = true -> nonspace w <> [].
Proof.
  intros H. apply is_token_inv in H as [Hne Hf].
  destruct w as [|c w]; [congruence|]. cbn in *.
  apply andb_true_iff in Hf as [Hc _]. rewrite Hc. discriminate.
Qed.

Lemma started_close (chunks : list pystr) (temp : pystr) :
  Forall clean chunks -> started temp ->
  Forall clean (if nonempty temp then chunks ++ [strip temp] else chunks).
Proof.
  intros Hc Ht. destruct (nonempty temp) eqn:Hn; [|exact Hc].
  apply Forall_app. split; [exact Hc|]. constructor; [|constructor].
  apply strip_clean. destruct Ht as [->|Ht]; [discriminate | exact Ht].
Qed.

Lemma pack_word_clean (m : Z) (chunks : list pystr) (temp word : pystr) :
  Forall clean chunks -> started temp -> is_token word = true ->
  Forall clean (fst (pack_word m (chunks, temp) word))
  /\ started (snd (pack_word m (chunks, temp) word)).
Proof.
  intros Hc Ht Hw. pose proof (nonspace_token word Hw) as Hword.
  unfold pack_word.
  destruct (len (temp ++ py " " ++ word) <=? m)%Z; cbn [fst snd].
  - split; [exact Hc|]. right.
    destruct (nonempty temp); [|exact Hword].
    rewrite app_assoc. now apply nonspace_app_r.
  - split; [now apply started_close | now right].
Qed.

Lemma pack_words_clean (m : Z) (chunks words : list pystr) :
  Forall (fun w => is_token w = true) words -> Forall clean chunks ->
  Forall clean (fst (pack_words m chunks words))
  /\ started (snd (pack_words m chunks words)).
Proof.
  intros Hw. unfold pack_words.
  assert (Hgen : forall st, Forall clean (fst st) -> started (snd st) ->
            Forall clean (fst (fold_left (pack_word m) words st))
            /\ started (snd (fold_left (pack_word m) words st))).
  { induction Hw as [|w ws Hwtok _ IH]; intros [cs t] Hc Ht; cbn [fold_left].
    - now split.
    - destruct (pack_word_clean m cs t w Hc Ht Hwtok) as [Hc' Ht'].
      destruct (pack_word m (cs, t) w) as [cs' t']. now apply IH. }
  intros Hc. apply Hgen; [exact Hc | now left].
Qed.

Lemma sentence_step_clean (m : Z) (st : list pystr * pystr) (sentence : pystr) :
  Forall clean (fst st) -> started (snd st) ->
  Forall clean (fst (sentence_step m st sentence))
  /\ started (snd (sentence_step m st sentence)).
Proof.
  destruct st as [chunks cur]. cbn [fst snd]. intros Hc Ht.
  assert (Hdot : forall a, nonspace (a ++ py ". ") <> []).
  { intros a. apply nonspace_app_r. discriminate. }
  unfold sentence_step.
  destruct (nonempty cur) eqn:Hn.
  - match goal with
    | |- context [(?a <=? m)%Z] => destruct (a <=? m)%Z
    end; cbn [fst snd].
    + split; [exact Hc|]. right. rewrite app_assoc. apply Hdot.
    + split; [|right; apply Hdot].
      pose proof (started_close chunks cur Hc Ht) as H. now rewrite Hn in H.
  - match goal with
    | |- context [(?a <=? m)%Z] => destruct (a <=? m)%Z
    end; cbn [fst snd]; [split; [exact Hc|right; apply Hdot]|].
    destruct (len sentence >? m)%Z; cbn [fst snd];
      [|split; [exact Hc|right; apply Hdot]].
    destruct (pack_words_clean m chunks (split_ws sentence)
                (split_ws_tokens sentence) Hc) as [Hc' Ht'].
    destruct (pack_words m chunks (split_ws sentence)) as [chunks' temp].
    cbn [fst snd] in *. split; [exact Hc'|].
    destruct (nonempty temp); [right; apply Hdot | exact Ht].
Qed.

Lemma sentence_pass_clean (m : Z) (text : pystr) :
  Forall clean (sentence_pass m text).
Proof.
  unfold sentence_pass.
  assert (Hgen : forall ss st, Forall clean (fst st) -> started (snd st) ->
            Forall clean (fst (fold_left (sentence_step m) ss st))
            /\ started (snd (fold_left (sentence_step m) ss st))).
  { induction ss as [|s ss IH]; intros st Hc Ht; cbn [fold_left];
      [now split|].
    destruct (sentence_step_clean m st s Hc Ht). now apply IH. }
  destruct (Hgen (split_sentences text) ([], [])) as [Hc Ht];
    [constructor | now left |].
  destruct (fold_left (sentence_step m) (split_sentences text) ([], []))
    as [chunks cur]. now apply started_close.
Qed.

Lemma rescan_step_clean (m : Z) (final_chunks : list pystr) (chunk : pystr) :
  Forall clean final_chunks -> clean chunk ->
  Forall clean (rescan_step m final_chunks chunk).
Proof.
  intros Hf Hchunk. unfold rescan_step. destruct (len chunk <=? m)%Z.
  - apply Forall_app. split; [exact Hf | now constructor].
  - destruct (pack_words_clean m final_chunks (split_ws chunk)
                (split_ws_tokens chunk) Hf) as [Hc Ht].
    destruct (pack_words m final_chunks (split_ws chunk)) as [fc temp].
    now apply started_close.
Qed.

(** X1. No chunk is empty or blank, and no chunk starts or ends with
    whitespace: stripping a returned chunk changes nothing, and every
    returned chunk has a character that is not whitespace. *)
Theorem chunks_are_clean (text : pystr) (max_chunk_size : Z) :
  Forall (fun chunk => strip chunk = chunk /\ nonspace chunk <> []
                       /\ chunk <> [])
    (_split_text_into_chunks text max_chunk_size).
Proof.
  unfold _split_text_into_chunks.
  assert (Hgen : forall cs fc, Forall clean cs -> Forall clean fc ->
            Forall clean (fold_left (rescan_step max_chunk_size) cs fc)).
  { induction cs as [|c cs IH]; intros fc Hcs Hfc; cbn [fold_left];
      [exact Hfc|].
    inversion Hcs; subst. apply IH; [assumption|].
    now apply rescan_step_clean. }
  eapply Forall_impl;
    [|apply (Hgen _ [] (sentence_pass_clean max_chunk_size text)); constructor].
  intros chunk [Hs Hn]. repeat split; [exact Hs | exact Hn |].
  intros ->. now apply Hn.
Qed.

Lemma fold_sentence_step_short (m : Z) (sentences : list pystr) :
  forall cur,
    (len (cur ++ List.concat (map (fun s => s ++ py ". ") sentences)) <= m)%Z ->
    fold_left (sentence_step m) sentences ([], cur)
    = ([], cur ++ List.concat (map (fun s => s ++ py ". ") sentences)).
Proof.
  induction sentences as [|s ss IH]; intros cur Hlen;
    cbn [fold_left map List.concat] in *.
  - now rewrite app_nil_r.
  - assert (Hstep : sentence_step m ([], cur) s = ([], cur ++ s ++ py ". ")).
    { unfold sentence_step.
      assert (Htest : (if nonempty cur then cur ++ s ++ py ". "
                       else s ++ py ". ") = cur ++ s ++ py ". ").
      { destruct cur; reflexivity. }
      rewrite Htest.
      destruct (Z.leb_spec (len (cur ++ s ++ py ". ")) m) as [_|Hgt];
        [reflexivity|].
      exfalso. unfold len in *. rewrite !length_app in *. lia. }
    rewrite <- !app_assoc in Hlen.
    rewrite Hstep, IH; rewrite <- !app_assoc; [reflexivity | exact Hlen].
Qed.

(** X2. A text that fits the limit together with the closing delimiter comes
    back as one chunk: the text followed by a period, stripped. *)
Theorem short_text_single_chunk (text : pystr) (max_chunk_size : Z) :
  (len text + 2 <= max_chunk_size)%Z ->
  _split_text_into_chunks text max_chunk_size = [strip (text ++ py ". ")].
Proof.
  intros Hfit.
  assert (Hlen : (len (text ++ py ". ") <= max_chunk_size)%Z).
  { unfold len in *. rewrite length_app.
    change (List.length (py ". ")) with 2%nat. lia. }
  unfold _split_text_into_chunks, sentence_pass.
  rewrite (fold_sentence_step_short max_chunk_size (split_sentences text) []);
    rewrite split_sentences_join; [|exact Hlen].
  cbn [app]. destruct (text ++ py ". ") as [|c rest] eqn:E.
  { destruct text; discriminate E. }
  cbn [nonempty app fold_left]. unfold rescan_step.
  destruct (Z.leb_spec (len (strip (c :: rest))) max_chunk_size) as [_|Hgt];
    [reflexivity|].
  exfalso. pose proof (strip_length (c :: rest)). lia.
Qed.

Lemma short_text_single_chunk_witness :
  _split_text_into_chunks (py "  Portal renewal. Phase one ") 40
  = [py "Portal renewal. Phase one ."].
Proof.
  assert (H : (len (py "  Portal renewal. Phase one ") + 2 <= 40)%Z).
  { vm_compute. discriminate. }
  rewrite (short_text_single_chunk _ 40 H). vm_compute. reflexivity.
Defined.

Lemma split_ws_blank (s : pystr) : nonspace s = [] -> split_ws s = [].
Proof.
  intros H. pose proof (concat_split_ws s) as Hc. rewrite H in Hc.
  pose proof (split_ws_tokens s) as Ht.
  destruct (split_ws s) as [|w ws]; [reflexivity|]. exfalso.
  inversion Ht as [|? ? Hw _]; subst. apply is_token_inv in Hw as [Hne _].
  cbn in Hc. now apply app_eq_nil in Hc as [Hw' _].
Qed.

Lemma sentence_step_blank (m : Z) (chunks : list pystr) (sentence : pystr) :
  blank_overflow m sentence = true ->
  sentence_step m (chunks, []) sentence = (chunks, []).
Proof.
  unfold blank_overflow. intros H. apply andb_true_iff in H as [Hlong Hblank].
  apply negb_true_iff, nonempty_false in Hblank.
  unfold sentence_step. cbn [nonempty]. rewrite Hlong.
  destruct (Z.leb_spec (len (sentence ++ py ". ")) m) as [Hle|_].
  { exfalso. apply Z.gtb_lt in Hlong. unfold len in *.
    rewrite length_app in Hle. lia. }
  now rewrite (split_ws_blank sentence Hblank).
Qed.

Lemma sentence_step_keeps_current (m : Z) (chunks : list pystr)
    (cur sentence : pystr) :
  nonempty cur = true ->
  nonempty (snd (sentence_step m (chunks, cur) sentence)) = true.
Proof.
  intros Hn. unfold sentence_step. rewrite Hn.
  destruct (len (cur ++ sentence ++ py ". ") <=? m)%Z; cbn [snd].
  - destruct cur; [discriminate | reflexivity].
  - destruct sentence; reflexivity.
Qed.

Lemma sentence_step_starts_current (m : Z) (st : list pystr * pystr)
    (sentence : pystr) :
  blank_overflow m sentence = false ->
  nonempty (snd (sentence_step m st sentence)) = true.
Proof.
  intros Hblank. destruct st as [chunks cur].
  destruct (nonempty cur) eqn:Hn;
    [now apply sentence_step_keeps_current|].
  assert (Hdot : nonempty (sentence ++ py ". ") = true)
    by (destruct sentence; reflexivity).
  unfold sentence_step. rewrite Hn.
  destruct (len (sentence ++ py ". ") <=? m)%Z; cbn [snd]; [exact Hdot|].
  destruct (len sentence >? m)%Z eqn:Hlong; cbn [snd]; [|exact Hdot].
  unfold blank_overflow in Hblank. rewrite Hlong in Hblank.
  cbn [andb] in Hblank. apply negb_false_iff in Hblank.
  pose proof (pack_words_temp_nonempty m chunks sentence Hblank) as Ht.
  destruct (pack_words m chunks (split_ws sentence)) as [chunks' temp].
  cbn [snd] in *. rewrite Ht. destruct temp; [discriminate | reflexivity].
Qed.

Lemma fold_sentence_step_current (m : Z) (sentences : list pystr) :
  forall st,
    nonempty (snd st) = true
    \/ forallb (blank_overflow m) sentences = false ->
    nonempty (snd (fold_left (sentence_step m) sentences st)) = true.
Proof.
  induction sentences as [|s ss IH]; intros st H; cbn [fold_left].
  - destruct H as [H|H]; [exact H | discriminate H].
  - apply IH. destruct H as [H|H].
    + left. destruct st as [chunks cur].
      now apply sentence_step_keeps_current.
    + cbn [forallb] in H. apply andb_false_iff in H as [H|H];
        [left; now apply sentence_step_starts_current | now right].
Qed.

Lemma fold_sentence_step_blank (m : Z) (sentences : list pystr) :
  forallb (blank_overflow m) sentences = true ->
  fold_left (sentence_step m) sentences ([], []) = ([], []).
Proof.
  induction sentences as [|s ss IH]; intros H; cbn [fold_left];
    [reflexivity|].
  cbn [forallb] in H. apply andb_true_iff in H as [Hs Hss].
  rewrite (sentence_step_blank m [] s Hs). now apply IH.
Qed.

(** X3. The chunker returns no chunk at all exactly when every fragment
    between the delimiters is a whitespace-only run longer than the
    limit. *)
Theorem no_chunk_iff_blank (text : pystr) (max_chunk_size : Z) :
  _split_text_into_chunks text max_chunk_size = []
  <-> forallb (blank_overflow max_chunk_size) (split_sentences text) = true.
Proof.
  split.
  - intros Hnil.
    destruct (forallb (blank_overflow max_chunk_size) (split_sentences text))
      eqn:Hall; [reflexivity|]. exfalso.
    pose proof (fold_sentence_step_current max_chunk_size
                  (split_sentences text) ([], []) (or_intror Hall)) as Hcur.
    pose proof (sentence_pass_clean max_chunk_size text) as Hclean.
    assert (Hsel : forall c, isspace c = true -> negb (isspace c) = false)
      by (intros c Hc; now rewrite Hc).
    pose proof (filter_fold_rescan (fun c => negb (isspace c)) Hsel
                  max_chunk_size (sentence_pass max_chunk_size text) [])
      as Hkeep.
    unfold _split_text_into_chunks in Hnil. rewrite Hnil in Hkeep.
    cbn [List.concat filter app] in Hkeep.
    unfold sentence_pass in *.
    destruct (fold_left (sentence_step max_chunk_size) (split_sentences text)
                ([], [])) as [chunks cur].
    cbn [snd] in Hcur. rewrite Hcur in *.
    apply Forall_app in Hclean as [_ Hlast].
    inversion Hlast as [|? ? [_ Hne] _]; subst.
    rewrite concat_app, filter_app in Hkeep. cbn [List.concat] in Hkeep.
    rewrite app_nil_r in Hkeep. symmetry in Hkeep.
    apply app_eq_nil in Hkeep as [_ Hkeep]. now apply Hne.
  - intros Hall. unfold _split_text_into_chunks, sentence_pass.
    now rewrite (fold_sentence_step_blank _ _ Hall).
Qed.

(* ================================================================== *)
(** * More on [get_embedding]                                          *)
(* ================================================================== *)

Lemma embed_chunks_inputs (svc : services) (n : Z) (chunks : list pystr) :
  forall i acc w r w',
    embed_chunks svc n i chunks acc w = (r, w') ->
    chat_log w' = chat_log w /\ upload_log w' = upload_log w
    /\ exists entries k,
         embed_log w' = embed_log w ++ entries
         /\ map fst entries = firstn k chunks.
Proof.
  induction chunks as [|chunk rest IH]; intros i acc w r w' Hrun.
  - cbn in Hrun. injection Hrun as <- <-. repeat split.
    exists [], 0%nat. now rewrite app_nil_r.
  - cbn [embed_chunks] in Hrun. unfold bind at 1 in Hrun.
    cbn [st_emit] in Hrun. unfold bind at 1 in Hrun.
    unfold embeddings_create at 1 in Hrun.
    cbn [embed_log chat_log upload_log ui_log] in Hrun.
    destruct (embeddings_response svc (map fst (embed_log w)) chunk)
      as [e|v].
    + injection Hrun as <- <-. cbn [embed_log chat_log upload_log].
      repeat split. now exists [(chunk, inl e)], 1%nat.
    + unfold bind at 1 in Hrun. cbn [st_emit] in Hrun.
      cbn [embed_log chat_log upload_log ui_log] in Hrun.
      apply IH in Hrun. cbn [embed_log chat_log upload_log] in Hrun.
      destruct Hrun as (Hchat & Hup & entries & k & Hlog & Hfst).
      repeat split; [exact Hchat | exact Hup|].
      exists ((chunk, inr v) :: entries), (S k). split.
      * rewrite Hlog, <- app_assoc. reflexivity.
      * cbn. now rewrite Hfst.
Qed.

(** What a run of [get_embedding] touches, and in which order it asks. *)
Lemma get_embedding_frame (svc : services) (text : pystr) (w : world) :
  forall r w',
    get_embedding svc text w = (r, w') ->
    chat_log w' = chat_log w /\ upload_log w' = upload_log w
    /\ exists entries k,
         embed_log w' = embed_log w ++ entries
         /\ map fst entries
            = firstn k (if (len text <=? max_chunk_size)%Z then [text]
                        else _split_text_into_chunks text max_chunk_size).
Proof.
  intros r w' Hrun. unfold get_embedding, try_except in Hrun.
  destruct (len text <=? max_chunk_size)%Z.
  - unfold embeddings_create in Hrun.
    destruct (embeddings_response svc (map fst (embed_log w)) text);
      cbn in Hrun; injection Hrun as <- <-; cbn [embed_log chat_log upload_log];
      repeat split; eexists; exists 1%nat; split; reflexivity.
  - unfold bind at 1 in Hrun. cbn [st_emit] in Hrun.
    unfold bind at 1 in Hrun. cbn [st_emit] in Hrun.
    unfold bind at 1 in Hrun.
    match type of Hrun with
    | context [embed_chunks svc ?n ?i ?cs ?acc ?w0] =>
        destruct (embed_chunks svc n i cs acc w0) as [r0 w1] eqn:Hloop
    end.
    apply embed_chunks_inputs in Hloop.
    cbn [embed_log chat_log upload_log] in Hloop.
    destruct Hloop as (Hchat & Hup & entries & k & Hlog & Hfst).
    assert (Hsame : chat_log w' = chat_log w1 /\ upload_log w' = upload_log w1
                    /\ embed_log w' = embed_log w1).
    { destruct r0 as [e|[|v vs]].
      - cbn in Hrun. injection Hrun as <- <-. now repeat split.
      - cbn in Hrun. injection Hrun as <- <-. now repeat split.
      - unfold lift in Hrun. destruct (np_mean_axis0 (v :: vs));
          cbn in Hrun; injection Hrun as <- <-; now repeat split. }
    destruct Hsame as (-> & -> & ->).
    repeat split; [exact Hchat | exact Hup|]. now exists entries, k.
Qed.

(** X4. [get_embedding] never raises and talks to the embedding service only:
    it answers a list whatever happens, leaves the chat and upload records
    alone, and only adds to the records of requests and of messages. *)
Theorem get_embedding_contained (svc : services) (text : pystr) (w : world) :
  let w' := snd (get_embedding svc text w) in
  (exists v, fst (get_embedding svc text w) = inr v)
  /\ chat_log w' = chat_log w
  /\ upload_log w' = upload_log w
  /\ (exists entries, embed_log w' = embed_log w ++ entries)
  /\ (exists events, ui_log w' = ui_log w ++ events).
Proof.
  cbv zeta. destruct (get_embedding svc text w) as [r w'] eqn:Hrun.
  cbn [fst snd].
  destruct (get_embedding_frame svc text w r w' Hrun)
    as (Hchat & Hup & entries & _ & Hlog & _).
  destruct (get_embedding_run svc text w r w' Hrun)
    as (entries' & events & _ & Hui & _ & Hcases).
  repeat split; [| exact Hchat | exact Hup | now exists entries
                 | now exists events].
  destruct Hcases as [(vs & _ & [(_ & _ & v & _ & ->)|(_ & _ & ->)])
                     | (_ & _ & _ & _ & _ & -> & _)]; eexists; reflexivity.
Qed.

(** X5. The inputs sent to the embedding service are the text itself when it
    is short, and otherwise the chunks from the first one on, in chunk
    order and without gaps, also when a request fails; so every input is
    within the 4000 characters or is one single over-long word. *)
Theorem request_inputs_bounded (svc : services) (text : pystr) (w : world) :
  let sent := requests_since w (snd (get_embedding svc text w)) in
  let chunks := _split_text_into_chunks text max_chunk_size in
  ((len text <= max_chunk_size)%Z -> map fst sent = [text])
  /\ ((max_chunk_size < len text)%Z ->
      exists k, map fst sent = firstn k chunks)
  /\ Forall (fun input => (len input <= max_chunk_size)%Z
                          \/ is_token input = true) (map fst sent).
Proof.
  cbv zeta. destruct (get_embedding svc text w) as [r w'] eqn:Hrun.
  cbn [snd].
  destruct (get_embedding_frame svc text w r w' Hrun)
    as (_ & _ & entries & k & Hlog & Hfst).
  rewrite (requests_since_app w w' entries Hlog).
  destruct (get_embedding_run svc text w r w' Hrun)
    as (entries' & events & Hlog' & _ & _ & Hcases).
  assert (entries' = entries) as ->.
  { rewrite Hlog in Hlog'. now apply app_inv_head in Hlog'. }
  destruct (Z.leb_spec (len text) max_chunk_size) as [Hshort|Hlong].
  - assert (Hone : map fst entries = [text]).
    { destruct Hcases as [(vs & _ & [(_ & H & _)|(Hl & _)])
                         | (good & input & e & -> & _)]; [exact H | lia |].
      rewrite Hfst. destruct k as [|k]; cbn in *.
      - rewrite map_app in Hfst. now destruct good.
      - now rewrite firstn_nil. }
    repeat split; [now intros _ | lia |].
    rewrite Hone. constructor; [now left | constructor].
  - repeat split; [lia | intros _; now exists k |].
    rewrite Hfst.
    pose proof (fold_rescan_bound max_chunk_size
                  (sentence_pass max_chunk_size text) [] (Forall_nil _)) as Hb.
    rewrite Forall_forall in *. intros input Hin.
    apply (Hb input). unfold _split_text_into_chunks in Hin.
    match type of Hin with
    | In _ (firstn _ ?l) => rewrite <- (firstn_skipn k l)
    end.
    apply in_or_app. now left.
Qed.

(* ================================================================== *)
(** * More on the storage                                              *)
(* ================================================================== *)

Lemma value_get_error (v : json) (key : pystr) (default : json) (e : exn) :
  value_get v key default = inl e ->
  e = AttributeError (type_name v) (py "get").
Proof. destruct v; cbn; intros H; now inversion H. Qed.

Lemma category_not_ok (key : pystr) (rfp_analysis : dict) :
  category_ok key rfp_analysis = false ->
  exists v, dict_lookup key rfp_analysis = Some v
            /\ forall k d, value_get v k d
                           = inl (AttributeError (type_name v) (py "get")).
Proof.
  unfold category_ok. destruct (dict_lookup key rfp_analysis) as [v|];
    [|discriminate].
  intros H. exists v. split; [reflexivity|].
  destruct v; try discriminate H; reflexivity.
Qed.

(** The only exception the flattening can raise is the missing [get] of a
    category that is not a mapping. *)
Lemma build_document_error (svc : services) (rfp_analysis : dict)
    (rfp_content : pystr) (pdf_title : option pystr) (content_vector : vector)
    (e : exn) :
  build_document svc rfp_analysis rfp_content pdf_title content_vector
  = inl e ->
  exists type, e = AttributeError type (py "get").
Proof.
  unfold build_document, document_title, budget_range, submission_deadline,
    technical_requirements, evaluation_criteria, and_then.
  intros H.
  repeat match type of H with
         | context [match dict_lookup ?k rfp_analysis with _ => _ end] =>
             destruct (dict_lookup k rfp_analysis)
         | context [match pdf_title with _ => _ end] =>
             destruct pdf_title as [[|? ?]|]
         | context [match value_get ?v ?k ?d with _ => _ end] =>
             let E := fresh "E" in
             destruct (value_get v k d) eqn:E;
             [apply value_get_error in E; eexists;
              injection H as <-; exact E|]
         end; discriminate H.
Qed.

Lemma build_document_malformed (svc : services) (rfp_analysis : dict)
    (rfp_content : pystr) (pdf_title : option pystr) (content_vector : vector)
    (key : pystr) :
  In key [py "2_일정마일스톤"; py "3_예산가격"; py "4_평가선정기준";
          py "5_요구사항"] ->
  category_ok key rfp_analysis = false ->
  exists type,
    build_document svc rfp_analysis rfp_content pdf_title content_vector
    = inl (AttributeError type (py "get")).
Proof.
  intros Hkey Hbad.
  destruct (build_document svc rfp_analysis rfp_content pdf_title
              content_vector) as [e|doc] eqn:Hdoc.
  { destruct (build_document_error _ _ _ _ _ _ Hdoc) as [type ->].
    now exists type. }
  exfalso. apply build_document_inv in Hdoc
    as (? & ? & ? & ? & ? & _ & Hb & Hd & Hr & Hc & _).
  apply category_not_ok in Hbad as (v & Hv & Hget).
  unfold budget_range, submission_deadline, technical_requirements,
    evaluation_criteria, and_then in *.
  destruct Hkey as [<-|[<-|[<-|[<-|[]]]]];
    rewrite Hv in *; rewrite ?Hget in *; discriminate.
Qed.

(** X6. [store_rfp_in_search] never raises and uploads at most one document:
    either nothing is uploaded and the answer is [False], or exactly the
    flattened document is uploaded and the answer is [True] just when the
    search service answered a non-empty result. *)
Theorem store_outcome (svc : services) (rfp_analysis : dict)
    (rfp_content : pystr) (pdf_title : option pystr) (w : world) :
  let r := fst (store_rfp_in_search svc rfp_analysis rfp_content pdf_title w) in
  let w' := snd (store_rfp_in_search svc rfp_analysis rfp_content pdf_title w) in
  (r = inr false /\ upload_log w' = upload_log w)
  \/ (exists doc content_vector,
        fst (get_embedding svc rfp_content w) = inr content_vector
        /\ build_document svc rfp_analysis rfp_content pdf_title content_vector
           = inr doc
        /\ upload_log w' = upload_log w ++ [(doc, upload_response svc doc)]
        /\ r = inr match upload_response svc doc with
                   | inr result => (0 <? result)%Z
                   | inl _ => false
                   end).
Proof.
  cbv zeta.
  destruct (store_uploads_built_document svc rfp_analysis rfp_content
              pdf_title w) as (v & Hv & Hcase).
  cbv zeta in Hcase.
  destruct (get_embedding svc rfp_content w) as [r0 w1] eqn:Hrun.
  destruct (get_embedding_frame svc rfp_content w r0 w1 Hrun)
    as (_ & Hup & _).
  cbn [fst snd] in *. rewrite Hup in Hcase.
  destruct (build_document svc rfp_analysis rfp_content pdf_title v)
    as [e|doc] eqn:Hdoc.
  - left. destruct Hcase as [Hlog Hr]. now split.
  - right. exists doc, v. destruct Hcase as [Hlog Hr]. now repeat split.
Qed.

(** X7. A failed embedding does not stop the storage: when an embedding
    request fails and the flattening succeeds, the document is uploaded
    all the same, with an empty [content_vector]. *)
Theorem store_after_embedding_failure (svc : services) (rfp_analysis : dict)
    (rfp_content : pystr) (pdf_title : option pystr) (w : world)
    (input : pystr) (e : exn) (doc : document) :
  In (input, inl e)
    (requests_since w (snd (get_embedding svc rfp_content w))) ->
  build_document svc rfp_analysis rfp_content pdf_title [] = inr doc ->
  doc_content_vector doc = []
  /\ upload_log (snd (store_rfp_in_search svc rfp_analysis rfp_content
                        pdf_title w))
     = upload_log w ++ [(doc, upload_response svc doc)].
Proof.
  intros Hin Hdoc.
  destruct (store_uploads_built_document svc rfp_analysis rfp_content
              pdf_title w) as (v & Hv & Hcase).
  cbv zeta in Hcase.
  destruct (get_embedding svc rfp_content w) as [r0 w1] eqn:Hrun.
  destruct (get_embedding_frame svc rfp_content w r0 w1 Hrun)
    as (_ & Hup & _).
  destruct (get_embedding_run svc rfp_content w r0 w1 Hrun)
    as (entries & events & Hlog & _ & _ & Hcases).
  cbn [fst snd] in *. rewrite (requests_since_app w w1 entries Hlog) in Hin.
  assert (v = []) as ->.
  { destruct Hcases as [(vs & Hsnd & _) | (_ & _ & _ & _ & _ & Hr & _)].
    - exfalso. apply (in_map snd) in Hin. rewrite Hsnd in Hin. cbn in Hin.
      apply in_map_iff in Hin as (x & Hx & _). discriminate Hx.
    - congruence. }
  rewrite Hdoc, Hup in Hcase. destruct Hcase as [Hupload _].
  split; [|exact Hupload].
  apply build_document_inv in Hdoc. now destruct Hdoc as (? & ? & ? & ? & ? & H).
Qed.

Lemma store_after_embedding_failure_witness :
  let svc := demo_services (fun _ _ => inl (ServiceError (py "timeout"))) in
  let rfp_analysis :=
    [(py "1_핵심개요", JDict [(py "배경목적", JStr (py "Portal renewal"))])] in
  exists doc,
    In (py "text", inl (ServiceError (py "timeout")))
      (requests_since world0 (snd (get_embedding svc (py "text") world0)))
    /\ build_document svc rfp_analysis (py "text") None [] = inr doc
    /\ doc_content_vector doc = []
    /\ upload_log (snd (store_rfp_in_search svc rfp_analysis (py "text")
                          None world0))
       = upload_log world0 ++ [(doc, upload_response svc doc)].
Proof.
  cbv zeta.
  destruct (build_document
              (demo_services (fun _ _ => inl (ServiceError (py "timeout"))))
              [(py "1_핵심개요",
                JDict [(py "배경목적", JStr (py "Portal renewal"))])]
              (py "text") None []) as [e|doc] eqn:Hdoc.
  { exfalso. vm_compute in Hdoc. discriminate Hdoc. }
  exists doc.
  assert (Hin : In (py "text", @inl exn vector (ServiceError (py "timeout")))
                  (requests_since world0
                     (snd (get_embedding
                             (demo_services
                                (fun _ _ => inl (ServiceError (py "timeout"))))
                             (py "text") world0)))).
  { vm_compute. left. reflexivity. }
  split; [exact Hin|]. split; [reflexivity|].
  exact (store_after_embedding_failure _ _ _ _ _ _ _ _ Hin Hdoc).
Defined.

(** X8. A category that is present but not a mapping makes the storage fail
    late: the embedding requests are sent first, then the flattening
    raises, nothing is uploaded, the error is reported and the answer is
    [False]. *)
Theorem store_rejects_malformed (svc : services) (rfp_analysis : dict)
    (rfp_content : pystr) (pdf_title : option pystr) (w : world)
    (key : pystr) :
  In key [py "2_일정마일스톤"; py "3_예산가격"; py "4_평가선정기준";
          py "5_요구사항"] ->
  category_ok key rfp_analysis = false ->
  let w1 := snd (get_embedding svc rfp_content w) in
  let w' := snd (store_rfp_in_search svc rfp_analysis rfp_content pdf_title w) in
  fst (store_rfp_in_search svc rfp_analysis rfp_content pdf_title w)
  = inr false
  /\ upload_log w' = upload_log w
  /\ embed_log w' = embed_log w1
  /\ exists type,
       ui_log w'
       = ui_log w1 ++ [StError (py "❌ RFP 저장 오류: ")
                         (Some (AttributeError type (py "get")))].
Proof.
  intros Hkey Hbad. cbv zeta.
  destruct (get_embedding_returns svc rfp_content w) as [v Hv].
  destruct (build_document_malformed svc rfp_analysis rfp_content pdf_title v
              key Hkey Hbad) as [type Hdoc].
  unfold store_rfp_in_search, try_except, bind, lift, upload_documents.
  destruct (get_embedding svc rfp_content w) as [r0 w1] eqn:Hrun.
  destruct (get_embedding_frame svc rfp_content w r0 w1 Hrun)
    as (_ & Hup & _).
  cbn [fst snd] in *. subst r0. rewrite Hdoc. cbn.
  repeat split; [exact Hup|]. now exists type.
Qed.

Lemma store_rejects_malformed_witness :
  let svc := demo_services (fun _ _ => inr [1%float]) in
  let rfp_analysis := [(py "3_예산가격", JStr (py "about 100M KRW"))] in
  fst (store_rfp_in_search svc rfp_analysis (py "text") None world0)
  = inr false
  /\ upload_log (snd (store_rfp_in_search svc rfp_analysis (py "text") None
                        world0)) = []
  /\ map fst (embed_log (snd (store_rfp_in_search svc rfp_analysis (py "text")
                                None world0))) = [py "text"].
Proof.
  cbv zeta.
  assert (Hkey : In (py "3_예산가격")
                   [py "2_일정마일스톤"; py "3_예산가격"; py "4_평가선정기준";
                    py "5_요구사항"]) by (right; left; reflexivity).
  assert (Hbad : category_ok (py "3_예산가격")
                   [(py "3_예산가격", JStr (py "about 100M KRW"))] = false).
  { vm_compute. reflexivity. }
  destruct (store_rejects_malformed
              (demo_services (fun _ _ => inr [1%float]))
              _ (py "text") None world0 _ Hkey Hbad)
    as (Hr & Hup & Hlog & _).
  split; [exact Hr|]. split; [exact Hup|].
  rewrite Hlog. vm_compute. reflexivity.
Defined.

(** X9. The budget and the deadline of the stored document are the estimated
    budget of category 3 and the question deadline of category 2, and the
    empty string when the category or the field is missing. *)
Theorem budget_and_deadline (svc : services) (rfp_analysis : dict)
    (rfp_content : pystr) (pdf_title : option pystr) (content_vector : vector)
    (doc : document) :
  build_document svc rfp_analysis rfp_content pdf_title content_vector
  = inr doc ->
  doc_budget_range doc
  = dict_get (category_fields (py "3_예산가격") rfp_analysis) (py "추정예산")
      (JStr [])
  /\ doc_submission_deadline doc
     = dict_get (category_fields (py "2_일정마일스톤") rfp_analysis)
         (py "질의응답마감") (JStr []).
Proof.
  intros Hdoc. apply build_document_inv in Hdoc
    as (? & budget & deadline & ? & ? & _ & Hb & Hd & _ & _ & _ & _ & _ & _
        & -> & -> & _).
  unfold budget_range, submission_deadline, category_fields in *.
  split.
  - destruct (dict_lookup (py "3_예산가격") rfp_analysis) as [[]|];
      cbn in Hb; try discriminate Hb; now injection Hb as <-.
  - destruct (dict_lookup (py "2_일정마일스톤") rfp_analysis) as [[]|];
      cbn in Hd; try discriminate Hd; now injection Hd as <-.
Qed.

Lemma budget_and_deadline_witness :
  let svc := demo_services (fun _ _ => inr []) in
  let rfp_analysis :=
    [(py "3_예산가격", JDict [(py "추정예산", JStr (py "100M KRW"))]);
     (py "2_일정마일스톤", JDict [(py "사업기간", JStr (py "6 months"))])] in
  exists doc,
    build_document svc rfp_analysis (py "text") None [] = inr doc
    /\ doc_budget_range doc = JStr (py "100M KRW")
    /\ doc_submission_deadline doc = JStr [].
Proof.
  cbv zeta.
  destruct (build_document (demo_services (fun _ _ => inr []))
              [(py "3_예산가격", JDict [(py "추정예산", JStr (py "100M KRW"))]);
               (py "2_일정마일스톤",
                JDict [(py "사업기간", JStr (py "6 months"))])]
              (py "text") None []) as [e|doc] eqn:Hdoc.
  { exfalso. vm_compute in Hdoc. discriminate Hdoc. }
  exists doc. split; [reflexivity|].
  destruct (budget_and_deadline _ _ _ _ _ _ Hdoc) as [Hb Hd].
  rewrite Hb, Hd. split; vm_compute; reflexivity.
Defined.

(** X10. The title of a stored document is never empty, and a title that does
    not come from the extractor is at most 100 characters long. *)
Theorem title_never_empty (svc : services) (rfp_analysis : dict)
    (pdf_title : option pystr) (title : pystr) :
  document_title svc rfp_analysis pdf_title = inr title ->
  nonempty title = true
  /\ (title_given pdf_title = false -> (len title <= 100)%Z).
Proof.
  unfold document_title, and_then. intros H.
  assert (Hderived :
    forall (overview : exn + pystr) (t : pystr),
      match overview with
      | inr project_overview =>
          inr (if nonempty project_overview then firstn 100 project_overview
               else py "RFP Document")
      | inl e => inl e
      end = inr t ->
      nonempty t = true /\ (len t <= 100)%Z).
  { intros [e|ov] t Hov; [discriminate|]. injection Hov as <-.
    destruct (nonempty ov) eqn:Hn.
    - split; [|apply (firstn_len 100)].
      destruct ov; [discriminate Hn | reflexivity].
    - split; [reflexivity | vm_compute; discriminate]. }
  destruct pdf_title as [[|c t]|].
  - apply Hderived in H. split; [apply H | intros _; apply H].
  - injection H as <-. split; [reflexivity | discriminate].
  - apply Hderived in H. split; [apply H | intros _; apply H].
Qed.

Lemma title_never_empty_witness :
  nonempty (py "RFP Document") = true
  /\ (title_given None = false -> (len (py "RFP Document") <= 100)%Z).
Proof.
  assert (H : document_title (demo_services (fun _ _ => inr []))
                [(py "1_핵심개요", JDict [(py "범위", JStr (py "portal"))])] None
              = inr (py "RFP Document")).
  { vm_compute. reflexivity. }
  exact (title_never_empty _ _ _ _ H).
Defined.

(** X11. The requirements of a document are at most five values, and none of
    them is empty. *)
Theorem requirements_at_most_five (rfp_analysis : dict)
    (requirements : list json) :
  technical_requirements rfp_analysis = inr requirements ->
  (List.length requirements <= 5)%nat
  /\ Forall (fun requirement => truthy requirement = true) requirements.
Proof.
  unfold technical_requirements, and_then. intros H.
  destruct (dict_lookup (py "5_요구사항") rfp_analysis) as [info|].
  2:{ injection H as <-. split; [cbn; lia | constructor]. }
  repeat match type of H with
         | context [match value_get ?v ?k ?d with _ => _ end] =>
             destruct (value_get v k d); [discriminate H|]
         end.
  assert (Hinj : forall a b : list json, @inr exn _ a = inr b -> a = b)
    by (intros a b Hab; now injection Hab).
  apply Hinj in H. rewrite <- H. split.
  - etransitivity; [apply filter_length_le | cbn; lia].
  - apply Forall_forall. intros x Hx. now apply filter_In in Hx.
Qed.

Lemma requirements_at_most_five_witness :
  (List.length [JStr (py "SSO login")] <= 5)%nat
  /\ Forall (fun requirement => truthy requirement = true)
       [JStr (py "SSO login")].
Proof.
  assert (H : technical_requirements
                [(py "5_요구사항",
                  JDict [(py "기능요구", JStr (py "SSO login"));
                         (py "데이터", JStr []);
                         (py "호환성표준", JNull)])]
              = inr [JStr (py "SSO login")]).
  { vm_compute. reflexivity. }
  exact (requirements_at_most_five _ _ H).
Defined.

(* ================================================================== *)
(** * More on the span that is parsed                                  *)
(* ================================================================== *)

Lemma longest_close_sound (s m : pystr) :
  longest_close s = Some m ->
  exists mid trailing,
    m = mid ++ [close_brace] /\ s = m ++ trailing
    /\ ~ In close_brace trailing.
Proof.
  revert m. induction s as [|c s IH]; intros m H; cbn [longest_close] in H;
    [discriminate|].
  destruct (longest_close s) as [m'|] eqn:E.
  - injection H as <-. destruct (IH m' eq_refl) as (mid & trailing & -> & -> & Hn).
    exists (c :: mid), trailing. now repeat split.
  - destruct (N.eqb_spec c close_brace) as [->|_]; [|discriminate].
    injection H as <-. exists [], s. repeat split.
    now apply longest_close_none_inv.
Qed.

(** X12. The span that is parsed is a piece of the reply: it starts with the
    first opening brace of the reply and ends with its last closing
    brace. *)
Theorem parsed_span_shape (content span : pystr) :
  re_search_braces content = Some span ->
  exists prose mid trailing,
    content = prose ++ span ++ trailing
    /\ span = open_brace :: mid ++ [close_brace]
    /\ ~ In open_brace prose
    /\ ~ In close_brace trailing.
Proof.
  induction content as [|c content IH]; intros H; cbn [re_search_braces] in H;
    [discriminate|].
  assert (Hlater : re_search_braces content = Some span ->
                   c <> open_brace \/ longest_close content = None ->
                   exists prose mid trailing,
                     c :: content = prose ++ span ++ trailing
                     /\ span = open_brace :: mid ++ [close_brace]
                     /\ ~ In open_brace prose
                     /\ ~ In close_brace trailing).
  { intros Hs Hc. destruct (IH Hs) as (prose & mid & trailing & -> & -> & Hp & Ht).
    destruct Hc as [Hc|Hc].
    - exists (c :: prose), mid, trailing. repeat split; [|exact Ht].
      intros [Heq|Hin]; [congruence | now apply Hp].
    - exfalso. apply longest_close_none_inv in Hc. apply Hc.
      apply in_or_app. right. cbn. right. apply in_or_app. left.
      apply in_or_app. right. now left. }
  destruct (N.eqb_spec c open_brace) as [->|Hc]; [|apply Hlater; auto].
  destruct (longest_close content) as [m|] eqn:E; [|apply Hlater; auto].
  injection H as <-.
  destruct (longest_close_sound content m E) as (mid & trailing & -> & -> & Hn).
  exists [], mid, trailing. now repeat split.
Qed.

Lemma parsed_span_shape_witness :
  exists prose mid trailing,
    py "note {a} and {b} end"
    = prose ++ py "{a} and {b}" ++ trailing
    /\ py "{a} and {b}" = open_brace :: mid ++ [close_brace]
    /\ ~ In open_brace prose
    /\ ~ In close_brace trailing.
Proof.
  assert (H : re_search_braces (py "note {a} and {b} end")
              = Some (py "{a} and {b}")).
  { vm_compute. reflexivity. }
  exact (parsed_span_shape _ _ H).
Defined.

(* ================================================================== *)
(** * Searching for similar documents                                  *)
(* ================================================================== *)

Lemma hit_field_complete (result : dict) (key : pystr) :
  dict_in key result = true ->
  hit_field result key = inr (dict_get result key JNull).
Proof.
  unfold hit_field, dict_get. intros H.
  destruct (dict_lookup key result) eqn:E; [reflexivity|].
  exfalso. induction result as [|[k v] d IH]; cbn in *; [discriminate|].
  destruct (pystr_eqb k key); [discriminate | now apply IH].
Qed.

Lemma hit_field_missing (result : dict) (key : pystr) :
  dict_in key result = false ->
  hit_field result key = inl (ServiceError (py "'" ++ key ++ py "'")).
Proof.
  intros H. unfold hit_field. now rewrite (dict_in_lookup key result H).
Qed.

Lemma similar_rfp_complete (result : dict) :
  hit_complete result = true -> similar_rfp result = inr (shown_hit result).
Proof.
  unfold hit_complete, hit_keys. cbn [forallb]. intros H.
  repeat (apply andb_true_iff in H as [?H H]).
  unfold similar_rfp, and_then.
  now rewrite !hit_field_complete by assumption.
Qed.

Lemma similar_rfp_incomplete (result : dict) :
  hit_complete result = false ->
  exists key, In key hit_keys
              /\ similar_rfp result
                 = inl (ServiceError (py "'" ++ key ++ py "'")).
Proof.
  unfold hit_complete, hit_keys, similar_rfp, and_then. cbn [forallb].
  intros H.
  repeat match type of H with
         | (dict_in ?k result && _)%bool = false =>
             destruct (dict_in k result) eqn:?E;
             [rewrite (hit_field_complete result k) by assumption;
              cbn [andb] in H
             |exists k; split; [cbn; tauto|];
              now rewrite (hit_field_missing result k)]
         end.
  discriminate H.
Qed.

Lemma collect_similar_complete (results : list dict) :
  Forall (fun result => hit_complete result = true) results ->
  forall acc, collect_similar results acc = inr (acc ++ map shown_hit results).
Proof.
  induction 1 as [|result rest Hr _ IH]; intros acc; cbn [collect_similar map].
  - now rewrite app_nil_r.
  - rewrite (similar_rfp_complete result Hr). cbn [and_then].
    now rewrite IH, <- app_assoc.
Qed.

Lemma collect_similar_incomplete (results : list dict) :
  Exists (fun result => hit_complete result = false) results ->
  forall acc,
    exists key, In key hit_keys
                /\ collect_similar results acc
                   = inl (ServiceError (py "'" ++ key ++ py "'")).
Proof.
  induction results as [|result rest IH]; intros Hex acc;
    [inversion Hex|].
  cbn [collect_similar].
  destruct (hit_complete result) eqn:Hc.
  - rewrite (similar_rfp_complete result Hc). cbn [and_then].
    apply IH. inversion Hex; subst; [congruence | assumption].
  - destruct (similar_rfp_incomplete result Hc) as (key & Hk & ->).
    now exists key.
Qed.

(** X13. Without a query vector nothing is searched: when the embedding of the
    query comes back empty (as after a failed request), the answer is the
    empty list whatever the search service would have found, and nothing
    happens beyond the embedding. *)
Theorem search_needs_vector (svc : services)
    (search : pystr -> vector -> Z -> exn + list dict)
    (keywords : list pystr) (limit : Z) (w : world) :
  fst (get_embedding svc (str_join (py " ") keywords) w) = inr [] ->
  search_similar_rfps svc search keywords limit w
  = (inr [], snd (get_embedding svc (str_join (py " ") keywords) w)).
Proof.
  intros Hv. unfold search_similar_rfps, try_except. unfold bind at 1.
  destruct (get_embedding svc (str_join (py " ") keywords) w) as [r w1].
  cbn [fst snd] in *. subst r. reflexivity.
Qed.

Lemma search_needs_vector_witness :
  let svc := demo_services (fun _ _ => inl (ServiceError (py "timeout"))) in
  let search := fun _ _ _ => inr [[(py "title", JStr (py "Portal"))]] in
  fst (search_similar_rfps svc search [py "portal"; py "renewal"] 5 world0)
  = inr [].
Proof.
  cbv zeta.
  assert (H : fst (get_embedding
                     (demo_services
                        (fun _ _ => inl (ServiceError (py "timeout"))))
                     (str_join (py " ") [py "portal"; py "renewal"]) world0)
              = inr []).
  { vm_compute. reflexivity. }
  rewrite (search_needs_vector _ (fun _ _ _ =>
             inr [[(py "title", JStr (py "Portal"))]]) _ 5 world0 H).
  reflexivity.
Defined.

(** X14. The hits are answered all or none: with a query vector and hits that
    all have their five fields, the answer lists every hit in the order of
    the service, with the score zero where none is given; one hit with a
    field missing empties the whole answer and is reported. *)
Theorem search_all_or_nothing (svc : services)
    (search : pystr -> vector -> Z -> exn + list dict)
    (keywords : list pystr) (limit : Z) (w : world)
    (x : float) (v : vector) (results : list dict) :
  let search_query := str_join (py " ") keywords in
  let w1 := snd (get_embedding svc search_query w) in
  let r := fst (search_similar_rfps svc search keywords limit w) in
  let w' := snd (search_similar_rfps svc search keywords limit w) in
  fst (get_embedding svc search_query w) = inr (x :: v) ->
  search search_query (x :: v) limit = inr results ->
  (Forall (fun result => hit_complete result = true) results ->
   r = inr (map shown_hit results) /\ w' = w1)
  /\ (Exists (fun result => hit_complete result = false) results ->
      r = inr []
      /\ exists key,
           In key hit_keys
           /\ ui_log w'
              = ui_log w1
                ++ [StError (py "❌ 유사 RFP 검색 오류: ")
                      (Some (ServiceError (py "'" ++ key ++ py "'")))]).
Proof.
  cbv zeta. intros Hv Hsearch.
  unfold search_similar_rfps, try_except, bind, lift.
  destruct (get_embedding svc (str_join (py " ") keywords) w) as [r0 w1].
  cbn [fst snd] in *. subst r0. rewrite Hsearch. split.
  - intros Hall. rewrite (collect_similar_complete results Hall []).
    now split.
  - intros Hex.
    destruct (collect_similar_incomplete results Hex []) as (key & Hk & ->).
    cbn. split; [reflexivity|]. now exists key.
Qed.

Lemma search_all_or_nothing_witness :
  let svc := demo_services (fun _ _ => inr [1%float]) in
  let hit := [(py "title", JStr (py "Portal")); (py "project_type", JStr []);
              (py "requirements", JStr (py "[]"));
              (py "evaluation_criteria", JStr (py "{}"));
              (py "created_date", JStr (py "2024-01-01T00:00:00Z"))] in
  let search := fun _ _ _ => inr [hit; hit] in
  fst (search_similar_rfps svc search [py "portal"] 5 world0)
  = inr (map shown_hit [hit; hit]).
Proof.
  cbv zeta.
  set (hit := [(py "title", JStr (py "Portal")); (py "project_type", JStr []);
               (py "requirements", JStr (py "[]"));
               (py "evaluation_criteria", JStr (py "{}"));
               (py "created_date", JStr (py "2024-01-01T00:00:00Z"))]).
  assert (Hv : fst (get_embedding (demo_services (fun _ _ => inr [1%float]))
                      (str_join (py " ") [py "portal"]) world0)
               = inr [1%float]).
  { vm_compute. reflexivity. }
  destruct (search_all_or_nothing
              (demo_services (fun _ _ => inr [1%float]))
              (fun _ _ _ => inr [hit; hit]) [py "portal"] 5 world0
              1%float [] [hit; hit] Hv eq_refl) as [Hall _].
  apply Hall. repeat constructor; vm_compute; reflexivity.
Defined.

(** X15. A search never raises, sends no chat request and uploads nothing,
    and the only embedding requests it makes are those of [get_embedding]
    for the keywords joined by single spaces, whatever the search service
    answers and whatever its hits hold. *)
Theorem search_embeds_joined_keywords (svc : services)
    (search : pystr -> vector -> Z -> exn + list dict)
    (keywords : list pystr) (limit : Z) (w : world) :
  let search_query := str_join (py " ") keywords in
  let w' := snd (search_similar_rfps svc search keywords limit w) in
  (exists similar_rfps,
      fst (search_similar_rfps svc search keywords limit w) = inr similar_rfps)
  /\ embed_log w' = embed_log (snd (get_embedding svc search_query w))
  /\ chat_log w' = chat_log w
  /\ upload_log w' = upload_log w.
Proof.
  cbv zeta.
  destruct (get_embedding svc (str_join (py " ") keywords) w) as [r w1]
    eqn:Hrun.
  destruct (get_embedding_frame svc _ w r w1 Hrun) as (Hchat & Hup & _).
  unfold search_similar_rfps, try_except, bind, lift. rewrite Hrun.
  destruct r as [e|[|x v]]; cbn [fst snd st_emit ret chat_log upload_log
                                   embed_log ui_log];
    try (repeat split; [eexists; reflexivity | assumption | assumption]).
  destruct (search (str_join (py " ") keywords) (x :: v) limit)
    as [e|results]; cbn [fst snd st_emit ret chat_log upload_log embed_log
                           ui_log];
    try (repeat split; [eexists; reflexivity | assumption | assumption]).
  destruct (collect_similar results []);
    cbn [fst snd st_emit ret chat_log upload_log embed_log ui_log];
    repeat split; first [eexists; reflexivity | assumption].
Qed.

(* ================================================================== *)
(** * Answering questions                                              *)
(* ================================================================== *)

(** X16. A question costs exactly one request and never raises: the answer of
    the service is handed back as it is, and when the request fails the
    failure is reported and the fixed apology is the answer. The prompt
    holds the first 3000 characters of the text, the analysis when there is
    one, and the question. *)
Theorem question_outcome (answer : pystr -> exn + pystr)
    (dumps_indent : json -> pystr) (question rfp_content : pystr)
    (rfp_analysis : option dict) (w : world) :
  let prompt := qa_prompt (firstn 3000 rfp_content)
                  (qa_context_of dumps_indent rfp_analysis) question in
  let r := fst (ask_question_about_rfp answer dumps_indent question
                  rfp_content rfp_analysis w) in
  let w' := snd (ask_question_about_rfp answer dumps_indent question
                   rfp_content rfp_analysis w) in
  chat_log w' = chat_log w ++ [(prompt, answer prompt)]
  /\ embed_log w' = embed_log w
  /\ upload_log w' = upload_log w
  /\ match answer prompt with
     | inr text => r = inr text /\ ui_log w' = ui_log w
     | inl e =>
         r = inr qa_apology
         /\ ui_log w' = ui_log w ++ [StError (py "❌ 질의응답 처리 오류: ") (Some e)]
     end.
Proof.
  cbv zeta. unfold ask_question_about_rfp, qa_context_of, try_except,
    qa_apology. cbv zeta.
  destruct rfp_analysis as [[|item items]|];
    match goal with
    | |- context [answer ?p] => generalize p; intros prompt
    end;
    destruct (answer prompt) as [e|text];
    cbn [fst snd bind ret st_emit chat_log embed_log upload_log ui_log];
    repeat split; reflexivity.
Qed.

Lemma qa_prompt_length (content analysis_context question : pystr) :
  len (qa_prompt content analysis_context question)
  = (len content + len analysis_context + len question + 443)%Z.
Proof.
  unfold qa_prompt, len. rewrite !length_app.
  repeat match goal with
         | |- context [List.length (py ?s)] =>
             let n := eval vm_compute in (List.length (py s)) in
             change (List.length (py s)) with n
         end.
  change (List.length newline) with 1%nat.
  change (List.length double_quote) with 1%nat. lia.
Qed.

(** X17. The text beyond its first 3000 characters never reaches the model:
    two texts that agree on their first 3000 characters get the same
    request and the same answer; and the prompt is at most 3443 characters
    longer than the analysis part and the question together. *)
Theorem question_reads_3000 (answer : pystr -> exn + pystr)
    (dumps_indent : json -> pystr) (question content1 content2 : pystr)
    (rfp_analysis : option dict) (w : world) :
  firstn 3000 content1 = firstn 3000 content2 ->
  ask_question_about_rfp answer dumps_indent question content1 rfp_analysis w
  = ask_question_about_rfp answer dumps_indent question content2 rfp_analysis w
  /\ (len (qa_prompt (firstn 3000 content1)
             (qa_context_of dumps_indent rfp_analysis) question)
      <= len (qa_context_of dumps_indent rfp_analysis) + len question + 3443)%Z.
Proof.
  intros Hsame. split.
  - unfold ask_question_about_rfp. rewrite Hsame. reflexivity.
  - rewrite qa_prompt_length. pose proof (firstn_len 3000 content1). lia.
Qed.

Lemma question_reads_3000_witness :
  let answer := fun prompt => inr prompt in
  let dumps := fun _ => py "{}" in
  let base := repeat 97%N 3000 in
  ask_question_about_rfp answer dumps (py "budget?") (base ++ py "first end")
    None world0
  = ask_question_about_rfp answer dumps (py "budget?") (base ++ py "other end")
      None world0.
Proof.
  cbv zeta.
  assert (H : firstn 3000 (repeat 97%N 3000 ++ py "first end")
              = firstn 3000 (repeat 97%N 3000 ++ py "other end")).
  { vm_compute. reflexivity. }
  exact (proj1 (question_reads_3000 (fun prompt => inr prompt)
                  (fun _ => py "{}") (py "budget?") _ _ None world0 H)).
Defined.

(* ================================================================== *)
(** * Extracting the text of a file                                    *)
(* ================================================================== *)

Lemma error_shown_app (a b : list notice) :
  error_shown (a ++ b) <-> error_shown a \/ error_shown b.
Proof.
  unfold error_shown. split.
  - intros [msg H]. apply in_app_or in H as [H|H]; [left|right]; now exists msg.
  - intros [[msg H]|[msg H]]; exists msg; apply in_or_app; tauto.
Qed.

Lemma error_shown_error (a : list notice) (msg : pystr) :
  error_shown (a ++ [NError msg]).
Proof. exists msg. apply in_or_app. right. now left. Qed.

Lemma report_error_shown (a : list notice) (e : io_error) :
  error_shown (a ++ report_error e).
Proof.
  apply error_shown_app. right. destruct e; eexists; cbn; left; reflexivity.
Qed.

Ltac no_error_here :=
  let msg := fresh "msg" in let H := fresh "H" in
  intros [msg H]; cbn in H;
  repeat (destruct H as [H|H]; [discriminate H|]); exact H.

Lemma read_page_step (n : Z) (text : pystr) (notices : list notice) (i : Z)
    (page : io_error + pystr) :
  exists shown,
    read_page n (text, notices, i) page
    = (text ++ page_line page, notices ++ [shown], (i + 1)%Z)
    /\ ~ error_shown [shown].
Proof.
  destruct page as [e|[|c t]]; cbn [read_page page_line nonempty];
    rewrite ?app_nil_r; eexists; (split; [reflexivity | no_error_here]).
Qed.

Lemma read_pages_fold (n : Z) (pages : list (io_error + pystr)) :
  forall text notices i,
    exists more j,
      fold_left (read_page n) pages (text, notices, i)
      = (text ++ List.concat (map page_line pages), notices ++ more, j)
      /\ ~ error_shown more.
Proof.
  induction pages as [|page pages IH]; intros text notices i;
    cbn [fold_left map List.concat].
  - exists [], i. rewrite !app_nil_r. split; [reflexivity | no_error_here].
  - destruct (read_page_step n text notices i page) as (shown & -> & Hshown).
    destruct (IH (text ++ page_line page) (notices ++ [shown]) (i + 1)%Z)
      as (more & j & Heq & Hmore).
    exists ([shown] ++ more), j. split; [rewrite !app_assoc; exact Heq|].
    intros Herr. apply error_shown_app in Herr as [Herr|Herr]; auto.
Qed.

Lemma short_title_cases (candidate title : pystr) :
  short_title candidate = Some title ->
  title = candidate /\ nonempty title = true /\ (len title < 100)%Z.
Proof.
  unfold short_title.
  destruct (nonempty candidate) eqn:Hn; [|discriminate].
  destruct (Z.ltb_spec (len candidate) 100) as [Hlen|Hlen]; [|discriminate].
  intros Hsome. injection Hsome as <-. now repeat split.
Qed.

Ltac split_errors H :=
  repeat match type of H with
         | error_shown (_ ++ _) => apply error_shown_app in H as [H|H]
         end.

Ltac no_error_in H :=
  exfalso; split_errors H;
  first [ contradiction | revert H; no_error_here ].

(** The answer and the notices of the PDF branch. *)
Lemma extract_pdf_run (f : file) (reader : pdf_reader)
    (notices : list notice) :
  open_pdf f = inr reader ->
  let text := List.concat (map page_line (firstn 200 (pdf_pages reader))) in
  exists more,
    extract_pdf f notices
    = (if is_blank text then None
       else Some (text, pdf_title_of reader (file_stem f)),
       notices ++ more)
    /\ (error_shown more <-> is_blank text = true)
    /\ ((200 < Z.of_nat (List.length (pdf_pages reader)))%Z ->
        In page_cap_warning more).
Proof.
  intros Hopen. cbv zeta. unfold extract_pdf. rewrite Hopen.
  remember (firstn 200 (pdf_pages reader)) as first eqn:Hfirst.
  assert (Hall : (Z.of_nat (List.length (pdf_pages reader)) <= 200)%Z ->
                 firstn (Z.to_nat (Z.of_nat (List.length (pdf_pages reader))))
                   (pdf_pages reader) = first).
  { intros Hle. rewrite Nat2Z.id, firstn_all, Hfirst. symmetry.
    apply firstn_all2. lia. }
  assert (Hcut : firstn (Z.to_nat 200) (pdf_pages reader) = first).
  { rewrite Hfirst. reflexivity. }
  clear Hfirst.
  set (total := Z.of_nat (List.length (pdf_pages reader))) in *.
  unfold pdf_title_of.
  destruct (pdf_metadata_title reader) as [[|c t]|];
    try destruct (strip (c :: t)) as [|d u] eqn:Estrip;
    cbn [title_or_stem nonempty];
    destruct (Z.gtb_spec total 200) as [Hcap|Hcap];
    rewrite ?Hcut, ?(Hall Hcap);
    match goal with
    | |- context [fold_left (read_page ?n) ?ps ?st] =>
        destruct (fold_left (read_page n) ps st) as [[text' notices'] j']
          eqn:Hfold;
        match type of Hfold with
        | fold_left _ _ (?t0, ?n0, ?i0) = _ =>
            destruct (read_pages_fold n ps t0 n0 i0)
              as (more & j & Heq & Hmore)
        end;
        pose proof (eq_trans (eq_sym Hfold) Heq) as E;
        injection E as -> -> ->
    end;
    clear Hfold Heq;
    match goal with
    | |- context [is_blank ?x] =>
        change x with (List.concat (map page_line first))
    end;
    destruct (is_blank (List.concat (map page_line first))) eqn:Hblank;
    rewrite <- ?app_assoc; eexists; (split; [reflexivity|]);
    (split;
     [split;
      [first [ reflexivity | intros Herr; no_error_in Herr ]
      |first [ discriminate
             | intros _; rewrite !app_assoc; apply error_shown_error ]]
     |intros Hlong; first [ lia |
      repeat (apply in_or_app; first [left; left; reflexivity | right])]]).
Qed.

Lemma extract_pdf_sound (f : file) (notices : list notice) :
  ~ error_shown notices -> file_extension f = py ".pdf" ->
  sound_extraction f (extract_pdf f notices).
Proof.
  intros Hnone Hext. destruct (open_pdf f) as [e|reader] eqn:Hopen.
  - unfold extract_pdf. rewrite Hopen. cbn [sound_extraction fst snd].
    unfold sound_extraction. cbn [fst snd]. apply report_error_shown.
  - destruct (extract_pdf_run f reader notices Hopen) as (more & -> & Herr & _).
    unfold sound_extraction.
    destruct (is_blank _) eqn:Hblank; cbn [fst snd].
    + apply error_shown_app. right. now apply Herr.
    + split; [|split; [exact Hblank|]].
      * intros H. apply error_shown_app in H as [H|H]; [auto|].
        apply Herr in H. discriminate.
      * unfold title_from, pdf_title_of.
        destruct (pdf_metadata_title reader) as [t|]; [|now left].
        destruct (nonempty (strip t)) eqn:Hne; [|now left].
        right. repeat split; [exact Hne | apply strip_idem | now left].
Qed.

Lemma title_or_stem_short (f : file) (candidate : pystr) :
  ~ error_shown (snd (title_or_stem (short_title candidate) (file_stem f)))
  /\ (fst (title_or_stem (short_title candidate) (file_stem f)) = file_stem f
      \/ (fst (title_or_stem (short_title candidate) (file_stem f)) = candidate
          /\ nonempty candidate = true /\ (len candidate < 100)%Z)).
Proof.
  destruct (short_title candidate) as [title|] eqn:Hshort.
  - apply short_title_cases in Hshort as (-> & Hne & Hlen).
    destruct candidate as [|c t]; [discriminate|]. cbn [title_or_stem fst snd].
    split; [no_error_here | right; now repeat split].
  - cbn [title_or_stem fst snd]. split; [no_error_here | now left].
Qed.

Lemma short_title_notice (notices : list notice) (label candidate : pystr) :
  ~ error_shown notices ->
  ~ error_shown match short_title candidate with
                | Some title => notices ++ [NInfo (label ++ title)]
                | None => notices
                end.
Proof.
  intros Hnone. destruct (short_title candidate); [|exact Hnone].
  intros H. apply error_shown_app in H as [H|H]; [auto|].
  revert H. no_error_here.
Qed.

Lemma title_from_short (f : file) (candidate : pystr) :
  title_from f (fst (title_or_stem (short_title (strip candidate))
                       (file_stem f))).
Proof.
  destruct (title_or_stem_short f (strip candidate))
    as [_ [->|(-> & Hne & Hlen)]]; [now left|].
  right. repeat split; [exact Hne | apply strip_idem | now right].
Qed.

Lemma extract_docx_sound (f : file) (notices : list notice) :
  ~ error_shown notices -> sound_extraction f (extract_docx f notices).
Proof.
  intros Hnone. unfold extract_docx, sound_extraction.
  destruct (open_docx f) as [e|paragraphs]; cbn [fst snd].
  - apply report_error_shown.
  - set (found := match paragraphs with
                  | first :: _ => short_title (strip first)
                  | [] => None
                  end).
    assert (Hfound : found = short_title (strip (hd [] paragraphs))).
    { destruct paragraphs; reflexivity. }
    rewrite Hfound.
    pose proof (title_or_stem_short f (strip (hd [] paragraphs))) as [Htold _].
    pose proof (title_from_short f (hd [] paragraphs)) as Htitle.
    destruct (title_or_stem _ _) as [docx_title told]. cbn [fst snd] in *.
    destruct (is_blank (docx_text paragraphs)) eqn:Hblank; cbn [fst snd].
    + apply error_shown_error.
    + split; [|split; [exact Hblank | exact Htitle]].
      intros H. split_errors H;
        [ revert H; apply short_title_notice; intros H; no_error_in H
        | contradiction
        | revert H; no_error_here ].
Qed.

Lemma extract_txt_sound (f : file) (notices : list notice) :
  ~ error_shown notices -> sound_extraction f (extract_txt f notices).
Proof.
  intros Hnone. unfold extract_txt, sound_extraction.
  destruct (read_txt f) as [e|content]; cbn [fst snd].
  - apply report_error_shown.
  - destruct (is_blank content) eqn:Hblank; cbn [fst snd].
    + apply error_shown_error.
    + pose proof (title_or_stem_short f (strip (first_line content)))
        as [Htold _].
      pose proof (title_from_short f (first_line content)) as Htitle.
      destruct (title_or_stem _ _) as [txt_title told]. cbn [fst snd] in *.
      split; [|split; [exact Hblank | exact Htitle]].
      intros H. split_errors H;
        [ revert H; apply short_title_notice; intros H; no_error_in H
        | contradiction
        | revert H; no_error_here ].
Qed.

Lemma extract_text_from_file_sound (f : file) :
  sound_extraction f (extract_text_from_file f).
Proof.
  unfold extract_text_from_file.
  destruct (file_exists f); cbn [negb];
    [|unfold sound_extraction; cbn [fst snd]; apply error_shown_error].
  destruct (file_isfile f); cbn [negb];
    [|unfold sound_extraction; cbn [fst snd]; apply error_shown_error].
  destruct (file_size f =? 0)%Z;
    [unfold sound_extraction; cbn [fst snd]; apply error_shown_error|].
  match goal with
  | |- context [extract_pdf f ?n] =>
      assert (Hnone : ~ error_shown n) by (intros H; no_error_in H)
  end.
  destruct (pystr_eqb (file_extension f) (py ".pdf")) eqn:Hpdf.
  { apply extract_pdf_sound; [exact Hnone | now apply pystr_eqb_eq]. }
  destruct (pystr_eqb (file_extension f) (py ".docx")).
  { now apply extract_docx_sound. }
  destruct (pystr_eqb (file_extension f) (py ".txt")).
  { now apply extract_txt_sound. }
  unfold sound_extraction. cbn [fst snd].
  eexists. apply in_or_app. right. left. reflexivity.
Qed.

Lemma lstrip_all_space (s : pystr) : nonspace s = [] -> lstrip s = [].
Proof.
  induction s as [|c s IH]; cbn; [reflexivity|].
  destruct (isspace c); cbn; [exact IH | discriminate].
Qed.

Lemma is_blank_nonspace (s : pystr) : is_blank s = true <-> nonspace s = [].
Proof.
  unfold is_blank. split.
  - intros H. apply negb_true_iff, nonempty_false in H.
    unfold nonspace.
    rewrite <- (filter_strip (fun c => negb (isspace c))
                  (fun c Hc => f_equal negb Hc) s), H.
    reflexivity.
  - intros H. unfold strip. now rewrite (lstrip_all_space s H).
Qed.

Lemma docx_text_fold (paragraphs : list pystr) :
  forall text,
    fold_left (fun text paragraph =>
                 if is_blank paragraph then text
                 else text ++ paragraph ++ newline) paragraphs text
    = text ++ List.concat (map (fun paragraph => paragraph ++ newline)
                             (written paragraphs)).
Proof.
  induction paragraphs as [|p ps IH]; intros text; cbn [fold_left].
  - cbn. now rewrite app_nil_r.
  - rewrite IH. unfold written. cbn [filter].
    destruct (is_blank p); cbn [negb map List.concat]; [reflexivity|].
    now rewrite <- !app_assoc.
Qed.

Lemma docx_text_written (paragraphs : list pystr) :
  docx_text paragraphs
  = List.concat (map (fun paragraph => paragraph ++ newline)
                   (written paragraphs)).
Proof. unfold docx_text. now rewrite docx_text_fold. Qed.

Lemma docx_text_blank (paragraphs : list pystr) :
  is_blank (docx_text paragraphs) = true <-> written paragraphs = [].
Proof.
  rewrite docx_text_written. split.
  - intros H. apply is_blank_nonspace in H.
    destruct (written paragraphs) as [|p ps] eqn:Hw; [reflexivity|].
    exfalso.
    assert (Hp : In p (written paragraphs)) by (rewrite Hw; now left).
    apply filter_In in Hp as [_ Hp]. apply negb_true_iff in Hp.
    assert (Hne : nonspace p <> []).
    { intros E. apply is_blank_nonspace in E. congruence. }
    apply Hne. cbn [map List.concat] in H. unfold nonspace in *.
    rewrite !filter_app in H. now apply app_eq_nil in H as [H%app_eq_nil _].
  - intros ->. reflexivity.
Qed.

(** X18. Whatever the file, the answer of the extraction goes with what it
    shows: it gives no text exactly when it shows an error, and a text it
    gives is never blank and comes with a title that is the name of the
    file or a stripped, non-empty text found in it. *)
Theorem extraction_sound (f : file) :
  sound_extraction f (extract_text_from_file f).
Proof. apply extract_text_from_file_sound. Qed.

Lemma extract_readable (f : file) :
  readable f ->
  exists notices,
    ~ error_shown notices
    /\ extract_text_from_file f
       = if pystr_eqb (file_extension f) (py ".pdf") then
           extract_pdf f notices
         else if pystr_eqb (file_extension f) (py ".docx") then
           extract_docx f notices
         else if pystr_eqb (file_extension f) (py ".txt") then
           extract_txt f notices
         else
           (None,
            notices ++ [NError (py "❌ 지원하지 않는 파일 형식입니다: "
                                ++ file_extension f);
                        NInfo (py "   지원 형식: .pdf, .docx, .txt")]).
Proof.
  intros (Hex & Hfile & Hsize). unfold extract_text_from_file.
  rewrite Hex, Hfile. cbn [negb].
  destruct (Z.eqb_spec (file_size f) 0) as [|_]; [contradiction|].
  eexists. split; [|reflexivity]. intros H. no_error_in H.
Qed.

(** X19. The text of a readable PDF is made of its first 200 pages, in
    order, each non-empty page followed by a line feed; a page that cannot
    be read or is empty adds nothing and does not stop the extraction. The
    title is the stripped title of the metadata, or the name of the file
    when that is empty or missing. There is no answer when that text is
    blank, and a warning is shown when pages are left out. *)
Theorem pdf_pages_joined (f : file) (reader : pdf_reader) :
  readable f -> file_extension f = py ".pdf" -> open_pdf f = inr reader ->
  let text := List.concat (map page_line (firstn 200 (pdf_pages reader))) in
  fst (extract_text_from_file f)
  = (if is_blank text then None
     else Some (text, pdf_title_of reader (file_stem f)))
  /\ ((200 < Z.of_nat (List.length (pdf_pages reader)))%Z ->
      In page_cap_warning (snd (extract_text_from_file f))).
Proof.
  intros Hread Hext Hopen. cbv zeta.
  destruct (extract_readable f Hread) as (notices & _ & ->).
  assert (Hpdf : pystr_eqb (py ".pdf") (py ".pdf") = true)
    by (vm_compute; reflexivity).
  rewrite Hext, Hpdf.
  destruct (extract_pdf_run f reader notices Hopen) as (more & -> & _ & Hcap).
  cbn [fst snd]. split; [reflexivity|].
  intros Hlong. apply in_or_app. right. now apply Hcap.
Qed.

Lemma pdf_pages_joined_witness :
  let text := List.concat (map page_line
                (firstn 200 [inr (py "Scope");
                             inl (OtherError (py "KeyError") (py "'/Contents'"));
                             inr []; inr (py "Budget")])) in
  fst (extract_text_from_file demo_pdf)
  = (if is_blank text then None
     else Some (text, pdf_title_of
                        {| pdf_metadata_title := Some (py "  Portal RFP ");
                           pdf_pages :=
                             [inr (py "Scope");
                              inl (OtherError (py "KeyError")
                                     (py "'/Contents'"));
                              inr []; inr (py "Budget")] |}
                        (file_stem demo_pdf)))
  /\ ((200 < Z.of_nat (List.length
                         [inr (py "Scope");
                          inl (OtherError (py "KeyError") (py "'/Contents'"));
                          inr []; @inr io_error pystr (py "Budget")]))%Z ->
      In page_cap_warning (snd (extract_text_from_file demo_pdf))).
Proof.
  assert (Hread : readable demo_pdf).
  { split; [reflexivity | split; [reflexivity | discriminate]]. }
  assert (Hext : file_extension demo_pdf = py ".pdf")
    by (vm_compute; reflexivity).
  exact (pdf_pages_joined demo_pdf _ Hread Hext eq_refl).
Defined.

(** X20. The text of a readable DOCX is made of its paragraphs that are not
    blank, in order and as they are, each followed by a line feed; there
    is no answer exactly when every paragraph is blank. *)
Theorem docx_paragraphs_joined (f : file) (paragraphs : list pystr) :
  readable f -> file_extension f = py ".docx" ->
  open_docx f = inr paragraphs ->
  (fst (extract_text_from_file f) = None <-> written paragraphs = [])
  /\ (forall text title,
        fst (extract_text_from_file f) = Some (text, title) ->
        text = List.concat (map (fun paragraph => paragraph ++ newline)
                              (written paragraphs))).
Proof.
  intros Hread Hext Hopen.
  destruct (extract_readable f Hread) as (notices & _ & ->).
  assert (Hpdf : pystr_eqb (py ".docx") (py ".pdf") = false)
    by (vm_compute; reflexivity).
  assert (Hdocx : pystr_eqb (py ".docx") (py ".docx") = true)
    by (vm_compute; reflexivity).
  rewrite Hext, Hpdf, Hdocx. unfold extract_docx. rewrite Hopen.
  destruct (title_or_stem _ _) as [docx_title told].
  pose proof (docx_text_blank paragraphs) as Hblank.
  destruct (is_blank (docx_text paragraphs)); cbn [fst].
  - split; [split; [intros _; now apply Hblank | reflexivity]|].
    intros text title H. discriminate H.
  - split.
    + split; [discriminate|]. intros H. apply Hblank in H. discriminate H.
    + intros text title H. injection H as <- _. apply docx_text_written.
Qed.

Lemma docx_paragraphs_joined_witness :
  (fst (extract_text_from_file demo_docx) = None
   <-> written [py "Request for proposal"; py "   "; py "Scope of work"] = [])
  /\ (forall text title,
        fst (extract_text_from_file demo_docx) = Some (text, title) ->
        text = List.concat
                 (map (fun paragraph => paragraph ++ newline)
                    (written [py "Request for proposal"; py "   ";
                              py "Scope of work"]))).
Proof.
  assert (Hread : readable demo_docx).
  { split; [reflexivity | split; [reflexivity | discriminate]]. }
  assert (Hext : file_extension demo_docx = py ".docx")
    by (vm_compute; reflexivity).
  exact (docx_paragraphs_joined demo_docx _ Hread Hext eq_refl).
Defined.

(** X21. The title the extraction gives for a file with a name is the title
    of the stored document: no title is then taken from the analysis, and
    the fallback title is never used. *)
Theorem extracted_title_is_stored (svc : services) (f : file)
    (text title : pystr) (rfp_analysis : dict) :
  nonempty (file_stem f) = true ->
  fst (extract_text_from_file f) = Some (text, title) ->
  document_title svc rfp_analysis (Some title) = inr title.
Proof.
  intros Hstem Hsome.
  pose proof (extract_text_from_file_sound f) as Hsound.
  unfold sound_extraction in Hsound. rewrite Hsome in Hsound.
  destruct Hsound as (_ & _ & [->|(Hne & _)]);
    [destruct (file_stem f) | destruct title];
    first [discriminate | reflexivity].
Qed.

Lemma extracted_title_is_stored_witness :
  document_title (demo_services (fun _ _ => inr []))
    [(py "1_핵심개요", JDict [(py "배경목적", JStr (py "portal"))])]
    (Some (py "Portal RFP"))
  = inr (py "Portal RFP").
Proof.
  assert (Hstem : nonempty (file_stem demo_pdf) = true)
    by (vm_compute; reflexivity).
  assert (Hsome : fst (extract_text_from_file demo_pdf)
                  = Some (py "Scope" ++ newline ++ py "Budget" ++ newline,
                          py "Portal RFP"))
    by (vm_compute; reflexivity).
  exact (extracted_title_is_stored (demo_services (fun _ _ => inr []))
           demo_pdf _ _ _ Hstem Hsome).
Defined.


(* ================================================================== *)
(** * The size bound and the words of the input                        *)
(* ================================================================== *)

Lemma len_app (a b : pystr) : (len (a ++ b) = len a + len b)%Z.
Proof. unfold len. rewrite length_app. lia. Qed.

Lemma split_ws_from_space (a : pystr) :
  forall cur sp b,
    isspace sp = true ->
    split_ws_from cur (a ++ sp :: b) = split_ws_from cur a ++ split_ws b.
Proof.
  induction a as [|c a IH]; intros cur sp b Hsp; cbn [app split_ws_from].
  - rewrite Hsp. unfold split_ws. destruct (nonempty cur); reflexivity.
  - destruct (isspace c); [destruct (nonempty cur)|]; cbn [app];
      now rewrite ?IH.
Qed.

Lemma split_ws_app_space (a b : pystr) :
  split_ws (a ++ py " " ++ b) = split_ws a ++ split_ws b.
Proof. now apply split_ws_from_space. Qed.

Lemma split_ws_trailing (a : pystr) (sp : N) :
  isspace sp = true -> split_ws (a ++ [sp]) = split_ws a.
Proof.
  intros Hsp. unfold split_ws at 1. rewrite split_ws_from_space by exact Hsp.
  apply app_nil_r.
Qed.

Lemma split_ws_delimiter (s : pystr) :
  split_ws (s ++ py ". ") = split_ws (s ++ [period]).
Proof.
  change (py ". ") with ([period] ++ [space]). rewrite app_assoc.
  now apply split_ws_trailing.
Qed.

Lemma split_ws_lstrip (s : pystr) : split_ws (lstrip s) = split_ws s.
Proof.
  induction s as [|c s IH]; [reflexivity|]. cbn [lstrip].
  destruct (isspace c) eqn:Hc; [|reflexivity].
  rewrite IH. unfold split_ws. cbn [split_ws_from]. now rewrite Hc.
Qed.

Lemma split_ws_strip (s : pystr) : split_ws (strip s) = split_ws s.
Proof.
  assert (Hr : forall y, split_ws (rev (lstrip y)) = split_ws (rev y)).
  { induction y as [|c y IH]; [reflexivity|]. cbn [lstrip].
    destruct (isspace c) eqn:Hc; [|reflexivity].
    rewrite IH. cbn [rev]. symmetry. now apply split_ws_trailing. }
  unfold strip. now rewrite Hr, rev_involutive, split_ws_lstrip.
Qed.

Lemma in_concat_length (t : pystr) (l : list pystr) :
  In t l -> (List.length t <= List.length (List.concat l))%nat.
Proof.
  induction l as [|h l IH]; intros H; [destruct H|].
  cbn [List.concat]. rewrite length_app.
  destruct H as [->|H]; [lia | specialize (IH H); lia].
Qed.

(** A word is not longer than the string it is a word of. *)
Lemma split_ws_length (t s : pystr) :
  In t (split_ws s) -> (len t <= len s)%Z.
Proof.
  intros H. apply in_concat_length in H. rewrite concat_split_ws in H.
  pose proof (filter_length_le (fun c => negb (isspace c)) s) as Hf.
  unfold nonspace in H. unfold len. lia.
Qed.

Lemma split_ws_in_token (t s : pystr) : In t (split_ws s) -> is_token t = true.
Proof.
  intros H. pose proof (split_ws_tokens s) as Hall.
  rewrite Forall_forall in Hall. now apply Hall.
Qed.

(** The words of a fragment followed by a period: a word of the fragment
    stays or gets the period. *)
Lemma split_ws_from_period_in (s : pystr) :
  forall cur w,
    In w (split_ws_from cur s) ->
    In w (split_ws_from cur (s ++ [period]))
    \/ In (w ++ [period]) (split_ws_from cur (s ++ [period])).
Proof.
  induction s as [|c s IH]; intros cur w H; cbn [app split_ws_from] in *.
  - change (isspace period) with false. cbn [split_ws_from nonempty rev].
    destruct (nonempty cur); [|destruct H].
    destruct H as [<-|[]]. right. now left.
  - destruct (isspace c); [|now apply IH].
    destruct (nonempty cur); [|now apply IH].
    destruct H as [<-|H]; [left; now left|].
    destruct (IH [] w H) as [H'|H']; [left | right]; now right.
Qed.

(** And every word of a fragment followed by a period is the period
    alone, a word of the fragment, or a word of the fragment with the
    period. *)
Lemma split_ws_from_period_inv (s : pystr) :
  forall cur t,
    In t (split_ws_from cur (s ++ [period])) ->
    t = [period]
    \/ In t (split_ws_from cur s)
    \/ exists w, In w (split_ws_from cur s) /\ t = w ++ [period].
Proof.
  induction s as [|c s IH]; intros cur t H; cbn [app split_ws_from] in *.
  - change (isspace period) with false in H.
    cbn [split_ws_from nonempty rev] in H. destruct H as [<-|[]].
    destruct cur as [|d cur]; [now left|].
    right. right. exists (rev (d :: cur)). split; [now left | reflexivity].
  - destruct (isspace c); [|now apply IH].
    destruct (nonempty cur).
    + destruct H as [<-|H]; [right; left; now left|].
      destruct (IH [] t H) as [Ht|[Ht|(w & Hw & Ht)]];
        [now left | right; left; now right |].
      right. right. exists w. split; [now right | exact Ht].
    + now apply IH.
Qed.

(** ** A word over the limit is closed as a chunk of its own *)

Lemma pack_word_keeps (m : Z) (chunks : list pystr) (temp word x : pystr) :
  In x chunks -> In x (fst (pack_word m (chunks, temp) word)).
Proof.
  intros H. unfold pack_word.
  destruct (len (temp ++ py " " ++ word) <=? m)%Z; cbn [fst]; [exact H|].
  destruct (nonempty temp); [apply in_or_app; now left | exact H].
Qed.

Lemma pack_word_long (m : Z) (chunks : list pystr) (temp word : pystr) :
  (m < len word)%Z -> snd (pack_word m (chunks, temp) word) = word.
Proof.
  intros Hlong. unfold pack_word.
  destruct (Z.leb_spec (len (temp ++ py " " ++ word)) m) as [Hle|_];
    [|reflexivity].
  rewrite !len_app in Hle. unfold len in *. lia.
Qed.

Lemma pack_word_closes (m : Z) (chunks : list pystr) (w word : pystr) :
  is_token w = true -> (m < len w)%Z ->
  In w (fst (pack_word m (chunks, w) word)).
Proof.
  intros Htok Hlong. unfold pack_word.
  destruct (Z.leb_spec (len (w ++ py " " ++ word)) m) as [Hle|_].
  - rewrite !len_app in Hle. unfold len in *. lia.
  - apply is_token_inv in Htok as Hne. destruct Hne as [Hne _].
    destruct w as [|c w']; [congruence|]. cbn [nonempty fst].
    apply in_or_app. right. left. now apply strip_token.
Qed.

Lemma fold_pack_word_closed (m : Z) (w : pystr) (words : list pystr) :
  is_token w = true -> (m < len w)%Z ->
  forall st,
    In w (fst st) \/ snd st = w ->
    In w (fst (fold_left (pack_word m) words st))
    \/ snd (fold_left (pack_word m) words st) = w.
Proof.
  intros Htok Hlong.
  induction words as [|word words IH]; intros [chunks temp] H;
    cbn [fold_left]; [exact H|].
  apply IH. left. cbn [fst snd] in H. destruct H as [H | ->].
  - now apply pack_word_keeps.
  - now apply pack_word_closes.
Qed.

Lemma fold_pack_word_long (m : Z) (w : pystr) (words : list pystr) :
  is_token w = true -> (m < len w)%Z -> In w words ->
  forall st,
    In w (fst (fold_left (pack_word m) words st))
    \/ snd (fold_left (pack_word m) words st) = w.
Proof.
  intros Htok Hlong.
  induction words as [|word words IH]; intros Hin st; [destruct Hin|].
  cbn [fold_left]. destruct Hin as [->|Hin]; [|now apply IH].
  apply fold_pack_word_closed; [exact Htok | exact Hlong |].
  right. destruct st as [chunks temp]. now apply pack_word_long.
Qed.

Lemma fold_pack_word_keeps (m : Z) (x : pystr) (words : list pystr) :
  forall st,
    In x (fst st) -> In x (fst (fold_left (pack_word m) words st)).
Proof.
  induction words as [|word words IH]; intros [chunks temp] H;
    cbn [fold_left]; [exact H|].
  apply IH. now apply pack_word_keeps.
Qed.

Lemma rescan_step_keeps (m : Z) (final_chunks : list pystr) (chunk x : pystr) :
  In x final_chunks -> In x (rescan_step m final_chunks chunk).
Proof.
  intros H. unfold rescan_step.
  destruct (len chunk <=? m)%Z; [apply in_or_app; now left|].
  pose proof (fold_pack_word_keeps m x (split_ws chunk) (final_chunks, []) H)
    as Hk.
  unfold pack_words.
  destruct (fold_left (pack_word m) (split_ws chunk) (final_chunks, []))
    as [fc temp].
  cbn [fst] in Hk. destruct (nonempty temp); [apply in_or_app; now left|].
  exact Hk.
Qed.

Lemma rescan_step_long (m : Z) (final_chunks : list pystr) (chunk t : pystr) :
  In t (split_ws chunk) -> (m < len t)%Z ->
  In t (rescan_step m final_chunks chunk).
Proof.
  intros Hin Hlong. unfold rescan_step.
  pose proof (split_ws_length t chunk Hin) as Hlen.
  pose proof (split_ws_in_token t chunk Hin) as Htok.
  destruct (Z.leb_spec (len chunk) m) as [Hle|_]; [lia|].
  pose proof (fold_pack_word_long m t (split_ws chunk) Htok Hlong Hin
                (final_chunks, [])) as Hk.
  unfold pack_words.
  destruct (fold_left (pack_word m) (split_ws chunk) (final_chunks, []))
    as [fc temp].
  cbn [fst snd] in Hk. destruct Hk as [Hk | ->].
  - destruct (nonempty temp); [apply in_or_app; now left | exact Hk].
  - apply is_token_inv in Htok as Hne. destruct Hne as [Hne _].
    destruct t as [|c t']; [congruence|]. cbn [nonempty].
    apply in_or_app. right. left. now apply strip_token.
Qed.

Lemma fold_rescan_keeps (m : Z) (x : pystr) (chunks : list pystr) :
  forall final_chunks,
    In x final_chunks -> In x (fold_left (rescan_step m) chunks final_chunks).
Proof.
  induction chunks as [|c cs IH]; intros fc H; cbn [fold_left]; [exact H|].
  apply IH. now apply rescan_step_keeps.
Qed.

Lemma fold_rescan_long (m : Z) (t : pystr) (chunks : list pystr) :
  (m < len t)%Z ->
  Exists (fun chunk => In t (split_ws chunk)) chunks ->
  forall final_chunks, In t (fold_left (rescan_step m) chunks final_chunks).
Proof.
  intros Hlong. induction 1 as [c cs Hin|c cs _ IH]; intros fc;
    cbn [fold_left].
  - apply fold_rescan_keeps. now apply rescan_step_long.
  - apply IH.
Qed.

Lemma is_token_period (w : pystr) :
  is_token w = true -> is_token (w ++ [period]) = true.
Proof.
  intros H. apply is_token_inv in H as [Hne Hf]. unfold is_token.
  rewrite forallb_app, Hf. destruct w; [congruence | reflexivity].
Qed.

Lemma carried_closed (t : pystr) (chunks : list pystr) (current next : pystr) :
  carried t (chunks, current) -> carried t (chunks ++ [strip current], next).
Proof.
  intros [H|H]; left; apply Exists_app; [now left|].
  right. constructor. now rewrite split_ws_strip.
Qed.

Lemma sentence_step_carries (m : Z) (t : pystr) (st : list pystr * pystr)
    (sentence : pystr) :
  (m < len t)%Z -> carried t st -> carried t (sentence_step m st sentence).
Proof.
  intros Hlong Hst. destruct st as [chunks current]. unfold sentence_step.
  destruct (nonempty current) eqn:Hne.
  - destruct (Z.leb_spec (len (current ++ sentence ++ py ". ")) m)
      as [Hle|_]; [|now apply carried_closed].
    destruct Hst as [H|H]; [now left|]. cbn [snd] in H.
    apply split_ws_length in H. rewrite len_app in Hle.
    unfold len in *. lia.
  - apply nonempty_false in Hne. subst current.
    assert (Hchunks : Exists (fun chunk => In t (split_ws chunk)) chunks).
    { destruct Hst as [H|H]; [exact H | destruct H]. }
    destruct (len (sentence ++ py ". ") <=? m)%Z; [now left|].
    destruct (len sentence >? m)%Z; [|now left].
    pose proof (fun x => fold_pack_word_keeps m x (split_ws sentence)
                           (chunks, [])) as Hk.
    unfold pack_words.
    destruct (fold_left (pack_word m) (split_ws sentence) (chunks, []))
      as [chunks' temp].
    left. cbn [fst] in *. apply Exists_exists in Hchunks as (c & Hc & Ht).
    apply Exists_exists. exists c. split; [now apply Hk | exact Ht].
Qed.

Lemma sentence_step_long (m : Z) (w : pystr) (st : list pystr * pystr)
    (sentence : pystr) :
  In w (split_ws sentence) -> (m < len w)%Z ->
  carried w (sentence_step m st sentence)
  \/ carried (w ++ [period]) (sentence_step m st sentence).
Proof.
  intros Hin Hlong. destruct st as [chunks current].
  pose proof (split_ws_length w sentence Hin) as Hlen.
  pose proof (split_ws_in_token w sentence Hin) as Htok.
  assert (Hdelim : In w (split_ws (sentence ++ py ". "))
                   \/ In (w ++ [period]) (split_ws (sentence ++ py ". "))).
  { rewrite split_ws_delimiter. now apply split_ws_from_period_in. }
  unfold sentence_step.
  destruct (nonempty current) eqn:Hne.
  - destruct (Z.leb_spec (len (current ++ sentence ++ py ". ")) m)
      as [Hle|_].
    + rewrite !len_app in Hle. unfold len in *. lia.
    + destruct Hdelim as [H|H]; [left | right]; now right.
  - destruct (Z.leb_spec (len (sentence ++ py ". ")) m) as [Hle|_].
    { rewrite len_app in Hle. unfold len in *. lia. }
    destruct (Z.gtb_spec (len sentence) m) as [_|Hle]; [|lia].
    pose proof (fold_pack_word_long m w (split_ws sentence) Htok Hlong Hin
                  (chunks, [])) as Hk.
    unfold pack_words.
    destruct (fold_left (pack_word m) (split_ws sentence) (chunks, []))
      as [chunks' temp].
    cbn [fst snd] in Hk. destruct Hk as [Hk | ->].
    + left. left. cbn [fst]. apply Exists_exists. exists w.
      split; [exact Hk|]. rewrite (split_ws_token w Htok). now left.
    + right. right. cbn [snd].
      apply is_token_inv in Htok as Hne'. destruct Hne' as [Hne' _].
      destruct w as [|c w']; [congruence|]. cbn [nonempty].
      rewrite split_ws_delimiter.
      rewrite (split_ws_token _ (is_token_period _ Htok)). now left.
Qed.

Lemma fold_sentence_step_carries (m : Z) (t : pystr) (sentences : list pystr) :
  (m < len t)%Z ->
  forall st,
    carried t st -> carried t (fold_left (sentence_step m) sentences st).
Proof.
  intros Hlong. induction sentences as [|s ss IH]; intros st H;
    cbn [fold_left]; [exact H|].
  apply IH. now apply sentence_step_carries.
Qed.

Lemma fold_sentence_step_long (m : Z) (w : pystr) (sentences : list pystr) :
  (m < len w)%Z ->
  Exists (fun sentence => In w (split_ws sentence)) sentences ->
  forall st,
    carried w (fold_left (sentence_step m) sentences st)
    \/ carried (w ++ [period]) (fold_left (sentence_step m) sentences st).
Proof.
  intros Hlong. induction 1 as [s ss Hin|s ss _ IH]; intros st;
    cbn [fold_left]; [|apply IH].
  destruct (sentence_step_long m w st s Hin Hlong) as [H|H]; [left | right];
    apply fold_sentence_step_carries; try exact H; try exact Hlong.
  rewrite len_app. unfold len in *. cbn [List.length]. lia.
Qed.

Lemma sentence_pass_carried (m : Z) (t text : pystr) :
  carried t (fold_left (sentence_step m) (split_sentences text) ([], [])) ->
  Exists (fun chunk => In t (split_ws chunk)) (sentence_pass m text).
Proof.
  unfold sentence_pass.
  destruct (fold_left (sentence_step m) (split_sentences text) ([], []))
    as [chunks current].
  intros [H|H]; cbn [fst snd] in H.
  - destruct (nonempty current); [apply Exists_app; now left | exact H].
  - destruct current as [|c current']; [destruct H|]. cbn [nonempty].
    apply Exists_app. right. constructor. now rewrite split_ws_strip.
Qed.

Lemma in_input_words (text word : pystr) :
  In word (input_words text)
  <-> Exists (fun sentence => In word (split_ws sentence))
        (split_sentences text).
Proof.
  unfold input_words. rewrite in_concat, Exists_exists. split.
  - intros (l & Hl & Hw). apply in_map_iff in Hl as (s & <- & Hs).
    now exists s.
  - intros (s & Hs & Hw). exists (split_ws s). split; [|exact Hw].
    now apply in_map.
Qed.

(** Every word of the input that is longer than the limit is a chunk, as
    it is or with the period put after its fragment. *)
Lemma long_word_emitted (text word : pystr) (m : Z) :
  In word (input_words text) -> (m < len word)%Z ->
  In word (_split_text_into_chunks text m)
  \/ In (word ++ [period]) (_split_text_into_chunks text m).
Proof.
  intros Hin Hlong. apply in_input_words in Hin.
  unfold _split_text_into_chunks.
  destruct (fold_sentence_step_long m word (split_sentences text) Hlong Hin
              ([], [])) as [H|H]; [left | right];
    apply fold_rescan_long; try (now apply sentence_pass_carried);
    try exact Hlong.
  rewrite len_app. unfold len in *. cbn [List.length]. lia.
Qed.

(** ** Where the words of the chunks come from *)

(** The word loop, for words that satisfy [plain] and closed chunks made
    of words that satisfy [good]. *)
Section Words.

Variables plain good : pystr -> Prop.
Hypothesis plain_good : forall t, plain t -> good t.

Lemma pack_word_words (m : Z) (chunks : list pystr) (temp word : pystr) :
  plain word -> is_token word = true ->
  Forall (fun chunk => Forall good (split_ws chunk)) chunks ->
  Forall plain (split_ws temp) ->
  Forall (fun chunk => Forall good (split_ws chunk))
    (fst (pack_word m (chunks, temp) word))
  /\ Forall plain (split_ws (snd (pack_word m (chunks, temp) word))).
Proof.
  intros Hp Htok Hc Ht. unfold pack_word.
  assert (Hword : Forall plain (split_ws word)).
  { rewrite (split_ws_token word Htok). now constructor. }
  destruct (len (temp ++ py " " ++ word) <=? m)%Z; cbn [fst snd].
  - split; [exact Hc|]. destruct (nonempty temp); [|exact Hword].
    rewrite split_ws_app_space. apply Forall_app. now split.
  - split; [|exact Hword]. destruct (nonempty temp); [|exact Hc].
    apply Forall_app. split; [exact Hc|]. constructor; [|constructor].
    rewrite split_ws_strip. eapply Forall_impl; [|exact Ht]. exact plain_good.
Qed.

Lemma fold_pack_word_words (m : Z) (words : list pystr) :
  Forall plain words -> Forall (fun w => is_token w = true) words ->
  forall chunks temp,
    Forall (fun chunk => Forall good (split_ws chunk)) chunks ->
    Forall plain (split_ws temp) ->
    Forall (fun chunk => Forall good (split_ws chunk))
      (fst (fold_left (pack_word m) words (chunks, temp)))
    /\ Forall plain (split_ws (snd (fold_left (pack_word m) words
                                      (chunks, temp)))).
Proof.
  induction words as [|w ws IH]; intros Hp Htok chunks temp Hc Ht;
    cbn [fold_left]; [now split|].
  inversion Hp; inversion Htok; subst.
  destruct (pack_word_words m chunks temp w) as [Hc' Ht']; try assumption.
  destruct (pack_word m (chunks, temp) w) as [chunks' temp'].
  now apply IH.
Qed.

Lemma pack_words_words (m : Z) (chunks : list pystr) (s : pystr) :
  Forall plain (split_ws s) ->
  Forall (fun chunk => Forall good (split_ws chunk)) chunks ->
  Forall (fun chunk => Forall good (split_ws chunk))
    (fst (pack_words m chunks (split_ws s)))
  /\ Forall plain (split_ws (snd (pack_words m chunks (split_ws s)))).
Proof.
  intros Hp Hc. unfold pack_words.
  apply fold_pack_word_words; try assumption; [apply split_ws_tokens|].
  constructor.
Qed.

End Words.

Lemma rescan_step_words (text : pystr) (m : Z) (final_chunks : list pystr)
    (chunk : pystr) :
  words_from text chunk -> Forall (words_from text) final_chunks ->
  Forall (words_from text) (rescan_step m final_chunks chunk).
Proof.
  intros Hchunk Hf. unfold rescan_step.
  destruct (len chunk <=? m)%Z.
  - apply Forall_app. split; [exact Hf | now constructor].
  - destruct (pack_words_words (word_or_period text) (word_or_period text)
                (fun t H => H) m final_chunks chunk Hchunk Hf) as [Hc Ht].
    destruct (pack_words m final_chunks (split_ws chunk)) as [fc temp].
    cbn [fst snd] in *. destruct (nonempty temp); [|exact Hc].
    apply Forall_app. split; [exact Hc|]. constructor; [|constructor].
    unfold words_from. now rewrite split_ws_strip.
Qed.

Lemma fold_rescan_words (text : pystr) (m : Z) (chunks : list pystr) :
  Forall (words_from text) chunks ->
  forall final_chunks,
    Forall (words_from text) final_chunks ->
    Forall (words_from text) (fold_left (rescan_step m) chunks final_chunks).
Proof.
  induction 1 as [|c cs Hc _ IH]; intros fc Hf; cbn [fold_left]; [exact Hf|].
  apply IH. now apply rescan_step_words.
Qed.

(** The words of a string followed by the delimiter. *)
Lemma words_from_delimiter (text s : pystr) :
  Forall (fun w => In w (input_words text)) (split_ws s) ->
  words_from text (s ++ py ". ").
Proof.
  intros Hs. unfold words_from. rewrite split_ws_delimiter.
  rewrite Forall_forall in *. intros t Ht.
  apply split_ws_from_period_inv in Ht as [->|[Ht|(w & Hw & ->)]].
  - now left.
  - right. exists t. split; [now apply Hs | now left].
  - right. exists w. split; [now apply Hs | now right].
Qed.

Lemma sentence_step_words (text : pystr) (m : Z) (st : list pystr * pystr)
    (sentence : pystr) :
  Forall (fun w => In w (input_words text)) (split_ws sentence) ->
  pass_ok text st -> pass_ok text (sentence_step m st sentence).
Proof.
  intros Hs (Hchunks & Hcur & Hend). destruct st as [chunks current].
  cbn [fst snd] in *.
  pose proof (words_from_delimiter text sentence Hs) as Hnew.
  assert (Hnext : pass_ok text (chunks, sentence ++ py ". ")).
  { split; [exact Hchunks|]. split; [exact Hnew|]. right. now exists sentence. }
  unfold sentence_step.
  destruct (nonempty current) eqn:Hne.
  - destruct Hend as [->|(x & ->)]; [discriminate|].
    destruct (len ((x ++ py ". ") ++ sentence ++ py ". ") <=? m)%Z.
    + split; [exact Hchunks|]. cbn [snd]. split.
      * unfold words_from in *.
        replace ((x ++ py ". ") ++ sentence ++ py ". ")
          with ((x ++ [period]) ++ space :: (sentence ++ py ". "))
          by (rewrite <- !app_assoc; reflexivity).
        unfold split_ws at 1.
        rewrite split_ws_from_space by reflexivity.
        apply Forall_app. split; [|exact Hnew].
        rewrite split_ws_delimiter in Hcur. exact Hcur.
      * right. exists ((x ++ py ". ") ++ sentence). apply app_assoc.
    + split; [|split; [exact Hnew | right; now exists sentence]].
      cbn [fst]. apply Forall_app. split; [exact Hchunks|].
      constructor; [|constructor]. unfold words_from in *.
      now rewrite split_ws_strip.
  - destruct (len (sentence ++ py ". ") <=? m)%Z; [exact Hnext|].
    destruct (len sentence >? m)%Z; [|exact Hnext].
    destruct (pack_words_words (fun w => In w (input_words text))
                (word_or_period text)
                (fun t H => or_intror (ex_intro _ t (conj H (or_introl eq_refl))))
                m chunks sentence Hs Hchunks) as [Hc Ht].
    destruct (pack_words m chunks (split_ws sentence)) as [chunks' temp].
    cbn [fst snd] in *. split; [exact Hc|]. cbn [snd].
    destruct (nonempty temp).
    + split; [now apply words_from_delimiter | right; now exists temp].
    + split; [exact Hcur | exact Hend].
Qed.

Lemma fold_sentence_step_words (text : pystr) (m : Z)
    (sentences : list pystr) :
  Forall (fun sentence =>
            Forall (fun w => In w (input_words text)) (split_ws sentence))
    sentences ->
  forall st,
    pass_ok text st -> pass_ok text (fold_left (sentence_step m) sentences st).
Proof.
  induction 1 as [|s ss Hs _ IH]; intros st Hst; cbn [fold_left];
    [exact Hst|].
  apply IH. now apply sentence_step_words.
Qed.

(** Every chunk is made of words of the input, with or without the
    period, and of periods. *)
Lemma chunks_words_from (text : pystr) (m : Z) :
  Forall (words_from text) (_split_text_into_chunks text m).
Proof.
  unfold _split_text_into_chunks.
  apply fold_rescan_words; [|constructor].
  assert (Hall : Forall (fun sentence =>
                           Forall (fun w => In w (input_words text))
                             (split_ws sentence)) (split_sentences text)).
  { apply Forall_forall. intros s Hs. apply Forall_forall. intros w Hw.
    apply in_input_words, Exists_exists. now exists s. }
  assert (Hstart : pass_ok text ([], [])).
  { split; [constructor|]. split; [constructor | now left]. }
  pose proof (fold_sentence_step_words text m (split_sentences text) Hall
                ([], []) Hstart) as (Hc & Hcur & _).
  unfold sentence_pass.
  destruct (fold_left (sentence_step m) (split_sentences text) ([], []))
    as [chunks current].
  cbn [fst snd] in *. destruct (nonempty current); [|exact Hc].
  apply Forall_app. split; [exact Hc|]. constructor; [|constructor].
  unfold words_from in *. now rewrite split_ws_strip.
Qed.

(** C1, as the code behaves. For a positive limit every chunk is at most
    [max_chunk_size] characters long, or else it is one single word
    (non-empty, without whitespace) of the input, as it is or followed by
    the period the chunker puts after a fragment; so a chunk can be one
    character over the limit although no word of the input is. And no
    word is cut or dropped for its length: every word of the input that
    is longer than the limit is a chunk of its own, as it is or followed
    by that period. *)
Theorem chunk_size_bound (text : pystr) (max_chunk_size : Z) :
  (0 < max_chunk_size)%Z ->
  let chunks := _split_text_into_chunks text max_chunk_size in
  Forall (fun chunk =>
            (len chunk <= max_chunk_size)%Z
            \/ (is_token chunk = true /\ word_chunk text chunk)) chunks
  /\ (forall word,
        In word (input_words text) -> (max_chunk_size < len word)%Z ->
        In word chunks \/ In (word ++ [period]) chunks).
Proof.
  intros Hpos. cbv zeta. split.
  - pose proof (chunk_bounded_or_word text max_chunk_size) as Hbound.
    pose proof (chunks_words_from text max_chunk_size) as Hwords.
    rewrite Forall_forall in *. intros chunk Hin.
    destruct (Hbound chunk Hin) as [Hle|(Htok & Hone & Hlong)]; [now left|].
    right. split; [exact Htok|].
    specialize (Hwords chunk Hin). unfold words_from in Hwords.
    rewrite Hone in Hwords. inversion Hwords as [|? ? [->|Hword] _]; subst.
    + exfalso. change (len [period]) with 1%Z in Hlong. lia.
    + exact Hword.
  - intros word Hin Hlong. now apply long_word_emitted.
Qed.

Lemma chunk_size_bound_witness :
  In (py "aaaa") (_split_text_into_chunks (py "b aaaa c") 3)
  \/ In (py "aaaa" ++ [period]) (_split_text_into_chunks (py "b aaaa c") 3).
Proof.
  assert (Hpos : (0 < 3)%Z) by lia.
  assert (Hin : In (py "aaaa") (input_words (py "b aaaa c")))
    by (vm_compute; auto).
  assert (Hlong : (3 < len (py "aaaa"))%Z) by (vm_compute; reflexivity).
  exact (proj2 (chunk_size_bound (py "b aaaa c") 3 Hpos) (py "aaaa") Hin
           Hlong).
Defined.

(** C1, as stated, fails: with the limit 3 no word of the text [b aaa] is
    longer than the limit, yet its second chunk [aaa.] has four
    characters: the word [aaa] with the period the chunker puts after the
    fragment. So a chunk over the limit need not be a word that is over
    the limit. *)
Lemma chunk_exceeds_without_long_word :
  let text := py "b aaa" in
  split_ws text = [py "b"; py "aaa"]
  /\ input_words text = [py "b"; py "aaa"]
  /\ Forall (fun word => (len word <= 3)%Z) (split_ws text)
  /\ _split_text_into_chunks text 3 = [py "b"; py "aaa."]
  /\ ~ Forall (fun chunk =>
                 (len chunk <= 3)%Z
                 \/ exists word,
                      In word (split_ws text) /\ (3 < len word)%Z
                      /\ chunk = word)
         (_split_text_into_chunks text 3).
Proof.
  cbv zeta.
  assert (Hwords : split_ws (py "b aaa") = [py "b"; py "aaa"])
    by (vm_compute; reflexivity).
  assert (Hchunks : _split_text_into_chunks (py "b aaa") 3
                    = [py "b"; py "aaa."]) by (vm_compute; reflexivity).
  split; [exact Hwords|]. split; [vm_compute; reflexivity|].
  split; [vm_compute; repeat constructor; discriminate|].
  split; [exact Hchunks|].
  rewrite Hchunks, Hwords. intros H.
  inversion H as [|? ? _ Hrest]; subst.
  inversion Hrest as [|? ? [Hle|(word & Hin & Hlong & _)] _]; subst.
  - vm_compute in Hle. now apply Hle.
  - destruct Hin as [<-|[<-|[]]]; vm_compute in Hlong; discriminate Hlong.
Qed.
